(** * add_annotation.py: a shallow embedding and its properties

    The program annotates differential-expression tables of the Erdman
    strain with the Mycobrowser functional annotation of H37Rv.  It is a
    pipeline of table transforms written with pandas, followed by an
    xlsxwriter sheet with conditional background colours.

    Layout of this file:
    - [Py]:   the Python built-ins the source calls (exceptions,
              [str.split], [str.replace], indexing, insertion-ordered dict);
    - [pd]:   the pandas operations the source calls, on a positional
              model of a DataFrame (labels + rows of nullable cells);
    - [xlsx]: the worksheet written by [to_excel] and the conditional
              formats registered on it;
    - the three functions of the source on tables: [attributes_to_json],
      [gff_to_df], [join_func_and_gff];
    - [pathlib] and [sys]: the output path, and the files and printed
      lines of a run, for [download_annotations], [join_func_and_gff]
      on files and [main];
    - lemmas and theorems.

    Text is modelled as [string] (a sequence of bytes, UTF-8).  Every
    separator and literal the source uses is ASCII, and an ASCII byte never
    occurs inside a multi-byte UTF-8 sequence, so splitting and replacing on
    bytes agrees with Python's code-point semantics. *)

From Stdlib Require Import Ascii String.
From stdpp Require Import base strings list.

Local Open Scope string_scope.
Local Open Scope list_scope.
Local Open Scope stdpp_scope.

(** ** Python built-ins *)

Module Py.

(** The exceptions that can leave the modelled code. *)
Inductive exn : Set :=
| KeyError
| IndexError
| AttributeError
| ValueError
| NameError
| MergeError.

(** A computation that returns or raises. *)
Inductive result (A : Type) : Type :=
| Ok (a : A)
| Err (e : exn).
Global Arguments Ok {A} a.
Global Arguments Err {A} e.

Definition bind {A B} (m : result A) (f : A → result B) : result B :=
  match m with
  | Ok a => f a
  | Err e => Err e
  end.

Definition is_ok {A} (m : result A) : bool :=
  match m with Ok _ => true | Err _ => false end.

(** [for x in l] with a body that may raise: stops at the first raise. *)
Fixpoint traverse {A B} (f : A → result B) (l : list A) : result (list B) :=
  match l with
  | [] => Ok []
  | x :: l' =>
      bind (f x) (λ y, bind (traverse f l') (λ ys, Ok (y :: ys)))
  end.

(** [s.split(sep)] for a one-character separator: every occurrence of
    [sep] cuts; the result is never empty ([''.split(';') == ['']]). *)
Fixpoint split (sep : ascii) (s : string) : list string :=
  match s with
  | EmptyString => [EmptyString]
  | String c s' =>
      if Ascii.eqb c sep then EmptyString :: split sep s'
      else match split sep s' with
           | [] => [String c EmptyString]
           | w :: ws => String c w :: ws
           end
  end.

(** [l[i]] for [i >= 0]: raises IndexError out of range. *)
Definition getitem {A} (l : list A) (i : nat) : result A :=
  match l !! i with
  | Some x => Ok x
  | None => Err IndexError
  end.

(** [s.startswith(p)]. *)
Fixpoint startswith (p s : string) : bool :=
  match p, s with
  | EmptyString, _ => true
  | String _ _, EmptyString => false
  | String a p', String b s' => Ascii.eqb a b && startswith p' s'
  end.

(** [p in s]: [p] occurs somewhere in [s]. *)
Fixpoint contains (p s : string) : bool :=
  startswith p s ||
  match s with
  | EmptyString => false
  | String _ s' => contains p s'
  end.

(** [c in s] for one character. *)
Fixpoint has_char (c : ascii) (s : string) : bool :=
  match s with
  | EmptyString => false
  | String a s' => Ascii.eqb a c || has_char c s'
  end.

(** [s.replace(old, new)]: scanning left to right, every non-overlapping
    occurrence of [old] is replaced.  [skip] counts the characters of an
    occurrence just replaced that are still to be passed over. *)
Fixpoint replace_from (skip : nat) (old new s : string) : string :=
  match s with
  | EmptyString => EmptyString
  | String c s' =>
      match skip with
      | S k => replace_from k old new s'
      | O =>
          if startswith old s
          then new +:+ replace_from (String.length old - 1) old new s'
          else String c (replace_from 0 old new s')
      end
  end.

(** With an empty [old] Python inserts [new] around every character. *)
Fixpoint intersperse (new s : string) : string :=
  match s with
  | EmptyString => new
  | String c s' => new +:+ String c (intersperse new s')
  end.

Definition replace (old new s : string) : string :=
  match old with
  | EmptyString => intersperse new s
  | String _ _ => replace_from 0 old new s
  end.

(** A [dict] with string keys: insertion-ordered, assigning to a key that
    is present overwrites its value in place. *)
Definition dict : Type := list (string * string).

Fixpoint setitem (k v : string) (d : dict) : dict :=
  match d with
  | [] => [(k, v)]
  | (k', v') :: d' =>
      if String.eqb k k' then (k', v) :: d' else (k', v') :: setitem k v d'
  end.

Fixpoint get (k : string) (d : dict) : option string :=
  match d with
  | [] => None
  | (k', v') :: d' => if String.eqb k k' then Some v' else get k d'
  end.

Definition keys (d : dict) : list string := map fst d.

(** [{key(x): value(x) for x in xs}]: for each [x] in order the key is
    evaluated, then the value, then the entry is stored. *)
Fixpoint dict_comp (key value : string → result string) (xs : list string)
    (d : dict) : result dict :=
  match xs with
  | [] => Ok d
  | x :: xs' =>
      bind (key x) (λ k,
      bind (value x) (λ v,
      dict_comp key value xs' (setitem k v d)))
  end.

End Py.

Import Py.

Notation "x ←! m ; k" := (Py.bind m (λ x, k))
  (at level 20, m at level 100, k at level 200, right associativity,
   format "'[' x  ←!  '[' m ']' ; '/' k ']'").

(** ** The attribute parser of the source *)

(** [attributes_to_json]:
    [{x.split("=")[0]: x.split("=")[1] for x in attributes.split(";")}]. *)
Definition attributes_to_json (attributes : string) : result dict :=
  dict_comp (λ x, getitem (split "=" x) 0)
            (λ x, getitem (split "=" x) 1)
            (split ";" attributes) [].

(** ** pandas *)

Module pd.

(** A cell holds text or is null (NaN).  Cells are compared as pandas
    compares them when joining and when looking for duplicates: two nulls
    are equal.  A number is carried as the text of its value: a column
    that [read_csv] made numeric holds numerals, and one it left as text
    holds at least one field that is not a numeral (see [numeric]). *)
Abbreviation cell := (option string).
Abbreviation row := (list cell).

(** A DataFrame: column labels in order, and rows in order.  Labels may
    repeat, as pandas allows. *)
Record DataFrame : Type := mkDF { columns : list string; values : list row }.

(** Every row has one cell per column. *)
Definition wf (df : DataFrame) : Prop :=
  Forall (λ r : row, length r = length (columns df)) (values df).

(** The cells a row holds under label [n] (one per column so labelled). *)
Definition cells_of {A} (n : string) (cols : list string) (r : list A) : list A :=
  (filter (λ p : string * A, p.1 = n) (zip cols r)).*2.

(** The row without the cells under label [n]. *)
Definition without {A} (n : string) (cols : list string) (r : list A) : list A :=
  (filter (λ p : string * A, p.1 ≠ n) (zip cols r)).*2.

(** [df.drop([n], axis=1)]: KeyError when no column has the label. *)
Definition drop (n : string) (df : DataFrame) : result DataFrame :=
  if decide (n ∈ columns df)
  then Ok (mkDF (filter (λ c, c ≠ n) (columns df))
                (map (without n (columns df)) (values df)))
  else Err KeyError.

(** [df.loc[:, names]]: KeyError when a requested label is missing; each
    requested label selects every column that carries it. *)
Definition loc (names : list string) (df : DataFrame) : result DataFrame :=
  if decide (Forall (λ n, n ∈ columns df) names)
  then Ok (mkDF (n ← names; filter (λ c, c = n) (columns df))
                (map (λ r : row, n ← names; cells_of n (columns df) r) (values df)))
  else Err KeyError.

(** [df.query("n == 'v'")]: the rows whose column [n] holds the text [v].
    The expression is evaluated over resolvers built from every column of
    the frame, each with the dtype found under its label: a label that
    two columns share makes this raise ValueError, whichever name the
    expression uses (older versions of pandas kept the last column so
    labelled).  A name that is not a column is undefined (a NameError). *)
Definition query_eq (n v : string) (df : DataFrame) : result DataFrame :=
  if decide (NoDup (columns df))
  then if decide (n ∈ columns df)
       then Ok (mkDF (columns df)
                     (filter (λ r : row, cells_of n (columns df) r = [Some v])
                             (values df)))
       else Err NameError
  else Err ValueError.

(** [df.n = f(df.n)] for an elementwise [f]. *)
Definition map_column (n : string) (f : cell → cell) (df : DataFrame) : DataFrame :=
  mkDF (columns df)
       (map (λ r : row, zip_with (λ c x, if decide (c = n) then f x else x) (columns df) r)
            (values df)).

(** [Series.str.replace(old, new, regex=False)]: null stays null. *)
Definition str_replace (old new : string) (x : cell) : cell :=
  replace old new <$> x.

(** [df.rename(columns={old: new})]. *)
Definition rename (old new : string) (df : DataFrame) : DataFrame :=
  mkDF (map (λ c, if decide (c = old) then new else c) (columns df)) (values df).

(** [df.isna().sum().n]: the number of rows that are null under [n]. *)
Definition isna_sum (n : string) (df : DataFrame) : nat :=
  length (filter (λ r : row, cells_of n (columns df) r = [None]) (values df)).

(** [duplicated()] (keep='first'): the mask of the entries equal to an
    earlier one. *)
Fixpoint duplicated_from {A} `{EqDecision A} (seen l : list A) : list bool :=
  match l with
  | [] => []
  | x :: l' => bool_decide (x ∈ seen) :: duplicated_from (x :: seen) l'
  end.

Definition duplicated {A} `{EqDecision A} (l : list A) : list bool :=
  duplicated_from [] l.

(** [l[mask]]: the entries whose mask bit is set. *)
Definition select {A} (mask : list bool) (l : list A) : list A :=
  (filter (λ p : bool * A, p.1 = true) (zip mask l)).*2.

(** [df.drop_duplicates()]: [df[~df.duplicated()]]. *)
Definition drop_duplicates (df : DataFrame) : DataFrame :=
  mkDF (columns df) (select (map negb (duplicated (values df))) (values df)).

(** The entries that survive when those of [seen] count as already met
    ([drop_duplicates] keeps [kept_from []] of the rows). *)
Definition kept_from {A} `{EqDecision A} (seen l : list A) : list A :=
  select (map negb (duplicated_from seen l)) l.

(** A join key must name exactly one column. *)
Definition check_key (n : string) (cols : list string) : result unit :=
  match filter (λ c, c = n) cols with
  | [] => Err KeyError
  | [_] => Ok tt
  | _ => Err ValueError
  end.

(** The labels of a merge ([_items_overlap_with_suffix] with the default
    suffixes): a label on both sides gets [_x] on the left and [_y] on the
    right; a duplicate label that the suffixes create is a MergeError. *)
Definition renamer (to_rename : list string) (suffix x : string) : string :=
  if decide (x ∈ to_rename) then x +:+ suffix else x.

Definition caused_dups (orig renamed : list string) : list string :=
  (filter (λ p : string * (bool * bool), p.2.1 = true ∧ p.2.2 = false)
          (zip renamed (zip (duplicated renamed) (duplicated orig)))).*1.

Definition items_overlap_with_suffix (left right : list string)
    : result (list string * list string) :=
  let to_rename := filter (λ c, c ∈ right) left in
  match to_rename with
  | [] => Ok (left, right)
  | _ :: _ =>
      let llabels := map (renamer to_rename "_x") left in
      let rlabels := map (renamer to_rename "_y") right in
      match caused_dups left llabels ++ caused_dups right rlabels with
      | [] => Ok (llabels, rlabels)
      | _ :: _ => Err MergeError
      end
  end.

Inductive how : Set := inner | left.

(** *** The dtypes of the join keys

    The frames of the model carry no dtype, so the dtype of a key column
    is read off its cells.  For a frame that [read_csv] returned this
    loses nothing: a numeric column (int64, uint64, float64) holds the
    text of its numbers and nulls, and a column left as text holds a
    field that the parser did not read as a number, or an integer outside
    the range of int64 and uint64.  [numeral] lies between the two: it
    accepts every text that prints a number and only texts that the
    parser reads as one (a sign, digits, a fraction, an exponent, [inf]);
    so the column is numeric exactly when every field that is not null is
    a numeral.  A column of True and False (bool) counts as text here:
    [merge] does not refuse it. *)
Definition is_digit (a : ascii) : bool :=
  (48 <=? nat_of_ascii a)%nat && (nat_of_ascii a <=? 57)%nat.

(** The longest prefix of digits, and what follows it. *)
Fixpoint span_digits (s : string) : string * string :=
  match s with
  | EmptyString => (EmptyString, EmptyString)
  | String a s' =>
      if is_digit a
      then (String a (span_digits s').1, (span_digits s').2)
      else (EmptyString, s)
  end.

Fixpoint digits_value (acc : Z) (s : string) : Z :=
  match s with
  | EmptyString => acc
  | String a s' => digits_value (10 * acc + Z.of_nat (nat_of_ascii a - 48)) s'
  end.

Definition nonempty (s : string) : bool :=
  match s with EmptyString => false | String _ _ => true end.

(** [e], an optional sign, digits. *)
Definition exponent (s : string) : bool :=
  match s with
  | String c s' =>
      (Ascii.eqb c "e" || Ascii.eqb c "E") &&
      let d := match s' with
               | String x s'' =>
                   if Ascii.eqb x "+" || Ascii.eqb x "-" then s'' else s'
               | EmptyString => s'
               end in
      nonempty d && negb (nonempty (span_digits d).2)
  | EmptyString => false
  end.

(** A numeral without its sign: an integer within the range of int64 (when
    negated) or uint64, or digits with a fraction, an exponent or both. *)
Definition unsigned_numeral (negative : bool) (s : string) : bool :=
  let '(i, r) := span_digits s in
  nonempty i &&
  match r with
  | EmptyString =>
      (digits_value 0 i <=? (if negative then 2 ^ 63 else 2 ^ 64 - 1))%Z
  | String "." r' =>
      let '(f, r'') := span_digits r' in
      nonempty f && (negb (nonempty r'') || exponent r'')
  | String _ _ => exponent r
  end.

Definition numeral (s : string) : bool :=
  String.eqb s "inf" || String.eqb s "-inf" ||
  match s with
  | String "-" s' => unsigned_numeral true s'
  | _ => unsigned_numeral false s
  end.

(** The dtype [read_csv] gave a column: numeric or not. *)
Definition numeric (col : list cell) : bool :=
  forallb (λ c : cell, match c with Some s => numeral s | None => true end) col.

(** The cells of the column labelled [n], row by row. *)
Definition key_column (n : string) (df : DataFrame) : list cell :=
  r ← values df; cells_of n (columns df) r.

(** [_maybe_coerce_merge_keys], for a left frame that [read_csv] returned
    and a right key made of Python strings (object dtype whatever the
    strings spell), as in both merges of the source: nothing is checked
    when a side has no rows; a numeric left key is refused (ValueError,
    "You are trying to merge on int64 and object columns") when the right
    key holds a string, and is compared as an object when the right key
    is null throughout. *)
Definition maybe_coerce_merge_keys (lkey rkey : list cell) : result unit :=
  match lkey, rkey with
  | [], _ | _, [] => Ok tt
  | _ :: _, _ :: _ =>
      if numeric lkey && existsb (λ c : cell, bool_decide (c ≠ None)) rkey
      then Err ValueError
      else Ok tt
  end.

(** [pd.merge(l, r, left_on=lk, right_on=rk, how=h)] ([on=k] is
    [left_on=k, right_on=k]), for a left frame that [read_csv] returned and
    a right frame whose key is made of strings.  The keys are found, then
    their dtypes compared, then the labels.  Rows follow the order of the
    left frame and, for one left row, the order of its matches in the
    right frame; null keys match each other.  When both keys have the same name the right
    key column is dropped before the labels are compared.  A left row
    without a match is kept by a left join, with nulls on the right. *)
Definition right_columns (r : DataFrame) (lk rk : string) : list string :=
  if bool_decide (lk = rk) then filter (λ c, c ≠ rk) (columns r) else columns r.

Definition right_part (r : DataFrame) (lk rk : string) (y : row) : row :=
  if bool_decide (lk = rk) then without rk (columns r) y else y.

Definition matches (l r : DataFrame) (lk rk : string) (x : row) : list row :=
  filter (λ y : row, cells_of rk (columns r) y = cells_of lk (columns l) x)
         (values r).

Definition merge (h : how) (l r : DataFrame) (lk rk : string) : result DataFrame :=
  _ ←! check_key rk (columns r);
  _ ←! check_key lk (columns l);
  _ ←! maybe_coerce_merge_keys (key_column lk l) (key_column rk r);
  labels ←! items_overlap_with_suffix (columns l) (right_columns r lk rk);
  Ok (mkDF (labels.1 ++ labels.2)
           (x ← values l;
            match matches l r lk rk x with
            | [] => match h with
                    | left => [x ++ replicate (length (right_columns r lk rk)) None]
                    | inner => []
                    end
            | ms => map (λ y, x ++ right_part r lk rk y) ms
            end)).

(** [pd.json_normalize] of a list of flat dicts, i.e. [DataFrame(dicts)]:
    one column per key, in order of first appearance; null where a dict
    lacks the key. *)
Definition add_key (seen : list string) (k : string) : list string :=
  if decide (k ∈ seen) then seen else seen ++ [k].

Definition union_keys (ds : list dict) : list string :=
  foldl (λ seen d, foldl add_key seen (keys d)) [] ds.

Definition json_normalize (ds : list dict) : DataFrame :=
  let cols := union_keys ds in
  mkDF cols (map (λ d, map (λ k, get k d) cols) ds).

(** [pd.concat([a, b], axis=1)] of two frames with the same index. *)
Definition concat_columns (a b : DataFrame) : DataFrame :=
  mkDF (columns a ++ columns b) (zip_with app (values a) (values b)).

End pd.

Import pd.

(** ** The spreadsheet *)

Module xlsx.

(** A conditional format of type "formula" with the criteria
    [=INDIRECT("E"&ROW())="k"]: rows and columns are counted as the
    sheet counts them, from 1 (column A is 1, J is 10). *)
Record cond_format : Type := mkFormat {
  first_row : nat; last_row : nat;
  first_col : nat; last_col : nat;
  criteria : string;
  bg_color : string
}.

(** Sheet1 of the workbook: the rows of text as written, row 1 first, and
    the conditional formats, the first registered having priority. *)
Record workbook : Type := mkBook {
  sheet1 : list (list string);
  cond_formats : list cond_format
}.

(** [df.to_excel(writer, sheet_name="Sheet1", index=False)]: the header
    in row 1, the records from row 2 on; a null is an empty cell. *)
Definition to_excel (df : DataFrame) : list (list string) :=
  columns df :: map (map (default "")) (values df).

(** [to_excel] refuses a table of more than 2^20 rows or 2^14 columns
    (ValueError, "This sheet is too large!"). *)
Definition check_dimensions (df : DataFrame) : result unit :=
  if (N.of_nat (length (values df)) <=? 2 ^ 20)%N
     && (N.of_nat (length (columns df)) <=? 2 ^ 14)%N
  then Ok tt
  else Err ValueError.

(** The text in row [r], column [c] of the sheet (empty outside it). *)
Definition cell_text (wb : workbook) (r c : nat) : string :=
  default "" (line ← sheet1 wb !! (r - 1); line !! (c - 1)).

(** The spreadsheet's [=] on text ignores letter case. *)
Definition upper (a : ascii) : ascii :=
  let n := nat_of_ascii a in
  if (97 <=? n)%nat && (n <=? 122)%nat then ascii_of_nat (n - 32) else a.

Fixpoint upcase (s : string) : string :=
  match s with
  | EmptyString => EmptyString
  | String a s' => String (upper a) (upcase s')
  end.

Definition text_eq (a b : string) : bool := String.eqb (upcase a) (upcase b).

(** A format applies to a cell inside its range when column E of the
    cell's row equals the criteria. *)
Definition applies (wb : workbook) (r c : nat) (f : cond_format) : bool :=
  (first_row f <=? r)%nat && (r <=? last_row f)%nat &&
  (first_col f <=? c)%nat && (c <=? last_col f)%nat &&
  text_eq (cell_text wb r 5) (criteria f).

(** The background the sheet shows in row [r], column [c]. *)
Definition background (wb : workbook) (r c : nat) : option string :=
  bg_color <$> head (filter (λ f, applies wb r c f = true) (cond_formats wb)).

End xlsx.

(** ** The functions of the source *)

(** One line of the GFF file as [read_csv] returns it with the nine given
    names (a missing field is null). *)
Record FeatureLine : Type := mkLine {
  seqid : cell; source : cell; type_ : cell; start : cell; end_ : cell;
  score : cell; strand : cell; phase : cell; attributes : cell
}.

Definition gff_names : list string :=
  ["seqid"; "source"; "type"; "start"; "end"; "score"; "strand"; "phase";
   "attributes"].

Definition line_cells (l : FeatureLine) : row :=
  [seqid l; source l; type_ l; start l; end_ l; score l; strand l; phase l;
   attributes l].

(** [df.attributes.apply(attributes_to_json)]: a null field has no [split]. *)
Definition apply_attributes_to_json (l : FeatureLine) : result dict :=
  match attributes l with
  | Some a => attributes_to_json a
  | None => Err AttributeError
  end.

(** [gff_to_df]: the nine columns, then one column per attribute key. *)
Definition gff_to_df (gff : list FeatureLine) : result DataFrame :=
  let df := mkDF gff_names (map line_cells gff) in
  attributes_df ←! traverse apply_attributes_to_json gff;
  Ok (concat_columns df (json_normalize attributes_df)).

(** The two replacements applied to the Note column (lines 48-50). *)
Definition clean_note (note : cell) : cell :=
  str_replace " of M. tuberculosis H37Rv" "" (str_replace "simliar to " "" note).

Definition output_columns : list string :=
  ["Id"; "Name"; "old_locus_tag"; "Function"; "Functional_Category"; "Product";
   "baseMean"; "log2FoldChange"; "pvalue"; "padj"].

(** The palette, in the order of the [color_code] dict. *)
Definition color_code : list (string * string) :=
  [("virulence, detoxification, adaptation", "#b2df8a");
   ("information pathways", "#e31a1c");
   ("cell wall and cell processes", "#33a02c");
   ("stable RNAs", "#1f78b4");
   ("insertion seqs and phages", "#a6cee3");
   ("PE/PPE", "#6a3d9a");
   ("intermediary metabolism and respiration", "#ff7f00");
   ("unknown", "#808080");
   ("regulatory proteins", "#cab2d6");
   ("conserved hypotheticals", "#fb9a99");
   ("lipid metabolism", "#b15928")].

(** Lines 82-108: the table goes to Sheet1 (when [to_excel] accepts its
    size, see [join_func_and_gff]), and one conditional format per
    palette entry is registered on the range [$A$1:$J$<df.shape[0]>].  (With
    an empty table the range is refused by xlsxwriter; here it is the empty
    range of rows 1 to 0, which colours nothing either.) *)
Definition write_colored (df : DataFrame) : xlsx.workbook :=
  xlsx.mkBook (xlsx.to_excel df)
    (map (λ kc : string * string,
            xlsx.mkFormat 1 (length (values df)) 1 10 kc.1 kc.2)
         color_code).

(** What a call leaves behind: the count it prints, the table it writes,
    and the workbook. *)
Record Written : Type := mkWritten {
  printed : nat;
  table : DataFrame;
  book : xlsx.workbook
}.

(** [join_func_and_gff], on the tables that [read_csv] returned for
    [func_txt], [gff] and [table_to_annot]. *)
Definition join_func_and_gff (func_df : DataFrame) (gff : list FeatureLine)
    (table_to_annot : DataFrame) (id_col : string) : result Written :=
  gff ←! gff_to_df gff;
  cds ←! query_eq "type" "CDS" gff;
  df ←! loc ["locus_tag"; "Note"] cds;
  let df := map_column "Note" clean_note df in
  let df := rename "Note" "Locus" df in
  let n := isna_sum "Locus" df in
  df_to_annot ←! drop "Name" table_to_annot;
  df ←! merge inner func_df df "Locus" "Locus";
  df ←! merge left df_to_annot df id_col "locus_tag";
  df ←! loc output_columns df;
  let df := drop_duplicates df in
  _ ←! xlsx.check_dimensions df;
  Ok (mkWritten n df (write_colored df)).

(** The intermediate tables of [join_func_and_gff], named so that
    properties can speak of them: the Erdman-to-Rv correspondence (lines
    44-51) and the annotation keyed by Erdman locus tag (line 59). *)
Definition erdman_to_rv (gff : list FeatureLine) : result DataFrame :=
  gff ←! gff_to_df gff;
  cds ←! query_eq "type" "CDS" gff;
  df ←! loc ["locus_tag"; "Note"] cds;
  Ok (rename "Note" "Locus" (map_column "Note" clean_note df)).

Definition annotation (func_df : DataFrame) (gff : list FeatureLine)
    : result DataFrame :=
  df ←! erdman_to_rv gff;
  merge inner func_df df "Locus" "Locus".

(** A table as [read_csv] returns it: distinct labels (a repeated header
    is renamed on reading) and one cell per column in every row. *)
Definition frame_ok (df : DataFrame) : Prop :=
  NoDup (columns df) ∧ wf df.

(** [s.endswith(suffix)], and the labels no merge suffix can produce. *)
Fixpoint endswith (suffix s : string) : bool :=
  String.eqb s suffix ||
  match s with
  | EmptyString => false
  | String _ s' => endswith suffix s'
  end.

Definition plain (n : string) : Prop :=
  endswith "_x" n = false ∧ endswith "_y" n = false.

(** A label occurs at most once among the columns, as far as plain labels
    go: the invariant the two merges keep. *)
Definition once (cols : list string) : Prop :=
  ∀ n, plain n → (length (filter (λ c, c = n) cols) ≤ 1)%nat.

(** ** Sample data: the end-to-end scenario of the specification *)

Module Sample.


Definition func_named : DataFrame :=
  mkDF ["Locus"; "Name"; "Function"; "Functional_Category"; "Product"]
       [[Some "Rv0001"; Some "dnaA"; Some "F1"; Some "unknown"; Some "P1"]].

Definition cds_line (attrs : string) : FeatureLine :=
  mkLine (Some "AP012340.1") (Some "DDBJ") (Some "CDS") (Some "1")
         (Some "1524") None (Some "+") (Some "0") (Some attrs).

Definition gff_similar : list FeatureLine :=
  [cds_line "locus_tag=ERDMAN_0001;Note=similar to Rv0001 of M. tuberculosis H37Rv"].

Definition gff_simliar : list FeatureLine :=
  [cds_line "locus_tag=ERDMAN_0001;Note=simliar to Rv0001 of M. tuberculosis H37Rv"].

Definition result_table : DataFrame :=
  mkDF ["Id"; "Name"; "ERDMAN_ID"; "old_locus_tag"; "baseMean";
        "log2FoldChange"; "pvalue"; "padj"]
       [[Some "1"; Some "N"; Some "ERDMAN_0001"; Some "OLD1"; Some "10";
         Some "1.5"; Some "0.01"; Some "0.02"]].

(** Two genes, the second without an annotation, and a column the
    output does not carry. *)
Definition result_table2 : DataFrame :=
  mkDF ["Id"; "Name"; "ERDMAN_ID"; "old_locus_tag"; "baseMean";
        "log2FoldChange"; "pvalue"; "padj"; "lfcSE"]
       [[Some "1"; Some "N"; Some "ERDMAN_0001"; Some "OLD1"; Some "10";
         Some "1.5"; Some "0.01"; Some "0.02"; Some "0.3"];
        [Some "2"; Some "M"; Some "ERDMAN_0002"; Some "OLD2"; Some "7";
         Some "-2.1"; Some "0.2"; None; Some "0.9"]].


End Sample.

(** ** Writing an attributes field *)

(** The token [k=v] and the attributes field that lists the pairs [kvs],
    [";".join(k + "=" + v for k, v in kvs)]: what [attributes_to_json] is
    written to read. *)
Definition format_pair (kv : string * string) : string :=
  kv.1 +:+ "=" +:+ kv.2.

Fixpoint format_attributes (kvs : list (string * string)) : string :=
  match kvs with
  | [] => ""
  | kv :: rest =>
      match rest with
      | [] => format_pair kv
      | _ :: _ => format_pair kv +:+ ";" +:+ format_attributes rest
      end
  end.

(** A pair whose key and value hold neither separator. *)
Definition clean_pair (kv : string * string) : Prop :=
  has_char "=" kv.1 = false ∧ has_char ";" kv.1 = false
  ∧ has_char "=" kv.2 = false ∧ has_char ";" kv.2 = false.

(** ** The correspondence, line by line *)

(** The entry that lines 47-51 make of a CDS line whose attributes parsed
    to [d]: its locus tag and its cleaned Note. *)
Definition correspondence_row (d : dict) : row :=
  [get "locus_tag" d; clean_note (get "Note" d)].

(** The CDS lines of a file, each with its parsed attributes. *)
Definition cds_lines (gff : list FeatureLine) (ds : list dict)
    : list (FeatureLine * dict) :=
  filter (λ ld : FeatureLine * dict, type_ ld.1 = Some "CDS") (zip gff ds).

(** ** pathlib *)

Module pathlib.

(** [rfind]: the index of the last occurrence of a character. *)
Fixpoint rfind (c : ascii) (s : string) : option nat :=
  match s with
  | EmptyString => None
  | String a s' =>
      match rfind c s' with
      | Some i => Some (S i)
      | None => if Ascii.eqb a c then Some 0 else None
      end
  end.

(** [s[:n]] and [s[n:]]. *)
Fixpoint take_string (n : nat) (s : string) : string :=
  match n, s with
  | S n', String a s' => String a (take_string n' s')
  | _, _ => EmptyString
  end.

Fixpoint drop_string (n : nat) (s : string) : string :=
  match n, s with
  | S n', String _ s' => drop_string n' s'
  | _, _ => s
  end.

(** A pure POSIX path: the root ("", "/" or "//") and the components
    after it, as [PurePosixPath(s)] parses them: empty components and "."
    are dropped, ".." is kept. *)
Record PurePath : Type := mkPath { root : string; parts : list string }.

Definition parse_root (s : string) : string :=
  match s with
  | String "/" (String "/" (String "/" _)) => "/"
  | String "/" (String "/" _) => "//"
  | String "/" _ => "/"
  | _ => ""
  end.

Definition Path (s : string) : PurePath :=
  mkPath (parse_root s) (filter (λ x, x ≠ "" ∧ x ≠ ".") (split "/" s)).

(** [p.name]: the last component, empty when there is none. *)
Definition name (p : PurePath) : string := default "" (last (parts p)).

(** [suffix] of a name: from its last dot on, unless that dot is the first
    or the last character (the rule of Python up to 3.13). *)
Definition suffix_of (n : string) : string :=
  match rfind "." n with
  | Some i =>
      if (0 <? i)%nat && (i <? String.length n - 1)%nat then drop_string i n
      else ""
  | None => ""
  end.

(** [p.with_suffix(suffix)] for a well-formed suffix: ValueError when the
    path has an empty name; otherwise the old suffix of the last component
    is cut off and the new one appended. *)
Definition with_suffix (suffix : string) (p : PurePath) : result PurePath :=
  match name p with
  | EmptyString => Err ValueError
  | String _ _ as n =>
      let old := suffix_of n in
      let n' := take_string (String.length n - String.length old) n +:+ suffix in
      Ok (mkPath (root p) (removelast (parts p) ++ [n']))
  end.

End pathlib.

(** Line 80: [Path(table_to_annot).with_suffix(".ann.xlsx")]. *)
Definition outfile (table_to_annot : string) : result pathlib.PurePath :=
  pathlib.with_suffix ".ann.xlsx" (pathlib.Path table_to_annot).

(** ** The program on files *)

(** The world the program runs in: the files it can read and write, named
    by pure path and holding bytes, and the lines it has printed.  Every
    path names a local file, and two paths name the same file only when
    they are the same pure path (no links, no [..] resolved).  Opening
    a file for writing and writing to it are taken to succeed; a file that
    is not there, bytes that do not parse and a request that fails stop the
    program. *)
Module sys.

Inductive failure : Set :=
| Raised (e : exn)
| RequestException
| FileNotFoundError
| ParserError.

(** Line 27 and line 53. *)
Inductive message : Set :=
| Downloading
| Unmapped (n : nat).

Record world : Type := mkWorld {
  files : pathlib.PurePath → option string;
  stdout : list message
}.

Inductive outcome (A : Type) : Type :=
| Done (a : A)
| Failed (f : failure).
Global Arguments Done {A} a.
Global Arguments Failed {A} f.

(** A step of the program: it ends or fails, and leaves a world. *)
Definition io (A : Type) : Type := world → outcome A * world.

Definition ret {A} (a : A) : io A := λ w, (Done a, w).

Definition bind {A B} (m : io A) (k : A → io B) : io B :=
  λ w, match m w with
       | (Done a, w') => k a w'
       | (Failed f, w') => (Failed f, w')
       end.

(** A computation of the pure part, raising as it raises. *)
Definition lift {A} (r : result A) : io A :=
  λ w, match r with
       | Ok a => (Done a, w)
       | Err e => (Failed (Raised e), w)
       end.

Definition print (m : message) : io unit :=
  λ w, (Done tt, mkWorld (files w) (stdout w ++ [m])).

Global Instance PurePath_eq_dec : EqDecision pathlib.PurePath.
Proof. solve_decision. Defined.

(** [open(p, "wb").write(b)], and a workbook closed at [p]: the file is
    created or replaced. *)
Definition write_file (p : pathlib.PurePath) (b : string) : io unit :=
  λ w, (Done tt,
        mkWorld (λ q, if decide (q = p) then Some b else files w q) (stdout w)).

(** [open(p, "wb")] without a write: the file is created, or emptied. *)
Definition open_wb (p : pathlib.PurePath) : io unit := write_file p "".

(** The bytes of a file, parsed by [parse]. *)
Definition read_file {A} (parse : string → option A) (path : string) : io A :=
  λ w, match files w (pathlib.Path path) with
       | None => (Failed FileNotFoundError, w)
       | Some b =>
           match parse b with
           | Some a => (Done a, w)
           | None => (Failed ParserError, w)
           end
       end.

(** [for x in l: body(x)]. *)
Fixpoint for_each {A} (body : A → io unit) (l : list A) : io unit :=
  match l with
  | [] => ret tt
  | x :: l' => bind (body x) (λ _, for_each body l')
  end.

End sys.

Notation "x ←$ m ; k" := (sys.bind m (λ x, k))
  (at level 20, m at level 100, k at level 200, right associativity,
   format "'[' x  ←$  '[' m ']' ; '/' k ']'").

Section Program.

(** What the libraries do and this file does not model: the answer to a
    GET request (its status and body, or nothing when the request raises),
    the parsers of [read_csv] with a guessed and with a tab separator, and
    the bytes of a workbook. *)
Variable requests_get : string → option (nat * string).
Variable read_csv : string → option DataFrame.
Variable read_gff : string → option (list FeatureLine).
Variable xlsx_bytes : xlsx.workbook → string.

Definition func_annot_url : string :=
  "https://mycobrowser.epfl.ch/releases/3/get_file?dir=txt&file=Mycobacterium_tuberculosis_H37Rv.txt".

Definition corr_h37rv_url : string :=
  "https://www.ncbi.nlm.nih.gov/sviewer/viewer.cgi?tool=portal&save=file&log$=seqview&db=nuccore&report=gff3&id=379026087&conwithfeat=on&hide-sequence=on&hide-cdd=on".

(** The defaults of [--func_txt] and [--gff], which are also the names the
    download writes to. *)
Definition default_func_txt : string := "mycobrowser_functional_annotation.tsv".
Definition default_gff : string := "H37rv_Erdman_correspondance.gff".

(** [requests.get(url)]: the response, whatever its status. *)
Definition http_get (url : string) : sys.io (nat * string) :=
  λ w, match requests_get url with
       | Some r => (sys.Done r, w)
       | None => (sys.Failed sys.RequestException, w)
       end.

(** [download_annotations] (lines 26-36): both requests, then both files. *)
Definition download_annotations : sys.io unit :=
  _ ←$ sys.print sys.Downloading;
  func_annot ←$ http_get func_annot_url;
  corr_h37rv ←$ http_get corr_h37rv_url;
  _ ←$ sys.write_file (pathlib.Path default_func_txt) func_annot.2;
  sys.write_file (pathlib.Path default_gff) corr_h37rv.2.

(** [join_func_and_gff] (lines 39-108) with its reads, its print and its
    writes in their places: the pure steps are those of the function
    above.  The writer of line 82 opens the output file, which is there
    and empty from then on; the workbook reaches it when it is closed at
    line 108. *)
Definition join_func_and_gff_files (func_txt gff table_to_annot id_col : string)
    : sys.io unit :=
  func_df ←$ sys.read_file read_csv func_txt;
  lines ←$ sys.read_file read_gff gff;
  gff ←$ sys.lift (gff_to_df lines);
  cds ←$ sys.lift (query_eq "type" "CDS" gff);
  df ←$ sys.lift (loc ["locus_tag"; "Note"] cds);
  let df := rename "Note" "Locus" (map_column "Note" clean_note df) in
  _ ←$ sys.print (sys.Unmapped (isna_sum "Locus" df));
  table ←$ sys.read_file read_csv table_to_annot;
  df_to_annot ←$ sys.lift (drop "Name" table);
  df ←$ sys.lift (merge inner func_df df "Locus" "Locus");
  df ←$ sys.lift (merge left df_to_annot df id_col "locus_tag");
  df ←$ sys.lift (loc output_columns df);
  let df := drop_duplicates df in
  outfile ←$ sys.lift (outfile table_to_annot);
  _ ←$ sys.open_wb outfile;
  _ ←$ sys.lift (xlsx.check_dimensions df);
  sys.write_file outfile (xlsx_bytes (write_colored df)).

(** [main] (lines 124-135). *)
Definition main (tables_to_annot : list string) (id_col func_txt gff : string)
    : sys.io unit :=
  _ ←$ download_annotations;
  sys.for_each (λ t, join_func_and_gff_files func_txt gff t id_col)
               tables_to_annot.

End Program.

(** A small world to run the program in: parsers that know three files
    by their bytes, a server that answers both requests, and a disk that
    holds a result table and two annotation files of the user's own. *)
Module SampleRun.

Definition read_csv (b : string) : option DataFrame :=
  if decide (b = "func") then Some Sample.func_named
  else if decide (b = "table") then Some Sample.result_table2
  else None.

Definition read_gff (b : string) : option (list FeatureLine) :=
  if decide (b = "gff") then Some Sample.gff_simliar else None.

(** The sheet as text, one line per row. *)
Definition xlsx_bytes (wb : xlsx.workbook) : string :=
  String.concat ";" (map (String.concat ",") (xlsx.sheet1 wb)).

(** The second answer is an error page that happens to carry the file. *)
Definition requests_get (url : string) : option (nat * string) :=
  if decide (url = func_annot_url) then Some (200, "func")
  else if decide (url = corr_h37rv_url) then Some (503, "gff")
  else None.

Definition offline (url : string) : option (nat * string) := None.

Definition disk (q : pathlib.PurePath) : option string :=
  if decide (q = pathlib.Path "results/table.tsv") then Some "table"
  else if decide (q = pathlib.Path "my/func.tsv") then Some "func"
  else if decide (q = pathlib.Path "my/corr.gff") then Some "gff"
  else None.

Definition world : sys.world := sys.mkWorld disk [].

End SampleRun.

(** * Properties *)

(** ** Text: replacing and splitting *)

Lemma replace_from_absent old new s :
  contains old s = false → replace_from 0 old new s = s.
Proof.
  induction s as [|c s IH]; [done|].
  intros H. cbn [contains] in H. apply orb_false_elim in H as [Hp Hc].
  cbn [replace_from]. rewrite Hp. f_equal. by apply IH.
Qed.

Lemma replace_absent old new s :
  contains old s = false → replace old new s = s.
Proof.
  destruct old as [|a old].
  - destruct s; simpl; discriminate.
  - apply replace_from_absent.
Qed.

Lemma append_cons c x r : String c x +:+ r = String c (x +:+ r).
Proof. reflexivity. Qed.

Lemma append_nil r : "" +:+ r = r.
Proof. reflexivity. Qed.

Ltac split_has_char H :=
  cbn [has_char] in H; apply orb_false_elim in H as [? H].

Ltac decide_chars :=
  rewrite ?append_cons, ?append_nil;
  cbn [startswith];
  repeat match goal with
  | E : Ascii.eqb ?c ?a = false |- context [Ascii.eqb ?a ?c] =>
      rewrite (Ascii.eqb_sym a c), E
  | |- context [Ascii.eqb ?a ?b] =>
      is_var b; destruct (Ascii.eqb a b); cbn [andb]; [|reflexivity]
  end;
  rewrite ?andb_false_r; try reflexivity; try (vm_compute; reflexivity).

Lemma startswith_simliar_false x :
  has_char " " x = false → x ≠ "" →
  startswith "simliar to " (x +:+ " of M. tuberculosis H37Rv") = false.
Proof.
  intros H Hne.
  destruct x as [|c0 x]; [congruence|]. split_has_char H.
  do 7 (destruct x as [|? x]; [by decide_chars|]; split_has_char H).
  by decide_chars.
Qed.

Lemma replace_simliar_keeps x :
  has_char " " x = false →
  replace "simliar to " "" (x +:+ " of M. tuberculosis H37Rv")
  = x +:+ " of M. tuberculosis H37Rv".
Proof.
  unfold replace. induction x as [|c x IH]; intros H.
  - vm_compute. reflexivity.
  - pose proof (startswith_simliar_false (String c x) H ltac:(done)) as Hs.
    rewrite append_cons in *. cbn [replace_from]. rewrite Hs.
    split_has_char H. f_equal. by apply IH.
Qed.

Lemma replace_suffix_strips x :
  has_char " " x = false →
  replace " of M. tuberculosis H37Rv" "" (x +:+ " of M. tuberculosis H37Rv") = x.
Proof.
  unfold replace. induction x as [|c x IH]; intros H.
  - vm_compute. reflexivity.
  - split_has_char H. rewrite append_cons.
    cbn [replace_from startswith].
    rewrite Ascii.eqb_sym, H0. cbn [andb]. f_equal. by apply IH.
Qed.

Lemma replace_from_miss old new c s :
  startswith old (String c s) = false →
  replace_from 0 old new (String c s) = String c (replace_from 0 old new s).
Proof. intros H. cbn [replace_from]. by rewrite H. Qed.

Lemma clean_note_simliar x :
  has_char " " x = false →
  clean_note (Some ("simliar to " +:+ x +:+ " of M. tuberculosis H37Rv")) = Some x.
Proof.
  intros H. unfold clean_note, str_replace. cbn [fmap option_fmap option_map].
  f_equal.
  assert (replace "simliar to " "" ("simliar to " +:+ x +:+ " of M. tuberculosis H37Rv")
          = replace "simliar to " "" (x +:+ " of M. tuberculosis H37Rv")) as ->.
  { unfold replace. rewrite !append_cons, append_nil. reflexivity. }
  rewrite replace_simliar_keeps by done. by apply replace_suffix_strips.
Qed.

Lemma startswith_suffix_after_blank x :
  has_char " " x = false →
  startswith " of M. tuberculosis H37Rv"
             (String " " (x +:+ " of M. tuberculosis H37Rv")) = false.
Proof.
  intros H.
  do 3 (destruct x as [|? x]; [by decide_chars|]; split_has_char H).
  by decide_chars.
Qed.

(** With the prefix spelled "similar to " only the suffix is removed. *)
Lemma clean_note_similar x :
  has_char " " x = false →
  clean_note (Some ("similar to " +:+ x +:+ " of M. tuberculosis H37Rv"))
  = Some ("similar to " +:+ x).
Proof.
  intros H. unfold clean_note, str_replace. cbn [fmap option_fmap option_map].
  f_equal.
  assert (replace "simliar to " "" ("similar to " +:+ x +:+ " of M. tuberculosis H37Rv")
          = "similar to " +:+ x +:+ " of M. tuberculosis H37Rv") as ->.
  { pose proof (replace_simliar_keeps x H) as Hk. unfold replace in *.
    rewrite !append_cons, append_nil.
    do 11 (rewrite replace_from_miss by reflexivity). by rewrite Hk. }
  pose proof (replace_suffix_strips x H) as Hk. unfold replace in *.
  rewrite !append_cons, append_nil.
  do 10 (rewrite replace_from_miss by reflexivity).
  rewrite replace_from_miss by (by apply startswith_suffix_after_blank).
  by rewrite Hk.
Qed.

(** The cleaning as the claim words it, with the prefix spelled
    "similar to ", is not what the step does: on the Note of the
    specification's end-to-end scenario the Locus keeps its prefix. *)
Lemma clean_note_keeps_similar_prefix :
  clean_note (Some "similar to Rv0001 of M. tuberculosis H37Rv")
  = Some "similar to Rv0001"
  ∧ clean_note (Some "similar to Rv0001 of M. tuberculosis H37Rv") ≠ Some "Rv0001".
Proof. split; [vm_compute; reflexivity | vm_compute; discriminate]. Qed.

(** C7: with the Note "simliar to RvXXXX of M. tuberculosis H37Rv" the Locus
    is "RvXXXX" (for any identifier [x] without a blank in place of RvXXXX);
    a Note in which neither literal occurs is left unchanged; a null Note
    stays null. *)
Theorem clean_note_as_tested (x note : string) :
  has_char " " x = false →
  contains "simliar to " note = false →
  contains " of M. tuberculosis H37Rv" note = false →
  clean_note (Some ("simliar to " +:+ x +:+ " of M. tuberculosis H37Rv")) = Some x
  ∧ clean_note (Some note) = Some note
  ∧ clean_note None = None.
Proof.
  intros Hx H1 H2. split; [by apply clean_note_simliar|]. split; [|done].
  unfold clean_note, str_replace. cbn [fmap option_fmap option_map].
  by rewrite (replace_absent _ _ _ H1), (replace_absent _ _ _ H2).
Qed.

Lemma clean_note_as_tested_witness :
  has_char " " "RvXXXX" = false
  ∧ contains "simliar to " "Rv0001c" = false
  ∧ contains " of M. tuberculosis H37Rv" "Rv0001c" = false
  ∧ clean_note (Some "simliar to RvXXXX of M. tuberculosis H37Rv") = Some "RvXXXX"
  ∧ clean_note (Some "Rv0001c") = Some "Rv0001c"
  ∧ clean_note None = None.
Proof.
  split; [reflexivity|]. split; [reflexivity|]. split; [reflexivity|].
  apply (clean_note_as_tested "RvXXXX" "Rv0001c"); reflexivity.
Defined.

(** ** The attribute parser *)

Lemma split_nonempty sep s : split sep s ≠ [].
Proof.
  destruct s as [|c s]; [done|]. cbn [split].
  destruct (Ascii.eqb c sep); [done|]. by destruct (split sep s).
Qed.

Lemma split_absent sep s : has_char sep s = false → split sep s = [s].
Proof.
  induction s as [|c s IH]; [done|]. intros H.
  cbn [has_char] in H. apply orb_false_elim in H as [Hc H].
  cbn [split]. rewrite Hc, (IH H). done.
Qed.

Lemma split_app_sep sep a b :
  has_char sep a = false →
  split sep (a +:+ String sep b) = a :: split sep b.
Proof.
  induction a as [|c a IH]; intros H.
  - rewrite append_nil. cbn [split]. by rewrite Ascii.eqb_refl.
  - cbn [has_char] in H. apply orb_false_elim in H as [Hc H].
    rewrite append_cons. cbn [split]. rewrite Hc, (IH H). done.
Qed.

Lemma getitem_split_0 sep s : ∃ k, getitem (split sep s) 0 = Ok k.
Proof.
  pose proof (split_nonempty sep s). destruct (split sep s) as [|k ?]; [done|].
  by exists k.
Qed.

Lemma getitem_err {A} (l : list A) i e : getitem l i = Err e → e = IndexError.
Proof. unfold getitem. destruct (l !! i); congruence. Qed.

Lemma setitem_get_eq k v d : get k (setitem k v d) = Some v.
Proof.
  induction d as [|[k' v'] d IH]; cbn [setitem get].
  - by rewrite String.eqb_refl.
  - destruct (String.eqb k k') eqn:E; cbn [get]; rewrite E; done.
Qed.

Lemma setitem_get_ne k k' v d : k ≠ k' → get k (setitem k' v d) = get k d.
Proof.
  intros Hne. induction d as [|[k2 v2] d IH]; cbn [setitem get].
  - by apply String.eqb_neq in Hne as ->.
  - destruct (String.eqb k' k2) eqn:E; cbn [get].
    + apply String.eqb_eq in E as <-. by apply String.eqb_neq in Hne as ->.
    + by rewrite IH.
Qed.

Section DictComp.
Variables key value : string → result string.

Lemma dict_comp_app xs ys d :
  dict_comp key value (xs ++ ys) d
  = (d' ←! dict_comp key value xs d; dict_comp key value ys d').
Proof.
  revert d. induction xs as [|x xs IH]; intros d; [done|].
  cbn [dict_comp app]. destruct (key x); [|done]. cbn [bind].
  destruct (value x); [|done]. cbn [bind]. apply IH.
Qed.

(** Entries stored later under other keys leave a key's value alone. *)
Lemma dict_comp_get_other k xs d d' :
  dict_comp key value xs d = Ok d' →
  Forall (λ y, key y ≠ Ok k) xs →
  get k d' = get k d.
Proof.
  revert d. induction xs as [|x xs IH]; intros d H Hall.
  - cbn in H. congruence.
  - apply Forall_cons in Hall as [Hx Hall]. cbn [dict_comp] in H.
    destruct (key x) as [k'|] eqn:Ek; [|done]. cbn [bind] in H.
    destruct (value x) as [v'|]; [|done]. cbn [bind] in H.
    rewrite (IH _ H Hall). apply setitem_get_ne. congruence.
Qed.

(** The value of a key is the one of its last occurrence. *)
Lemma dict_comp_get_last k v pre x post d d' :
  dict_comp key value (pre ++ x :: post) d = Ok d' →
  key x = Ok k → value x = Ok v →
  Forall (λ y, key y ≠ Ok k) post →
  get k d' = Some v.
Proof.
  intros H Hk Hv Hpost. rewrite dict_comp_app in H.
  destruct (dict_comp key value pre d) as [d1|]; [|done]. cbn [bind] in H.
  cbn [dict_comp] in H. rewrite Hk, Hv in H. cbn [bind] in H.
  rewrite (dict_comp_get_other _ _ _ _ H Hpost). apply setitem_get_eq.
Qed.

(** The comprehension raises as soon as one element does. *)
Lemma dict_comp_raises xs d e :
  (∀ x, ∃ k, key x = Ok k) →
  (∀ x e', value x = Err e' → e' = e) →
  Exists (λ x, value x = Err e) xs →
  dict_comp key value xs d = Err e.
Proof.
  intros Hkey Hval Hex. revert d.
  induction Hex as [x xs Hx | x xs Hex IH]; intros d; cbn [dict_comp].
  - destruct (Hkey x) as [k ->]. cbn [bind]. by rewrite Hx.
  - destruct (Hkey x) as [k ->]. cbn [bind].
    destruct (value x) as [v|e'] eqn:Ev; cbn [bind]; [apply IH|].
    f_equal. by apply Hval in Ev.
Qed.
End DictComp.

Lemma traverse_raises {A B} (f : A → result B) l :
  Exists (λ x, is_ok (f x) = false) l → is_ok (traverse f l) = false.
Proof.
  induction 1 as [x l Hx | x l Hex IH]; cbn [traverse].
  - by destruct (f x).
  - destruct (f x); [|done]. cbn [bind]. by destruct (traverse f l).
Qed.

(** C9: an attributes field with a segment that has no '=' makes
    [attributes_to_json] raise IndexError, and with it the parse of every
    file that holds such a line: no row is produced, nothing is skipped or
    defaulted. *)
Theorem attribute_without_equals_raises (attrs seg : string) (gff : list FeatureLine)
    (line : FeatureLine) :
  seg ∈ split ";" attrs →
  has_char "=" seg = false →
  line ∈ gff → attributes line = Some attrs →
  attributes_to_json attrs = Err IndexError
  ∧ is_ok (gff_to_df gff) = false
  ∧ ∀ func_df table_to_annot id_col,
      is_ok (join_func_and_gff func_df gff table_to_annot id_col) = false.
Proof.
  intros Hseg Heq Hline Hattrs.
  assert (attributes_to_json attrs = Err IndexError) as Hraise.
  { unfold attributes_to_json. apply dict_comp_raises.
    - intros x. apply getitem_split_0.
    - intros x e'. apply getitem_err.
    - apply Exists_exists. exists seg. split; [done|].
      by rewrite (split_absent _ _ Heq). }
  assert (is_ok (gff_to_df gff) = false) as Hgff.
  { unfold gff_to_df.
    assert (is_ok (traverse apply_attributes_to_json gff) = false) as Ht.
    { apply traverse_raises, Exists_exists. exists line. split; [done|].
      unfold apply_attributes_to_json. by rewrite Hattrs, Hraise. }
    by destruct (traverse apply_attributes_to_json gff). }
  split; [done|]. split; [done|]. intros func_df table_to_annot id_col.
  unfold join_func_and_gff. by destruct (gff_to_df gff).
Qed.

Lemma has_char_app c a b :
  has_char c (a +:+ b) = has_char c a || has_char c b.
Proof.
  induction a as [|x a IH]; [done|].
  rewrite append_cons. cbn [has_char]. by rewrite IH, orb_assoc.
Qed.

(** What the parser makes of a single token [k=a=b]. *)
Lemma attributes_to_json_second_equals k a b :
  has_char "=" k = false → has_char "=" a = false →
  has_char ";" k = false → has_char ";" a = false → has_char ";" b = false →
  attributes_to_json (k +:+ "=" +:+ a +:+ "=" +:+ b) = Ok [(k, a)].
Proof.
  intros Hk Ha Hks Has Hbs. unfold attributes_to_json.
  rewrite split_absent.
  2:{ rewrite !has_char_app, Hks, Has, Hbs. reflexivity. }
  cbn [dict_comp].
  rewrite !append_cons, !append_nil.
  rewrite (split_app_sep _ _ _ Hk), (split_app_sep _ _ _ Ha). reflexivity.
Qed.

(** C2: a value that contains '=' should be kept in full.  The source
    splits the token on every '=' and takes the second piece, so the token
    "k=a=b" leaves "a" in column k, not "a=b". *)
Theorem value_with_equals_truncated :
  attributes_to_json "k=a=b" = Ok [("k", "a")]
  ∧ (df ←! gff_to_df [Sample.cds_line "k=a=b"];
     Ok (map (cells_of "k" (columns df)) (values df))) = Ok [[Some "a"]].
Proof. split; vm_compute; reflexivity. Qed.

(** ** The exploded attribute columns *)

Lemma traverse_lookup {A B} (f : A → result B) l ys i x :
  traverse f l = Ok ys → l !! i = Some x →
  ∃ y, ys !! i = Some y ∧ f x = Ok y.
Proof.
  revert ys i. induction l as [|a l IH]; intros ys i H Hi; [done|].
  cbn [traverse] in H. destruct (f a) as [b|] eqn:Ea; [|done]. cbn [bind] in H.
  destruct (traverse f l) as [ys'|]; [|done]. cbn [bind] in H.
  injection H as <-. destruct i as [|i]; cbn in Hi |- *.
  - injection Hi as <-. eauto.
  - by apply IH.
Qed.

Lemma traverse_length {A B} (f : A → result B) l ys :
  traverse f l = Ok ys → length ys = length l.
Proof.
  revert ys. induction l as [|a l IH]; intros ys H; cbn [traverse] in H.
  - by injection H as <-.
  - destruct (f a); [|done]. cbn [bind] in H.
    destruct (traverse f l); [|done]. cbn [bind] in H.
    injection H as <-. cbn. f_equal. by apply IH.
Qed.

Lemma add_key_NoDup seen k : NoDup seen → NoDup (add_key seen k).
Proof.
  intros H. unfold add_key. case_decide; [done|].
  apply NoDup_app. split; [done|]. split; [|apply NoDup_singleton].
  intros x Hx ->%list_elem_of_singleton. done.
Qed.

Lemma add_key_elem seen k x : x ∈ add_key seen k ↔ x ∈ seen ∨ x = k.
Proof.
  unfold add_key. case_decide.
  - split; [by left|]. intros [?| ->]; done.
  - rewrite elem_of_app, list_elem_of_singleton. done.
Qed.

Lemma foldl_add_key_NoDup ks seen : NoDup seen → NoDup (foldl add_key seen ks).
Proof.
  revert seen. induction ks as [|k ks IH]; intros seen H; [done|].
  cbn [foldl]. by apply IH, add_key_NoDup.
Qed.

Lemma foldl_add_key_elem ks seen x :
  x ∈ foldl add_key seen ks ↔ x ∈ seen ∨ x ∈ ks.
Proof.
  revert seen. induction ks as [|k ks IH]; intros seen; cbn [foldl].
  - rewrite elem_of_nil. tauto.
  - rewrite IH, add_key_elem, elem_of_cons. tauto.
Qed.

Lemma union_keys_from_NoDup ds seen :
  NoDup seen → NoDup (foldl (λ seen d, foldl add_key seen (keys d)) seen ds).
Proof.
  revert seen. induction ds as [|d ds IH]; intros seen H; [done|].
  cbn [foldl]. by apply IH, foldl_add_key_NoDup.
Qed.

Lemma union_keys_NoDup ds : NoDup (union_keys ds).
Proof. apply union_keys_from_NoDup, NoDup_nil_2. Qed.

Lemma union_keys_from_elem ds seen x :
  x ∈ foldl (λ seen d, foldl add_key seen (keys d)) seen ds
  ↔ x ∈ seen ∨ ∃ d, d ∈ ds ∧ x ∈ keys d.
Proof.
  revert seen. induction ds as [|d ds IH]; intros seen; cbn [foldl].
  - split; [by left|]. intros [?|(d & Hd & _)]; [done|]. by apply elem_of_nil in Hd.
  - rewrite IH, foldl_add_key_elem. split.
    + intros [[?|?]|(d' & Hd' & ?)]; [by left| |].
      * right. exists d. split; [left|done].
      * right. exists d'. split; [by right|done].
    + intros [?|(d' & Hd' & ?)]; [by left; left|].
      apply elem_of_cons in Hd' as [->|Hd']; [by left; right|].
      right. by exists d'.
Qed.

Lemma union_keys_elem ds x : x ∈ union_keys ds ↔ ∃ d, d ∈ ds ∧ x ∈ keys d.
Proof.
  unfold union_keys. rewrite union_keys_from_elem. split; [|by right].
  intros [H|H]; [by apply elem_of_nil in H|done].
Qed.

Lemma get_Some_keys k v (d : dict) : get k d = Some v → k ∈ keys d.
Proof.
  induction d as [|[k' v'] d IH]; [done|]. cbn [get keys map fst].
  destruct (String.eqb k k') eqn:E.
  - apply String.eqb_eq in E as ->. intros _. left.
  - intros H. right. by apply IH.
Qed.

(** ** Labels and cells *)

Lemma filter_none {A} (P : A → Prop) `{∀ x, Decision (P x)} (l : list A) :
  (∀ x, x ∈ l → ¬ P x) → filter P l = [].
Proof.
  induction l as [|a l IH]; intros Hall; [done|].
  rewrite filter_cons. case_decide as E.
  - exfalso. apply (Hall a); [left|done].
  - apply IH. intros x Hx. apply Hall. by right.
Qed.

Lemma filter_eq_absent (n : string) (cols : list string) :
  n ∉ cols → filter (λ c, c = n) cols = [].
Proof. intros Hn. apply filter_none. intros x Hx ->. done. Qed.

Lemma filter_eq_NoDup (n : string) (cols : list string) :
  NoDup cols → n ∈ cols → filter (λ c, c = n) cols = [n].
Proof.
  induction 1 as [|c cols Hc Hnd IH]; [by intros ?%elem_of_nil|].
  intros Hin. rewrite filter_cons. case_decide as E.
  - subst c. by rewrite filter_eq_absent.
  - apply elem_of_cons in Hin as [->|Hin]; [done|]. by apply IH.
Qed.

Lemma filter_ne_absent (n : string) (cols : list string) :
  n ∉ cols → filter (λ c, c ≠ n) cols = cols.
Proof.
  induction cols as [|c cols IH]; [done|]. intros Hn.
  apply not_elem_of_cons in Hn as [Hc Hn]. rewrite filter_cons.
  case_decide; [by rewrite IH|]. congruence.
Qed.

Lemma cells_of_app {A} n (c1 c2 : list string) (r1 r2 : list A) :
  length r1 = length c1 →
  cells_of n (c1 ++ c2) (r1 ++ r2) = cells_of n c1 r1 ++ cells_of n c2 r2.
Proof.
  intros H. unfold cells_of.
  rewrite zip_with_app by done. by rewrite filter_app, fmap_app.
Qed.

Lemma cells_of_map {A} n (cols : list string) (f : string → A) :
  cells_of n cols (map f cols) = map f (filter (λ c, c = n) cols).
Proof.
  unfold cells_of. induction cols as [|c cols IH]; [done|].
  cbn [map zip_with]. rewrite !filter_cons. cbn [fst].
  case_decide; cbn [fmap list_fmap snd map]; by rewrite <- IH.
Qed.

Lemma cells_of_absent {A} n (cols : list string) (r : list A) :
  n ∉ cols → cells_of n cols r = [].
Proof.
  intros Hn. unfold cells_of. rewrite filter_none; [done|].
  intros [c x] Hin Hc. cbn in Hc. subst c.
  apply Hn. apply (elem_of_zip_l _ _ _ _ Hin).
Qed.

(** The row the parser makes of line [i]: the nine fields, then the value
    of every attribute key of the file. *)
Lemma gff_to_df_row gff df i line :
  gff_to_df gff = Ok df → gff !! i = Some line →
  ∃ ds d, traverse apply_attributes_to_json gff = Ok ds
    ∧ apply_attributes_to_json line = Ok d
    ∧ d ∈ ds
    ∧ columns df = gff_names ++ union_keys ds
    ∧ values df !! i = Some (line_cells line ++ map (λ k, get k d) (union_keys ds)).
Proof.
  unfold gff_to_df. intros H Hi.
  destruct (traverse apply_attributes_to_json gff) as [ds|] eqn:Et; [|done].
  cbn [bind] in H. injection H as <-.
  destruct (traverse_lookup _ _ _ _ _ Et Hi) as (d & Hd & Hline).
  exists ds, d. split; [done|]. split; [done|].
  split; [by eapply list_elem_of_lookup_2|]. split; [done|].
  cbn [concat_columns values json_normalize columns].
  rewrite lookup_zip_with, !list_lookup_fmap, Hi, Hd. done.
Qed.

(** C10: when a key is repeated in one attributes field, the dict, and
    with it the exploded column of that key, holds the value of the last
    occurrence (the cells under the key are those of a fixed GFF column of
    that name, if any, followed by that value). *)
Theorem repeated_key_keeps_last (gff : list FeatureLine) (df : DataFrame) (i : nat)
    (line : FeatureLine) (attrs : string) (pre post : list string)
    (seg k v : string) :
  gff_to_df gff = Ok df →
  gff !! i = Some line → attributes line = Some attrs →
  split ";" attrs = pre ++ seg :: post →
  getitem (split "=" seg) 0 = Ok k →
  getitem (split "=" seg) 1 = Ok v →
  Forall (λ y, getitem (split "=" y) 0 ≠ Ok k) post →
  ∃ d r, attributes_to_json attrs = Ok d ∧ get k d = Some v
    ∧ values df !! i = Some r
    ∧ cells_of k (columns df) r = cells_of k gff_names (line_cells line) ++ [Some v].
Proof.
  intros Hdf Hi Hattrs Hsplit Hk Hv Hpost.
  destruct (gff_to_df_row _ _ _ _ Hdf Hi) as (ds & d & _ & Hd & Hin & Hcols & Hrow).
  unfold apply_attributes_to_json in Hd. rewrite Hattrs in Hd.
  assert (get k d = Some v) as Hget.
  { unfold attributes_to_json in Hd. rewrite Hsplit in Hd.
    by eapply dict_comp_get_last. }
  exists d, (line_cells line ++ map (λ k, get k d) (union_keys ds)).
  split; [done|]. split; [done|]. split; [done|].
  rewrite Hcols, cells_of_app by done. f_equal.
  rewrite cells_of_map, filter_eq_NoDup.
  - cbn. by rewrite Hget.
  - apply union_keys_NoDup.
  - apply union_keys_elem. exists d. split; [done|]. by eapply get_Some_keys.
Qed.

Lemma repeated_key_keeps_last_witness :
  let gff := [Sample.cds_line "k=v1;k=v2"] in
  let df := mkDF (gff_names ++ ["k"]) [line_cells (Sample.cds_line "k=v1;k=v2") ++ [Some "v2"]] in
  gff_to_df gff = Ok df
  ∧ gff !! 0 = Some (Sample.cds_line "k=v1;k=v2")
  ∧ ∃ d r, attributes_to_json "k=v1;k=v2" = Ok d ∧ get "k" d = Some "v2"
      ∧ values df !! 0 = Some r
      ∧ cells_of "k" (columns df) r = [Some "v2"].
Proof.
  intros gff df. split; [vm_compute; reflexivity|]. split; [reflexivity|].
  apply (repeated_key_keeps_last gff df 0 (Sample.cds_line "k=v1;k=v2")
           "k=v1;k=v2" ["k=v1"] [] "k=v2" "k" "v2");
    try (vm_compute; reflexivity).
  apply Forall_nil_2.
Defined.

Lemma attribute_without_equals_raises_witness :
  let attrs := "locus_tag=ERDMAN_0001;pseudo" in
  let gff := [Sample.cds_line attrs] in
  "pseudo" ∈ split ";" attrs
  ∧ has_char "=" "pseudo" = false
  ∧ attributes_to_json attrs = Err IndexError
  ∧ is_ok (gff_to_df gff) = false
  ∧ ∀ func_df table_to_annot id_col,
      is_ok (join_func_and_gff func_df gff table_to_annot id_col) = false.
Proof.
  intros attrs gff.
  assert ("pseudo" ∈ split ";" attrs) as Hin.
  { apply (bool_decide_unpack _). vm_compute. exact I. }
  split; [exact Hin|]. split; [reflexivity|].
  apply (attribute_without_equals_raises attrs "pseudo" gff (Sample.cds_line attrs));
    [exact Hin | reflexivity | left | reflexivity].
Defined.

(** ** Removing duplicate rows *)

Section Duplicates.
Context {A : Type} `{EqDecision A}.

Lemma select_cons (b : bool) m (x : A) l :
  select (b :: m) (x :: l) = if b then x :: select m l else select m l.
Proof. unfold select. cbn [zip_with]. rewrite filter_cons. by destruct b. Qed.

Lemma kept_from_cons (seen : list A) (x : A) (l : list A) :
  kept_from seen (x :: l)
  = (if decide (x ∈ seen) then kept_from (x :: seen) l
     else x :: kept_from (x :: seen) l).
Proof.
  unfold kept_from. cbn [duplicated_from map]. rewrite select_cons.
  case_decide as E.
  - by rewrite (bool_decide_eq_true_2 _ E).
  - by rewrite (bool_decide_eq_false_2 _ E).
Qed.

Lemma kept_from_fresh (seen l : list A) (x : A) :
  x ∈ kept_from seen l → (x ∉ seen) ∧ (x ∈ l).
Proof.
  revert seen. induction l as [|y l IH]; intros seen.
  - by intros ?%elem_of_nil.
  - rewrite kept_from_cons. case_decide as E.
    + intros [Hn Hl]%IH. split; [|by right].
      intros ?. apply Hn. by right.
    + intros [->|[Hn Hl]%IH]%elem_of_cons; [split; [done|left]|].
      split; [|by right]. intros ?. apply Hn. by right.
Qed.

Lemma kept_from_NoDup (seen l : list A) : NoDup (kept_from seen l).
Proof.
  revert seen. induction l as [|y l IH]; intros seen; [apply NoDup_nil_2|].
  rewrite kept_from_cons. case_decide; [apply IH|].
  apply NoDup_cons. split; [|apply IH].
  intros [Hn _]%kept_from_fresh. apply Hn. left.
Qed.

(** Every entry survives in its first occurrence. *)
Lemma kept_from_elem (seen l : list A) (x : A) : x ∈ l → x ∉ seen → x ∈ kept_from seen l.
Proof.
  revert seen. induction l as [|y l IH]; intros seen; [by intros ?%elem_of_nil|].
  intros Hin Hn. rewrite kept_from_cons.
  destruct (decide (x = y)) as [->|Hxy].
  - case_decide; [done|left].
  - apply elem_of_cons in Hin as [?|Hin]; [done|].
    assert (x ∈ kept_from (y :: seen) l).
    { apply IH; [done|]. by intros [?|?]%elem_of_cons. }
    case_decide; [done|by right].
Qed.

Lemma kept_from_id (seen l : list A) :
  NoDup l → (∀ x, x ∈ l → x ∉ seen) → kept_from seen l = l.
Proof.
  intros Hnd. revert seen. induction Hnd as [|y l Hy Hnd IH]; intros seen Hdis; [done|].
  rewrite kept_from_cons. case_decide as E.
  - exfalso. by apply (Hdis y); [left|].
  - f_equal. apply IH. intros x Hx [->|?]%elem_of_cons; [done|].
    apply (Hdis x); [by right|done].
Qed.
End Duplicates.

Lemma drop_duplicates_values df :
  values (drop_duplicates df) = kept_from [] (values df).
Proof. reflexivity. Qed.

(** Only exact duplicates go: every row is still there after the pass. *)
Lemma drop_duplicates_elem df (r : row) :
  r ∈ values (drop_duplicates df) ↔ r ∈ values df.
Proof.
  rewrite drop_duplicates_values. split.
  - by intros [_ ?]%kept_from_fresh.
  - intros H. apply kept_from_elem; [done|apply not_elem_of_nil].
Qed.

Lemma drop_duplicates_NoDup df : NoDup (values (drop_duplicates df)).
Proof. rewrite drop_duplicates_values. apply kept_from_NoDup. Qed.

(** C8: removing exact duplicates twice gives the same table as removing
    them once. *)
Theorem drop_duplicates_idempotent (df : DataFrame) :
  drop_duplicates (drop_duplicates df) = drop_duplicates df.
Proof.
  destruct df as [cols rows]. unfold drop_duplicates. cbn [columns values].
  f_equal. apply (kept_from_id [] (kept_from [] rows)).
  - apply kept_from_NoDup.
  - intros x _. apply not_elem_of_nil.
Qed.

(** ** The conditional formats *)

Lemma write_colored_last_row df f :
  f ∈ xlsx.cond_formats (write_colored df) →
  xlsx.first_row f = 1 ∧ xlsx.last_row f = length (values df)
  ∧ xlsx.first_col f = 1 ∧ xlsx.last_col f = 10
  ∧ (xlsx.criteria f, xlsx.bg_color f) ∈ color_code.
Proof.
  unfold write_colored. cbn [xlsx.cond_formats].
  intros ([k c] & -> & Hin)%list_elem_of_fmap. done.
Qed.

Lemma applies_outside wb r c f :
  xlsx.last_row f < r → xlsx.applies wb r c f = false.
Proof.
  intros H. unfold xlsx.applies.
  rewrite (proj2 (Nat.leb_gt r (xlsx.last_row f)) H).
  by rewrite andb_false_r.
Qed.

(** C3: every data row, the last one included, should fall under the
    colour rules.  The range registered is [$A$1:$J$n] for a table of [n]
    records, which sit in rows 2 to [n+1] below the header: row [n+1], the
    last record, is outside the range of every rule and shows no colour,
    whatever its category. *)
Theorem last_record_not_colored (df : DataFrame) (c : nat) :
  xlsx.background (write_colored df) (S (length (values df))) c = None.
Proof.
  unfold xlsx.background. rewrite filter_none; [done|].
  intros f Hf. destruct (write_colored_last_row df f Hf) as (_ & Hlast & _).
  rewrite applies_outside; [done|]. rewrite Hlast. lia.
Qed.

(** The scenario of the specification with a lipid-metabolism gene: the
    only record is in row 2 and is not coloured; the range is the header
    row alone. *)
Example single_record_not_colored :
  let df := mkDF output_columns
              [[Some "1"; Some "N"; Some "OLD1"; Some "F1";
                Some "lipid metabolism"; Some "P1"; Some "10"; Some "1.5";
                Some "0.01"; Some "0.02"]] in
  xlsx.cell_text (write_colored df) 2 5 = "lipid metabolism"
  ∧ xlsx.background (write_colored df) 2 5 = None
  ∧ map (λ f, (xlsx.first_row f, xlsx.last_row f)) (xlsx.cond_formats (write_colored df))
    = replicate 11 (1, 1).
Proof. repeat split; vm_compute; reflexivity. Qed.

(** Inside the range the rules do what the palette says: a record in rows
    2 to [n] whose category is a palette label shows that label's colour in
    columns A to J. *)
Lemma record_in_range_colored (df : DataFrame) (r c : nat) (k color : string) :
  (2 ≤ r ≤ length (values df))%nat → (1 ≤ c ≤ 10)%nat →
  (k, color) ∈ color_code →
  xlsx.cell_text (write_colored df) r 5 = k →
  xlsx.background (write_colored df) r c = Some color.
Proof.
  intros Hr Hc Hk Hcell. unfold xlsx.background.
  assert (∀ l : list (string * string),
    filter (λ f, xlsx.applies (write_colored df) r c f = true)
      (map (λ kc : string * string,
              xlsx.mkFormat 1 (length (values df)) 1 10 kc.1 kc.2) l)
    = map (λ kc : string * string,
             xlsx.mkFormat 1 (length (values df)) 1 10 kc.1 kc.2)
        (filter (λ kc, xlsx.text_eq k kc.1 = true) l)) as Hf.
  { assert (∀ k' c', xlsx.applies (write_colored df) r c
                (xlsx.mkFormat 1 (length (values df)) 1 10 k' c')
              = xlsx.text_eq k k') as Happ.
    { intros k' c'. unfold xlsx.applies.
      cbn [xlsx.first_row xlsx.last_row xlsx.first_col xlsx.last_col xlsx.criteria].
      rewrite Hcell.
      rewrite (proj2 (Nat.leb_le 1 r)) by lia.
      rewrite (proj2 (Nat.leb_le r _)) by lia.
      rewrite (proj2 (Nat.leb_le 1 c)) by lia.
      by rewrite (proj2 (Nat.leb_le c 10)) by lia. }
    intros l. induction l as [|kc l IH]; [done|].
    cbn [map]. rewrite !filter_cons, IH.
    repeat case_decide; rewrite Happ in *; cbn [map]; congruence. }
  specialize (Hf color_code).
  change (map _ color_code) with (xlsx.cond_formats (write_colored df)) in Hf at 1.
  rewrite Hf. clear Hf Hcell. unfold color_code in *.
  repeat (apply elem_of_cons in Hk as [Hk|Hk];
          [injection Hk as -> ->; vm_compute; reflexivity|]).
  by apply elem_of_nil in Hk.
Qed.

(** A record whose category is no palette label (in any letter case)
    shows no colour. *)
Lemma unrecognized_not_colored (df : DataFrame) (r c : nat) :
  (∀ kc, kc ∈ color_code →
     xlsx.text_eq (xlsx.cell_text (write_colored df) r 5) kc.1 = false) →
  xlsx.background (write_colored df) r c = None.
Proof.
  intros H. unfold xlsx.background. rewrite filter_none; [done|].
  intros f Hf. destruct (write_colored_last_row df f Hf) as (_ & _ & _ & _ & Hin).
  apply H in Hin. cbn [fst] in Hin.
  unfold xlsx.applies. rewrite Hin. by rewrite andb_false_r.
Qed.

(** ** Labels after a merge *)

Lemma endswith_app sfx x : endswith sfx (x +:+ sfx) = true.
Proof.
  induction x as [|c x IH].
  - rewrite append_nil. destruct sfx; cbn [endswith]; by rewrite String.eqb_refl.
  - rewrite append_cons. cbn [endswith]. by rewrite IH, orb_true_r.
Qed.

Lemma plain_not_suffixed n x sfx :
  plain n → sfx = "_x" ∨ sfx = "_y" → x +:+ sfx ≠ n.
Proof.
  intros [Hx Hy] [->| ->] <-; by rewrite endswith_app in *.
Qed.

Lemma renamer_nil sfx (cols : list string) : map (renamer [] sfx) cols = cols.
Proof.
  induction cols as [|c cols IH]; [done|]. cbn [map]. rewrite IH.
  unfold renamer. case_decide as E; [by apply elem_of_nil in E|done].
Qed.

Lemma renamer_plain T sfx c n :
  plain n → sfx = "_x" ∨ sfx = "_y" →
  renamer T sfx c = n ↔ c = n ∧ n ∉ T.
Proof.
  intros Hn Hs. unfold renamer. case_decide as E.
  - split; [by intros ?%(plain_not_suffixed _ _ _ Hn Hs)|].
    intros [-> ?]. done.
  - split; [by intros ->|]. by intros [-> _].
Qed.

Lemma cells_of_renamer {A} T sfx (cols : list string) n (r : list A) :
  plain n → sfx = "_x" ∨ sfx = "_y" →
  cells_of n (map (renamer T sfx) cols) r
  = if decide (n ∈ T) then [] else cells_of n cols r.
Proof.
  intros Hn Hs. unfold cells_of. revert r.
  induction cols as [|c cols IH]; intros r; [by case_decide|].
  destruct r as [|a r]; [by case_decide|].
  cbn [map zip_with]. rewrite !filter_cons. cbn [fst]. specialize (IH r).
  pose proof (renamer_plain T sfx c n Hn Hs) as Hren.
  repeat case_decide; cbn [fmap list_fmap snd] in *; rewrite ?IH;
    first [done | exfalso; tauto].
Qed.

Lemma filter_renamer T sfx (cols : list string) n :
  plain n → sfx = "_x" ∨ sfx = "_y" →
  filter (λ c, c = n) (map (renamer T sfx) cols)
  = if decide (n ∈ T) then [] else filter (λ c, c = n) cols.
Proof.
  intros Hn Hs. induction cols as [|c cols IH]; [by case_decide|].
  cbn [map]. rewrite !filter_cons, IH.
  pose proof (renamer_plain T sfx c n Hn Hs) as Hren.
  repeat case_decide; first [done | congruence | exfalso; tauto].
Qed.

Lemma items_overlap_labels (l r ll rl : list string) :
  items_overlap_with_suffix l r = Ok (ll, rl) →
  ll = map (renamer (filter (λ c, c ∈ r) l) "_x") l
  ∧ rl = map (renamer (filter (λ c, c ∈ r) l) "_y") r.
Proof.
  unfold items_overlap_with_suffix.
  destruct (filter (λ c, c ∈ r) l) as [|t T] eqn:ET.
  - intros [= <- <-]. by rewrite !renamer_nil.
  - destruct (_ ++ _); [|done]. by intros [= <- <-].
Qed.

Lemma check_key_Ok n (cols : list string) :
  check_key n cols = Ok tt → filter (λ c, c = n) cols = [n].
Proof.
  unfold check_key. destruct (filter (λ c, c = n) cols) as [|c [|? ?]] eqn:E; try done.
  intros _. f_equal.
  assert (c ∈ filter (λ c, c = n) cols) as Hc by (rewrite E; left).
  by apply list_elem_of_filter in Hc as [-> _].
Qed.


Lemma merge_Ok_inv h l r lk rk df :
  merge h l r lk rk = Ok df →
  let T := filter (λ c, c ∈ right_columns r lk rk) (columns l) in
  filter (λ c, c = rk) (columns r) = [rk]
  ∧ filter (λ c, c = lk) (columns l) = [lk]
  ∧ columns df = map (renamer T "_x") (columns l)
                 ++ map (renamer T "_y") (right_columns r lk rk)
  ∧ values df =
      (x ← values l;
       match matches l r lk rk x with
       | [] => match h with
               | left => [x ++ replicate (length (right_columns r lk rk)) None]
               | inner => []
               end
       | ms => map (λ y, x ++ right_part r lk rk y) ms
       end).
Proof.
  unfold merge. intros H.
  destruct (check_key rk (columns r)) as [[]|] eqn:Er; [|done].
  destruct (check_key lk (columns l)) as [[]|] eqn:El; [|done].
  cbn [bind] in H.
  destruct (maybe_coerce_merge_keys _ _) as [[]|]; [|done]. cbn [bind] in H.
  destruct (items_overlap_with_suffix (columns l) (right_columns r lk rk))
    as [[ll rl]|] eqn:Eo; [|done].
  cbn [bind] in H. injection H as <-.
  apply items_overlap_labels in Eo as [-> ->].
  split; [by apply check_key_Ok|]. split; [by apply check_key_Ok|]. done.
Qed.

Lemma NoDup_once (cols : list string) : NoDup cols → once cols.
Proof.
  intros Hnd n _. destruct (decide (n ∈ cols)) as [Hin|Hin].
  - by rewrite filter_eq_NoDup.
  - rewrite filter_eq_absent by done. cbn. lia.
Qed.

Lemma filter_eq_once n (cols : list string) :
  n ∈ cols → (length (filter (λ c, c = n) cols) ≤ 1)%nat →
  filter (λ c, c = n) cols = [n].
Proof.
  intros Hin Hlen.
  assert (n ∈ filter (λ c, c = n) cols) as Hf by (by apply list_elem_of_filter).
  destruct (filter (λ c, c = n) cols) as [|c [|c' l]]; cbn in Hlen.
  - by apply elem_of_nil in Hf.
  - by apply list_elem_of_singleton in Hf as ->.
  - lia.
Qed.

Lemma filter_eq_ne n m (cols : list string) :
  filter (λ c, c = n) (filter (λ c, c ≠ m) cols)
  = if decide (n = m) then [] else filter (λ c, c = n) cols.
Proof.
  induction cols as [|c cols IH]; [by case_decide|].
  rewrite !filter_cons. repeat case_decide; rewrite ?filter_cons;
    repeat case_decide; first [done | congruence].
Qed.

Lemma once_filter_ne m (cols : list string) :
  once cols → once (filter (λ c, c ≠ m) cols).
Proof.
  intros H n Hn. rewrite filter_eq_ne. case_decide; [cbn; lia|by apply H].
Qed.

Lemma merge_once h l r lk rk df :
  merge h l r lk rk = Ok df →
  once (columns l) → once (columns r) → once (columns df).
Proof.
  intros (_ & _ & Hcols & _)%merge_Ok_inv Hl Hr n Hn.
  assert (once (right_columns r lk rk)) as Hr'.
  { unfold right_columns. case_bool_decide; [by apply once_filter_ne|done]. }
  rewrite Hcols, filter_app, !filter_renamer by auto.
  case_decide as ET; [cbn; lia|].
  destruct (decide (n ∈ columns l)) as [Hin|Hin].
  - rewrite (filter_eq_absent n (right_columns _ _ _)).
    + rewrite app_nil_r. by apply Hl.
    + intros Hin'. apply ET. by apply list_elem_of_filter.
  - rewrite (filter_eq_absent n (columns l)) by done. by apply Hr'.
Qed.

Lemma plain_output_columns : Forall plain output_columns.
Proof. repeat constructor. Qed.

(** ** What each step returns *)

Lemma bind_list_cons {A B} (f : A → list B) x l :
  (y ← x :: l; f y) = f x ++ (y ← l; f y).
Proof. reflexivity. Qed.

Lemma loc_Ok_inv names df p :
  loc names df = Ok p →
  Forall (λ n, n ∈ columns df) names
  ∧ columns p = (n ← names; filter (λ c, c = n) (columns df))
  ∧ values p = map (λ r : row, n ← names; cells_of n (columns df) r) (values df).
Proof. unfold loc. case_decide; [|done]. by intros [= <-]. Qed.

Lemma loc_columns_once names (cols : list string) :
  Forall (λ n, n ∈ cols) names → once cols → Forall plain names →
  (n ← names; filter (λ c, c = n) cols) = names.
Proof.
  intros Hin Hone Hpl. induction names as [|n names IH]; [done|].
  apply Forall_cons in Hin as [Hn Hin]. apply Forall_cons in Hpl as [Hp Hpl].
  rewrite bind_list_cons, IH by done.
  by rewrite filter_eq_once by auto.
Qed.

Lemma drop_Ok_inv n df t :
  drop n df = Ok t →
  n ∈ columns df
  ∧ columns t = filter (λ c, c ≠ n) (columns df)
  ∧ values t = map (without n (columns df)) (values df).
Proof. unfold drop. case_decide; [|done]. by intros [= <-]. Qed.

Lemma query_eq_Ok_inv n v df q :
  query_eq n v df = Ok q →
  columns q = columns df ∧ ∀ r, r ∈ values q → r ∈ values df.
Proof.
  unfold query_eq. case_decide; [|done]. case_decide; [|done].
  intros [= <-]. split; [done|].
  cbn [values]. by intros r [_ ?]%list_elem_of_filter.
Qed.

Lemma query_eq_NoDup n v df q : query_eq n v df = Ok q → NoDup (columns df).
Proof. unfold query_eq. by case_decide. Qed.

(** ** Row lengths *)

Lemma length_cells_of {A} n (cols : list string) (r : list A) :
  length r = length cols →
  length (cells_of n cols r) = length (filter (λ c, c = n) cols).
Proof.
  unfold cells_of. revert r. induction cols as [|c cols IH]; intros [|a r] H; try done.
  cbn [zip_with]. rewrite !filter_cons. cbn [fst].
  case_decide; cbn [fmap list_fmap length]; rewrite IH; auto.
Qed.

Lemma length_without {A} n (cols : list string) (r : list A) :
  length r = length cols →
  length (without n cols r) = length (filter (λ c, c ≠ n) cols).
Proof.
  unfold without. revert r. induction cols as [|c cols IH]; intros [|a r] H; try done.
  cbn [zip_with]. rewrite !filter_cons. cbn [fst].
  case_decide; cbn [fmap list_fmap length]; rewrite IH; auto.
Qed.

Lemma length_loc_row {A} names (cols : list string) (r : list A) :
  length r = length cols →
  length (n ← names; cells_of n cols r)
  = length (n ← names; filter (λ c, c = n) cols).
Proof.
  intros H. induction names as [|n names IH]; [done|].
  rewrite !bind_list_cons, !length_app, IH. by rewrite length_cells_of.
Qed.

Lemma loc_wf names df p : loc names df = Ok p → wf df → wf p.
Proof.
  intros (_ & Hc & Hv)%loc_Ok_inv Hwf. unfold wf. rewrite Hc, Hv.
  apply Forall_fmap. eapply Forall_impl; [exact Hwf|].
  intros r Hr. cbn. by apply length_loc_row.
Qed.

Lemma drop_wf n df t : drop n df = Ok t → wf df → wf t.
Proof.
  intros (_ & Hc & Hv)%drop_Ok_inv Hwf. unfold wf. rewrite Hc, Hv.
  apply Forall_fmap. eapply Forall_impl; [exact Hwf|].
  intros r Hr. cbn. by apply length_without.
Qed.

Lemma query_eq_wf n v df q : query_eq n v df = Ok q → wf df → wf q.
Proof.
  intros [Hc Hv]%query_eq_Ok_inv Hwf. unfold wf. rewrite Hc.
  apply Forall_forall. intros r Hr. apply Hv in Hr.
  by apply (proj1 (Forall_forall _ _) Hwf).
Qed.

Lemma map_column_wf n f df : wf df → wf (map_column n f df).
Proof.
  intros Hwf. unfold wf, map_column. cbn [columns values].
  apply Forall_fmap. eapply Forall_impl; [exact Hwf|].
  intros r Hr. cbn in Hr |- *. rewrite length_zip_with. lia.
Qed.

Lemma rename_wf old new df : wf df → wf (rename old new df).
Proof.
  intros Hwf. unfold wf, rename. cbn [columns values]. rewrite length_map. done.
Qed.

Lemma merge_wf h l r lk rk df :
  merge h l r lk rk = Ok df → wf l → wf r → wf df.
Proof.
  intros (_ & _ & Hc & Hv)%merge_Ok_inv Hl Hr. unfold wf.
  rewrite Hc, Hv, length_app, !length_map.
  apply Forall_forall. intros z (x & Hz & Hx)%list_elem_of_bind.
  pose proof (proj1 (Forall_forall _ _) Hl x Hx) as Hlx. cbn in Hlx.
  assert (∀ y, y ∈ matches l r lk rk x →
            length (x ++ right_part r lk rk y)
            = length (columns l) + length (right_columns r lk rk)) as Hm.
  { intros y [_ Hy]%list_elem_of_filter.
    pose proof (proj1 (Forall_forall _ _) Hr y Hy) as Hry. cbn in Hry.
    rewrite length_app, Hlx. f_equal. unfold right_part, right_columns.
    case_bool_decide; [by apply length_without|done]. }
  destruct (matches l r lk rk x) as [|y ms] eqn:Em.
  - destruct h; [by apply elem_of_nil in Hz|].
    apply list_elem_of_singleton in Hz as ->.
    by rewrite length_app, length_replicate, Hlx.
  - apply list_elem_of_fmap in Hz as (y' & -> & Hy'). by apply Hm.
Qed.

Lemma gff_to_df_Ok_inv gff g :
  gff_to_df gff = Ok g →
  ∃ ds, columns g = gff_names ++ union_keys ds ∧ wf g.
Proof.
  unfold gff_to_df. destruct (traverse apply_attributes_to_json gff) as [ds|] eqn:Et; [|done].
  cbn [bind]. intros [= <-]. exists ds. split; [done|].
  unfold wf. cbn [concat_columns json_normalize columns values].
  apply Forall_forall. intros z Hz.
  apply elem_of_lookup_zip_with in Hz as (i & x & y & -> & Hx & Hy).
  apply list_lookup_fmap_Some in Hx as (line & -> & _).
  apply list_lookup_fmap_Some in Hy as (d & -> & _).
  by rewrite !length_app, length_map.
Qed.

(** ** The stages of [join_func_and_gff] *)

Lemma not_in_gff_names n :
  bool_decide (n ∈ gff_names) = false → n ∉ gff_names.
Proof. apply bool_decide_eq_false. Qed.

Lemma erdman_to_rv_Ok_inv gff corr :
  erdman_to_rv gff = Ok corr →
  columns corr = ["locus_tag"; "Locus"] ∧ wf corr.
Proof.
  unfold erdman_to_rv. intros H.
  destruct (gff_to_df gff) as [g|] eqn:Eg; [|done]. cbn [bind] in H.
  destruct (query_eq "type" "CDS" g) as [cds|] eqn:Eq; [|done]. cbn [bind] in H.
  destruct (loc ["locus_tag"; "Note"] cds) as [p|] eqn:El; [|done]. cbn [bind] in H.
  injection H as <-.
  destruct (gff_to_df_Ok_inv _ _ Eg) as (ds & Hg & Hwf).
  pose proof (query_eq_wf _ _ _ _ Eq Hwf) as Hwfq.
  pose proof (loc_wf _ _ _ El Hwfq) as Hwfp.
  apply query_eq_Ok_inv in Eq as [Hq _].
  apply loc_Ok_inv in El as (Hin & Hp & _).
  split; [|by apply rename_wf, map_column_wf].
  cbn [rename columns map_column]. rewrite Hp, Hq, Hg in *.
  assert (∀ n, bool_decide (n ∈ gff_names) = false →
               n ∈ gff_names ++ union_keys ds →
               filter (λ c, c = n) (gff_names ++ union_keys ds) = [n]) as Hone.
  { intros n Hn [Hn'|Hn']%elem_of_app; [by apply not_in_gff_names in Hn|].
    rewrite filter_app, (filter_eq_absent n gff_names) by by apply not_in_gff_names.
    apply filter_eq_NoDup; [apply union_keys_NoDup|done]. }
  apply Forall_cons in Hin as [H1 [H2 _]%Forall_cons].
  rewrite !bind_list_cons, !Hone by done. reflexivity.
Qed.

Lemma join_func_and_gff_Ok_inv func_df gff table_to_annot id_col out :
  join_func_and_gff func_df gff table_to_annot id_col = Ok out →
  ∃ corr t ann m p,
    erdman_to_rv gff = Ok corr
    ∧ drop "Name" table_to_annot = Ok t
    ∧ annotation func_df gff = Ok ann
    ∧ merge left t ann id_col "locus_tag" = Ok m
    ∧ loc output_columns m = Ok p
    ∧ out = mkWritten (isna_sum "Locus" corr) (drop_duplicates p)
                      (write_colored (drop_duplicates p)).
Proof.
  unfold join_func_and_gff, annotation, erdman_to_rv. intros H.
  destruct (gff_to_df gff) as [g|]; [|done]. cbn [bind] in *.
  destruct (query_eq "type" "CDS" g) as [cds|]; [|done]. cbn [bind] in *.
  destruct (loc ["locus_tag"; "Note"] cds) as [c|]; [|done]. cbn [bind] in *.
  destruct (drop "Name" table_to_annot) as [t|]; [|done]. cbn [bind] in *.
  destruct (merge inner func_df _ "Locus" "Locus") as [ann|]; [|done]. cbn [bind] in *.
  destruct (merge left t ann id_col "locus_tag") as [m|] eqn:Em; [|done]. cbn [bind] in *.
  destruct (loc output_columns m) as [p|] eqn:Ep; [|done]. cbn [bind] in *.
  destruct (xlsx.check_dimensions _) as [[]|]; [|done]. cbn [bind] in *.
  injection H as <-. by eexists _, t, ann, m, p.
Qed.


Lemma annotation_Ok_inv func_df gff ann :
  annotation func_df gff = Ok ann →
  ∃ corr, erdman_to_rv gff = Ok corr
    ∧ merge inner func_df corr "Locus" "Locus" = Ok ann.
Proof.
  unfold annotation. destruct (erdman_to_rv gff) as [corr|]; [|done].
  cbn [bind]. intros H. by exists corr.
Qed.

Lemma annotation_once func_df gff ann :
  NoDup (columns func_df) → annotation func_df gff = Ok ann → once (columns ann).
Proof.
  intros Hnd (corr & Hc & Hm)%annotation_Ok_inv.
  apply erdman_to_rv_Ok_inv in Hc as [Hc _].
  eapply merge_once; [exact Hm|by apply NoDup_once|].
  rewrite Hc. apply NoDup_once. apply (bool_decide_unpack _). vm_compute. exact I.
Qed.

Lemma joined_columns func_df gff table_to_annot id_col t ann m p :
  NoDup (columns func_df) → NoDup (columns table_to_annot) →
  drop "Name" table_to_annot = Ok t →
  annotation func_df gff = Ok ann →
  merge left t ann id_col "locus_tag" = Ok m →
  loc output_columns m = Ok p →
  once (columns m) ∧ columns p = output_columns.
Proof.
  intros Hf Ht Hd Ha Hm Hp.
  assert (once (columns m)) as Hone.
  { eapply merge_once; [exact Hm| |exact (annotation_once _ _ _ Hf Ha)].
    apply drop_Ok_inv in Hd as (_ & -> & _). by apply NoDup_once, NoDup_filter. }
  split; [done|].
  apply loc_Ok_inv in Hp as (Hin & -> & _).
  apply loc_columns_once; [done|done|apply plain_output_columns].
Qed.

(** ** The left join keeps every row *)

Lemma merge_left_row l r lk rk df x :
  merge left l r lk rk = Ok df → x ∈ values l →
  (matches l r lk rk x = []
   ∧ x ++ replicate (length (right_columns r lk rk)) None ∈ values df)
  ∨ (∃ y, y ∈ matches l r lk rk x ∧ x ++ right_part r lk rk y ∈ values df).
Proof.
  intros (_ & _ & _ & Hv)%merge_Ok_inv Hx. rewrite Hv.
  destruct (matches l r lk rk x) as [|y ms] eqn:Em.
  - left. split; [done|]. apply list_elem_of_bind. exists x.
    rewrite Em. split; [left|done].
  - right. exists y. split; [left|]. apply list_elem_of_bind. exists x.
    rewrite Em. split; [|done]. cbn [map]. left.
Qed.

Lemma merge_left_length l r lk rk df :
  merge left l r lk rk = Ok df → (length (values l) ≤ length (values df))%nat.
Proof.
  intros (_ & _ & _ & Hv)%merge_Ok_inv. rewrite Hv. clear Hv.
  induction (values l) as [|x xs IH]; [done|].
  rewrite bind_list_cons, length_app. cbn [length].
  destruct (matches l r lk rk x) as [|y ms]; [|rewrite length_map];
    cbn [length]; lia.
Qed.

Lemma cells_of_without {A} n m (cols : list string) (r : list A) :
  n ≠ m → cells_of n (filter (λ c, c ≠ m) cols) (without m cols r) = cells_of n cols r.
Proof.
  intros Hnm. unfold cells_of, without. revert r.
  induction cols as [|c cols IH]; intros [|a r]; try done.
  - cbn [zip_with]. by destruct (filter _ (c :: cols)).
  - cbn [zip_with]. rewrite !filter_cons. cbn [fst]. specialize (IH r).
    repeat case_decide; cbn [fmap list_fmap zip_with snd fst] in *;
      rewrite ?filter_cons; cbn [fst]; repeat case_decide;
      cbn [fmap list_fmap snd]; rewrite ?IH; first [done | congruence].
Qed.

Lemma cells_of_replicate {A} n (cols : list string) (a : A) :
  cells_of n cols (replicate (length cols) a)
  = replicate (length (filter (λ c, c = n) cols)) a.
Proof.
  unfold cells_of. induction cols as [|c cols IH]; [done|].
  cbn [length replicate zip_with]. rewrite !filter_cons. cbn [fst].
  case_decide; cbn [fmap list_fmap length replicate snd]; by rewrite IH.
Qed.

(** The cells of a merged row under a plain label: those of the left row
    or those of the right row, unless the label was on both sides. *)
Lemma merge_row_cells h l r lk rk df n (x z : row) :
  merge h l r lk rk = Ok df → plain n →
  length x = length (columns l) →
  cells_of n (columns df) (x ++ z)
  = if decide (n ∈ filter (λ c, c ∈ right_columns r lk rk) (columns l)) then []
    else cells_of n (columns l) x ++ cells_of n (right_columns r lk rk) z.
Proof.
  intros (_ & _ & Hc & _)%merge_Ok_inv Hn Hx.
  rewrite Hc, cells_of_app by by rewrite length_map.
  rewrite !cells_of_renamer by auto. by case_decide.
Qed.

Lemma merge_filter_label h l r lk rk df n :
  merge h l r lk rk = Ok df → plain n →
  filter (λ c, c = n) (columns df)
  = if decide (n ∈ filter (λ c, c ∈ right_columns r lk rk) (columns l)) then []
    else filter (λ c, c = n) (columns l)
         ++ filter (λ c, c = n) (right_columns r lk rk).
Proof.
  intros (_ & _ & Hc & _)%merge_Ok_inv Hn.
  rewrite Hc, filter_app, !filter_renamer by auto. by case_decide.
Qed.

(** Reading a projected row by label gives back the projected cells. *)
Lemma loc_row_cells {A} names (cols : list string) (y : list A) k :
  NoDup names → (∀ n, n ∈ names → length (cells_of n cols y) = 1) →
  k ∈ names →
  cells_of k names (n ← names; cells_of n cols y) = cells_of k cols y.
Proof.
  intros Hnd. induction Hnd as [|n names Hn Hnd IH]; intros Hlen Hk.
  - by apply elem_of_nil in Hk.
  - rewrite bind_list_cons.
    assert (length (cells_of n cols y) = 1) as Hl by (apply Hlen; left).
    destruct (cells_of n cols y) as [|v [|? ?]] eqn:Ev; try done.
    unfold cells_of at 1. cbn [app zip_with]. rewrite filter_cons. cbn [fst].
    fold (cells_of k names (n0 ← names; cells_of n0 cols y)).
    case_decide as E.
    + subst k. cbn [fmap list_fmap snd]. rewrite Ev. f_equal.
      by apply cells_of_absent.
    + apply elem_of_cons in Hk as [?|Hk]; [done|].
      apply IH; [|done]. intros n' Hn'. apply Hlen. by right.
Qed.

Lemma plain_in_output n : n ∈ output_columns → plain n.
Proof. intros H. by apply (proj1 (Forall_forall _ _) plain_output_columns). Qed.

(** C4: the left join keeps every row of the result table.  On a run that
    completes, the table written is the projected join with its exact
    duplicates removed; the projected join has at least as many rows as the
    result table; and every result row has a row in the output that carries
    its values in every output column taken from the result table ([Id]
    among them, when the table has it).  When no annotation row has the
    row's ID as locus tag, that output row is null in every joined-in
    column. *)
Theorem left_join_totality (func_df : DataFrame) (gff : list FeatureLine)
    (table_to_annot : DataFrame) (id_col : string) (out : Written) :
  frame_ok func_df → frame_ok table_to_annot →
  join_func_and_gff func_df gff table_to_annot id_col = Ok out →
  ∃ joined ann,
    annotation func_df gff = Ok ann
    ∧ table out = drop_duplicates joined
    ∧ (length (values table_to_annot) ≤ length (values joined))%nat
    ∧ ∀ r, r ∈ values table_to_annot →
        ∃ r', r' ∈ values joined ∧ r' ∈ values (table out)
          ∧ (∀ n, n ∈ output_columns → n ∈ columns table_to_annot → n ≠ "Name" →
               cells_of n (columns (table out)) r'
               = cells_of n (columns table_to_annot) r)
          ∧ ((∀ y, y ∈ values ann →
                cells_of "locus_tag" (columns ann) y
                ≠ cells_of id_col (columns table_to_annot) r) →
             ∀ n, n ∈ output_columns → n ∉ columns table_to_annot ∨ n = "Name" →
               cells_of n (columns (table out)) r' = [None]).
Proof.
  intros [Hfnd Hfwf] [Htnd Htwf].
  intros (corr & t & ann & m & p & Hcorr & Hd & Ha & Hm & Hp & ->)%join_func_and_gff_Ok_inv.
  exists p, ann. split; [done|]. split; [done|].
  destruct (joined_columns _ _ _ _ _ _ _ _ Hfnd Htnd Hd Ha Hm Hp) as [Hone Hpc].
  pose proof (drop_wf _ _ _ Hd Htwf) as Hwft.
  assert (wf ann) as Hwfa.
  { destruct (annotation_Ok_inv _ _ _ Ha) as (corr' & Hc' & Hm').
    eapply merge_wf; [exact Hm'|done|]. by apply erdman_to_rv_Ok_inv in Hc' as [_ ?]. }
  pose proof (merge_wf _ _ _ _ _ _ Hm Hwft Hwfa) as Hwfm.
  destruct (loc_Ok_inv _ _ _ Hp) as (Hin & _ & Hpv).
  destruct (drop_Ok_inv _ _ _ Hd) as (_ & Htc & Htv).
  split.
  { rewrite Hpv, length_map. etransitivity; [|by eapply merge_left_length].
    by rewrite Htv, length_map. }
  intros r Hr.
  set (x := without "Name" (columns table_to_annot) r).
  assert (x ∈ values t) as Hx by (rewrite Htv; by apply list_elem_of_fmap_2).
  assert (length x = length (columns t)) as Hxl
    by apply (proj1 (Forall_forall _ _) Hwft x Hx).
  (* the key of the row, read before and after dropping Name *)
  destruct (merge_Ok_inv _ _ _ _ _ _ Hm) as (_ & Hlk & _ & _).
  assert (id_col ≠ "Name") as Hid.
  { intros ->. assert ("Name" ∈ filter (λ c, c = "Name") (columns t)) as Hn
      by (rewrite Hlk; left).
    apply list_elem_of_filter in Hn as [_ Hn]. rewrite Htc in Hn.
    by apply list_elem_of_filter in Hn as [? _]. }
  assert (cells_of id_col (columns t) x = cells_of id_col (columns table_to_annot) r) as Hkey.
  { rewrite Htc. by apply cells_of_without. }
  (* the merged row built on [x] *)
  assert (∃ z, x ++ z ∈ values m
             ∧ (matches t ann id_col "locus_tag" x = [] →
                z = replicate (length (right_columns ann id_col "locus_tag")) None)
             ∧ (matches t ann id_col "locus_tag" x ≠ [] →
                ∃ y, y ∈ matches t ann id_col "locus_tag" x)) as (z & Hz & Hnone & Hsome).
  { destruct (merge_left_row _ _ _ _ _ _ Hm Hx) as [[Em Hz]|(y & Hy & Hz)].
    - eexists. split; [exact Hz|]. split; [done|]. by intros ?.
    - eexists. split; [exact Hz|]. split; [|by exists y].
      intros Em. rewrite Em in Hy. by apply elem_of_nil in Hy. }
  set (r' := n ← output_columns; cells_of n (columns m) (x ++ z)).
  assert (r' ∈ values p) as Hr'.
  { rewrite Hpv.
    by apply (list_elem_of_fmap_2
                (λ r0 : row, n ← output_columns; cells_of n (columns m) r0)). }
  exists r'. split; [done|]. split.
  { cbn [table]. rewrite drop_duplicates_values.
    apply kept_from_elem; [done|apply not_elem_of_nil]. }
  (* reading the output row by label *)
  assert (∀ n, n ∈ output_columns → filter (λ c, c = n) (columns m) = [n]) as Hfn.
  { intros n Hn. apply filter_eq_once.
    - by apply (proj1 (Forall_forall _ _) Hin).
    - by apply Hone, plain_in_output. }
  assert (∀ n, n ∈ output_columns →
            cells_of n (columns (table (mkWritten (isna_sum "Locus" corr)
               (drop_duplicates p) (write_colored (drop_duplicates p))))) r'
            = cells_of n (columns m) (x ++ z)) as Hread.
  { intros n Hn. cbn [table drop_duplicates columns]. rewrite Hpc.
    apply loc_row_cells; [|.. |done].
    - apply (bool_decide_unpack _). vm_compute. exact I.
    - intros n' Hn'. rewrite length_cells_of; [by rewrite Hfn|].
      apply (proj1 (Forall_forall _ _) Hwfm (x ++ z) Hz). }
  (* the label is on one side of the merge only *)
  assert (∀ n, n ∈ output_columns →
            n ∉ filter (λ c, c ∈ right_columns ann id_col "locus_tag") (columns t)) as HT.
  { intros n Hn HinT. pose proof (Hfn n Hn) as Hf.
    rewrite (merge_filter_label _ _ _ _ _ _ n Hm) in Hf by by apply plain_in_output.
    by rewrite decide_True in Hf by done. }
  split.
  - intros n Hn Hnt Hname. rewrite (Hread n Hn).
    rewrite (merge_row_cells _ _ _ _ _ _ n x z Hm) by (by apply plain_in_output || done).
    rewrite decide_False by by apply HT.
    assert (n ∈ columns t) as Hnt' by (rewrite Htc; by apply list_elem_of_filter).
    rewrite (cells_of_absent n (right_columns _ _ _)).
    + rewrite app_nil_r, Htc. by apply cells_of_without.
    + intros Hnr. apply (HT n Hn). by apply list_elem_of_filter.
  - intros Hunmatched n Hn Hnt. rewrite (Hread n Hn).
    rewrite (merge_row_cells _ _ _ _ _ _ n x z Hm) by (by apply plain_in_output || done).
    rewrite decide_False by by apply HT.
    assert (n ∉ columns t) as Hnt'.
    { rewrite Htc. intros [? ?]%list_elem_of_filter. by destruct Hnt. }
    rewrite (cells_of_absent n (columns t)) by done. cbn [app].
    assert (matches t ann id_col "locus_tag" x = []) as Em.
    { destruct (decide (matches t ann id_col "locus_tag" x = [])) as [?|Hne]; [done|].
      destruct (Hsome Hne) as (y & Hy).
      apply list_elem_of_filter in Hy as [Hy1 Hy2].
      exfalso. apply (Hunmatched y Hy2). by rewrite Hy1, Hkey. }
    rewrite (Hnone Em), cells_of_replicate.
    pose proof (Hfn n Hn) as Hf.
    rewrite (merge_filter_label _ _ _ _ _ _ n Hm) in Hf by by apply plain_in_output.
    rewrite decide_False in Hf by by apply HT.
    rewrite (filter_eq_absent n (columns t)) in Hf by done. cbn [app] in Hf.
    by rewrite Hf.
Qed.

(** ** Which input schema the join needs *)





(** *** How many rows the steps can make *)







(** Without a Name column in the annotation table no run completes: the
    Name of the result table is dropped, and the projection finds none. *)
Lemma name_column_needed func_df gff table_to_annot id_col :
  "Name" ∉ columns func_df →
  is_ok (join_func_and_gff func_df gff table_to_annot id_col) = false.
Proof.
  intros Hname.
  destruct (join_func_and_gff func_df gff table_to_annot id_col) as [out|] eqn:E; [|done].
  exfalso.
  apply join_func_and_gff_Ok_inv in E as (corr & t & ann & m & p & _ & Hd & Ha & Hm & Hp & _).
  assert (plain "Name") as Hpl by (by split).
  apply loc_Ok_inv in Hp as (Hin & _).
  assert ("Name" ∈ columns m) as Hn.
  { apply (proj1 (Forall_forall _ _) Hin). apply (bool_decide_unpack _). vm_compute. exact I. }
  assert ("Name" ∈ filter (λ c, c = "Name") (columns m)) as Hf by (by apply list_elem_of_filter).
  rewrite (merge_filter_label _ _ _ _ _ _ _ Hm Hpl) in Hf.
  case_decide; [by apply elem_of_nil in Hf|].
  apply drop_Ok_inv in Hd as (_ & Htc & _).
  apply elem_of_app in Hf as [Hf|Hf].
  - apply list_elem_of_filter in Hf as [_ Hf]. rewrite Htc in Hf.
    by apply list_elem_of_filter in Hf as [? _].
  - apply list_elem_of_filter in Hf as [_ Hf].
    assert ("Name" ∈ columns ann) as Hna.
    { unfold right_columns in Hf. case_bool_decide; [|done].
      by apply list_elem_of_filter in Hf as [_ ?]. }
    apply annotation_Ok_inv in Ha as (corr' & Hc & Hm').
    apply erdman_to_rv_Ok_inv in Hc as [Hc _].
    assert ("Name" ∈ filter (λ c, c = "Name") (columns ann)) as Hf'
      by (by apply list_elem_of_filter).
    rewrite (merge_filter_label _ _ _ _ _ _ _ Hm' Hpl) in Hf'.
    case_decide; [by apply elem_of_nil in Hf'|].
    apply elem_of_app in Hf' as [Hf'|Hf'].
    + by apply list_elem_of_filter in Hf' as [_ ?].
    + apply list_elem_of_filter in Hf' as [_ Hf'].
      unfold right_columns in Hf'. rewrite Hc in Hf'.
      vm_compute in Hf'. 
      apply list_elem_of_In in Hf'. cbn in Hf'. by destruct Hf' as [?|[]].
Qed.

Ltac in_list :=
  by repeat first [apply list_elem_of_here | apply list_elem_of_further].




Ltac frame_ok_tac :=
  split; [apply (bool_decide_unpack _); vm_compute; exact I
         | repeat constructor].


Lemma left_join_totality_witness :
  frame_ok Sample.func_named
  ∧ frame_ok Sample.result_table2
  ∧ ∃ out, join_func_and_gff Sample.func_named Sample.gff_simliar
             Sample.result_table2 "ERDMAN_ID" = Ok out
      ∧ ∀ r, r ∈ values Sample.result_table2 →
          ∃ r', r' ∈ values (table out)
            ∧ cells_of "Id" (columns (table out)) r'
              = cells_of "Id" (columns Sample.result_table2) r.
Proof.
  assert (frame_ok Sample.func_named) as Hf by frame_ok_tac.
  assert (frame_ok Sample.result_table2) as Ht by frame_ok_tac.
  split; [exact Hf|]. split; [exact Ht|].
  assert (∃ out, join_func_and_gff Sample.func_named Sample.gff_simliar
                   Sample.result_table2 "ERDMAN_ID" = Ok out) as [out E]
    by (eexists; vm_compute; reflexivity).
  exists out. split; [exact E|]. intros r Hr.
  destruct (left_join_totality _ _ _ _ _ Hf Ht E) as (joined & ann & _ & _ & _ & Hrows).
  destruct (Hrows r Hr) as (r' & _ & Hin & Hkept & _).
  exists r'. split; [exact Hin|].
  apply Hkept; [in_list | in_list | discriminate].
Defined.

(** The scenario of the specification, run as the source runs it: with the
    Note spelled "similar to" the gene finds no annotation; with the
    spelling the source removes it does. *)
Example end_to_end_similar :
  (table <$> (match join_func_and_gff Sample.func_named Sample.gff_similar
                      Sample.result_table "ERDMAN_ID" with
              | Ok w => Some w | Err _ => None end))
  = Some (mkDF output_columns
            [[Some "1"; None; Some "OLD1"; None; None; None; Some "10";
              Some "1.5"; Some "0.01"; Some "0.02"]]).
Proof. vm_compute. reflexivity. Qed.

Example end_to_end_simliar :
  (table <$> (match join_func_and_gff Sample.func_named Sample.gff_simliar
                      Sample.result_table "ERDMAN_ID" with
              | Ok w => Some w | Err _ => None end))
  = Some (mkDF output_columns
            [[Some "1"; Some "dnaA"; Some "OLD1"; Some "F1"; Some "unknown";
              Some "P1"; Some "10"; Some "1.5"; Some "0.01"; Some "0.02"]]).
Proof. vm_compute. reflexivity. Qed.

(** * Further properties of the source *)

(** ** Reading and writing attributes *)

Lemma split_has_sep sep s :
  has_char sep s = true → ∃ a b l, split sep s = a :: b :: l.
Proof.
  induction s as [|c s IH]; [done|]. cbn [has_char split].
  destruct (Ascii.eqb c sep) eqn:E.
  - intros _. pose proof (split_nonempty sep s).
    destruct (split sep s) as [|b l]; [done|]. by exists "", b, l.
  - cbn [orb]. intros (a & b & l & ->)%IH. by exists (String c a), b, l.
Qed.

Lemma getitem_split_1 sep s :
  is_ok (getitem (split sep s) 1) = has_char sep s.
Proof.
  destruct (has_char sep s) eqn:E.
  - by destruct (split_has_sep _ _ E) as (a & b & l & ->).
  - by rewrite (split_absent _ _ E).
Qed.

Lemma dict_comp_is_ok key value xs d :
  (∀ x, ∃ k, key x = Ok k) →
  is_ok (dict_comp key value xs d) = forallb (λ x, is_ok (value x)) xs.
Proof.
  intros Hkey. revert d. induction xs as [|x xs IH]; intros d; [done|].
  cbn [dict_comp forallb]. destruct (Hkey x) as [k ->]. cbn [bind].
  destruct (value x); cbn [bind is_ok andb]; [apply IH|done].
Qed.

(** X1: the parse succeeds exactly when every ;-separated segment holds
    an '='. *)
Theorem attributes_to_json_ok_iff (attrs : string) :
  is_ok (attributes_to_json attrs) = forallb (has_char "=") (split ";" attrs).
Proof.
  unfold attributes_to_json. rewrite dict_comp_is_ok by (intros x; apply getitem_split_0).
  induction (split ";" attrs) as [|x xs IH]; [done|].
  cbn [forallb]. by rewrite getitem_split_1, IH.
Qed.

Lemma split_trailing sep a :
  ∃ l, l ≠ [] ∧ split sep (a +:+ String sep "") = l ++ [""].
Proof.
  induction a as [|c a (l & Hl & IH)].
  - exists [""]. split; [done|]. rewrite append_nil. cbn [split].
    by rewrite Ascii.eqb_refl.
  - rewrite append_cons. cbn [split]. rewrite IH.
    destruct (Ascii.eqb c sep).
    + by exists ("" :: l).
    + destruct l as [|w ws]; [done|]. by exists (String c w :: ws).
Qed.

(** X2: an attributes field that ends with ';' (as many GFF writers end
    it), and an empty field, raise IndexError: the text after the last ';'
    is an empty segment, which has no '='. *)
Theorem trailing_semicolon_raises (a : string) :
  attributes_to_json (a +:+ ";") = Err IndexError
  ∧ attributes_to_json "" = Err IndexError.
Proof.
  split; [|reflexivity]. unfold attributes_to_json. apply dict_comp_raises.
  - intros x. apply getitem_split_0.
  - intros x e'. apply getitem_err.
  - destruct (split_trailing ";" a) as (l & _ & ->).
    apply Exists_app. right. by apply Exists_cons_hd.
Qed.

Lemma has_char_format_pair c kv :
  has_char c kv.1 = false → has_char c kv.2 = false → c ≠ "="%char →
  has_char c (format_pair kv) = false.
Proof.
  intros H1 H2 Hc. unfold format_pair.
  rewrite has_char_app, H1, append_cons, append_nil. cbn [has_char orb].
  rewrite H2, orb_false_r. by apply Ascii.eqb_neq.
Qed.

Lemma split_format_pair kv :
  has_char "=" kv.1 = false → has_char "=" kv.2 = false →
  split "=" (format_pair kv) = [kv.1; kv.2].
Proof.
  intros H1 H2. unfold format_pair. rewrite append_cons, append_nil.
  by rewrite (split_app_sep _ _ _ H1), (split_absent _ _ H2).
Qed.

Lemma split_format_attributes kvs :
  kvs ≠ [] → Forall clean_pair kvs →
  split ";" (format_attributes kvs) = map format_pair kvs.
Proof.
  induction kvs as [|kv rest IH]; [done|]. intros _ Hall.
  apply Forall_cons in Hall as [(Hk1 & Hk2 & Hv1 & Hv2) Hall].
  assert (has_char ";" (format_pair kv) = false) as Hseg
    by (by apply has_char_format_pair).
  cbn [format_attributes map]. destruct rest as [|kv' rest].
  - by apply split_absent.
  - rewrite append_cons, append_nil, (split_app_sep _ _ _ Hseg).
    f_equal. by apply IH.
Qed.

Lemma setitem_fresh k v (d : dict) :
  k ∉ keys d → setitem k v d = d ++ [(k, v)].
Proof.
  induction d as [|[k' v'] d IH]; [done|]. cbn [keys map fst].
  intros [Hne Hk]%not_elem_of_cons. cbn [setitem].
  apply String.eqb_neq in Hne as ->. cbn [app]. f_equal. by apply IH.
Qed.

Lemma foldl_setitem_fresh (kvs : list (string * string)) (d : dict) :
  NoDup (keys d ++ kvs.*1) →
  foldl (λ d kv, setitem kv.1 kv.2 d) d kvs = d ++ kvs.
Proof.
  revert d. induction kvs as [|[k v] kvs IH]; intros d Hnd.
  - by rewrite app_nil_r.
  - cbn [foldl fst snd]. cbn [fmap list_fmap fst] in Hnd.
    rewrite setitem_fresh.
    + rewrite IH; [by rewrite <- app_assoc|].
      unfold keys. rewrite map_app. cbn [map fst]. by rewrite <- app_assoc.
    + apply NoDup_app in Hnd as (_ & Hdis & _). intros Hk.
      apply (Hdis k Hk). left.
Qed.

Lemma dict_comp_format (kvs : list (string * string)) (d : dict) :
  Forall clean_pair kvs →
  dict_comp (λ x, getitem (split "=" x) 0) (λ x, getitem (split "=" x) 1)
            (map format_pair kvs) d
  = Ok (foldl (λ d kv, setitem kv.1 kv.2 d) d kvs).
Proof.
  revert d. induction kvs as [|kv kvs IH]; intros d Hall; [done|].
  apply Forall_cons in Hall as [(Hk1 & Hk2 & Hv1 & Hv2) Hall].
  cbn [map dict_comp foldl]. rewrite split_format_pair by done.
  cbn [getitem lookup list_lookup bind]. by apply IH.
Qed.

(** X3: reading back what was written.  For a non-empty list of pairs
    whose keys and values hold neither '=' nor ';', the parse of the
    written field stores the pairs in order, a repeated key keeping its
    first place and its last value; with distinct keys the dict is the list
    itself. *)
Theorem attributes_round_trip (kvs : list (string * string)) :
  kvs ≠ [] → Forall clean_pair kvs →
  attributes_to_json (format_attributes kvs)
  = Ok (foldl (λ d kv, setitem kv.1 kv.2 d) [] kvs)
  ∧ (NoDup kvs.*1 → attributes_to_json (format_attributes kvs) = Ok kvs).
Proof.
  intros Hne Hall.
  assert (attributes_to_json (format_attributes kvs)
          = Ok (foldl (λ d kv, setitem kv.1 kv.2 d) [] kvs)) as Hparse.
  { unfold attributes_to_json. rewrite split_format_attributes by done.
    by apply dict_comp_format. }
  split; [done|]. intros Hnd. rewrite Hparse. f_equal.
  by apply (foldl_setitem_fresh kvs []).
Qed.

Lemma attributes_round_trip_witness :
  let kvs := [("locus_tag", "ERDMAN_0001"); ("Note", "similar to Rv0001")] in
  format_attributes kvs = "locus_tag=ERDMAN_0001;Note=similar to Rv0001"
  ∧ attributes_to_json "locus_tag=ERDMAN_0001;Note=similar to Rv0001" = Ok kvs.
Proof.
  intros kvs. split; [reflexivity|].
  apply (attributes_round_trip kvs); [discriminate| |].
  - repeat (apply Forall_cons; split; [by repeat split|]). apply Forall_nil_2.
  - apply (bool_decide_unpack _). vm_compute. exact I.
Defined.

(** ** The parsed annotation table *)

Lemma traverse_first_error {A B} (f : A → result B) pre x post e :
  Forall (λ y, is_ok (f y) = true) pre → f x = Err e →
  traverse f (pre ++ x :: post) = Err e.
Proof.
  intros Hpre Hx. induction Hpre as [|y pre Hy Hpre IH].
  - cbn [app traverse]. by rewrite Hx.
  - cbn [app traverse]. destruct (f y); [|done]. cbn [bind]. by rewrite IH.
Qed.

Lemma get_None_keys k (d : dict) : get k d = None ↔ k ∉ keys d.
Proof.
  induction d as [|[k' v'] d IH]; cbn [get keys map fst].
  - split; [intros _; apply not_elem_of_nil|done].
  - destruct (String.eqb k k') eqn:E.
    + apply String.eqb_eq in E as ->. split; [done|]. intros H. exfalso. apply H. left.
    + apply String.eqb_neq in E. rewrite IH, not_elem_of_cons. tauto.
Qed.

(** X4: the shape of the parsed table.  It has one row per line of the
    file, in order; every row has one cell per column; the first nine
    columns are the fixed ones and hold the line's nine fields unchanged;
    the other columns are the distinct attribute keys of the file, a key
    being a column exactly when some line has it. *)
Theorem gff_to_df_shape (gff : list FeatureLine) (df : DataFrame) :
  gff_to_df gff = Ok df →
  length (values df) = length gff
  ∧ wf df
  ∧ take 9 (columns df) = gff_names
  ∧ NoDup (skipn 9 (columns df))
  ∧ (∀ i line, gff !! i = Some line →
       ∃ r, values df !! i = Some r ∧ take 9 r = line_cells line)
  ∧ (∀ k, k ∈ skipn 9 (columns df) ↔
       ∃ line d, line ∈ gff ∧ apply_attributes_to_json line = Ok d
                 ∧ is_Some (get k d)).
Proof.
  intros Hdf. pose proof Hdf as Hdf'. unfold gff_to_df in Hdf'.
  destruct (traverse apply_attributes_to_json gff) as [ds|] eqn:Et; [|done].
  cbn [bind] in Hdf'. injection Hdf' as <-.
  cbn [concat_columns json_normalize columns values].
  split.
  { rewrite length_zip_with, !length_map, (traverse_length _ _ _ Et). lia. }
  split; [by destruct (gff_to_df_Ok_inv _ _ Hdf) as (? & _ & ?)|].
  split; [done|]. split; [apply union_keys_NoDup|]. split.
  - intros i line Hi.
    destruct (gff_to_df_row _ _ _ _ Hdf Hi) as (ds' & d & Et' & _ & _ & _ & Hrow).
    eexists. split; [exact Hrow|]. by rewrite take_app_length'.
  - intros k. change (skipn 9 (gff_names ++ union_keys ds)) with (union_keys ds).
    rewrite union_keys_elem. split.
    + intros (d & Hd & Hk). apply list_elem_of_lookup in Hd as [i Hi].
      assert (is_Some (gff !! i)) as [line Hline].
      { apply lookup_lt_is_Some. rewrite <- (traverse_length _ _ _ Et).
        by eapply lookup_lt_Some. }
      destruct (traverse_lookup _ _ _ _ _ Et Hline) as (d' & Hd' & Hok).
      assert (d' = d) as -> by congruence.
      exists line, d. split; [by eapply list_elem_of_lookup_2|]. split; [done|].
      destruct (get k d) eqn:E; [done|]. by apply get_None_keys in E.
    + intros (line & d & Hline & Hok & Hk).
      apply list_elem_of_lookup in Hline as [i Hi].
      destruct (traverse_lookup _ _ _ _ _ Et Hi) as (d' & Hd' & Hok').
      assert (d' = d) as -> by congruence.
      exists d. split; [by eapply list_elem_of_lookup_2|].
      destruct (decide (k ∈ keys d)) as [?|Hn]; [done|].
      apply get_None_keys in Hn. rewrite Hn in Hk. by destruct Hk.
Qed.

Lemma gff_to_df_shape_witness :
  let gff := [Sample.cds_line "locus_tag=ERDMAN_0001;Note=n1";
              Sample.cds_line "locus_tag=ERDMAN_0002;pseudo=true"] in
  ∃ df, gff_to_df gff = Ok df
    ∧ length (values df) = 2
    ∧ columns df = gff_names ++ ["locus_tag"; "Note"; "pseudo"].
Proof.
  intros gff.
  assert (∃ df, gff_to_df gff = Ok df) as [df E] by (eexists; vm_compute; reflexivity).
  exists df. destruct (gff_to_df_shape gff df E) as (Hlen & _).
  split; [exact E|]. split; [exact Hlen|].
  vm_compute in E. by injection E as <-.
Defined.

(** X5: a key that a line lacks and another line has.  In the column of an
    attribute key (one that is not the name of a fixed column) each row
    holds the value its own line gives the key, and null when its line does
    not have the key. *)
Theorem attribute_column_cell (gff : list FeatureLine) (df : DataFrame)
    (i : nat) (line : FeatureLine) (d : dict) (k : string) :
  gff_to_df gff = Ok df →
  gff !! i = Some line → apply_attributes_to_json line = Ok d →
  k ∉ gff_names → k ∈ columns df →
  ∃ r, values df !! i = Some r ∧ cells_of k (columns df) r = [get k d].
Proof.
  intros Hdf Hi Hd Hk Hin.
  destruct (gff_to_df_row _ _ _ _ Hdf Hi) as (ds & d' & _ & Hd' & _ & Hcols & Hrow).
  assert (d' = d) as -> by congruence.
  eexists. split; [exact Hrow|].
  rewrite Hcols in Hin |- *. rewrite cells_of_app by done.
  rewrite (cells_of_absent k gff_names) by done. cbn [app].
  rewrite cells_of_map, filter_eq_NoDup; [done|apply union_keys_NoDup|].
  by apply elem_of_app in Hin as [?|?].
Qed.

Lemma attribute_column_cell_witness :
  let gff := [Sample.cds_line "locus_tag=ERDMAN_0001;Note=n1";
              Sample.cds_line "locus_tag=ERDMAN_0002;pseudo=true"] in
  ∃ df r, gff_to_df gff = Ok df
    ∧ values df !! 1 = Some r
    ∧ cells_of "Note" (columns df) r = [None].
Proof.
  intros gff.
  assert (∃ df, gff_to_df gff = Ok df) as [df E] by (eexists; vm_compute; reflexivity).
  destruct (attribute_column_cell gff df 1
              (Sample.cds_line "locus_tag=ERDMAN_0002;pseudo=true")
              [("locus_tag", "ERDMAN_0002"); ("pseudo", "true")] "Note" E)
    as (r & Hr & Hc).
  - reflexivity.
  - reflexivity.
  - apply (bool_decide_eq_false_1 _). reflexivity.
  - vm_compute in E. injection E as <-. cbn [columns].
    apply (bool_decide_unpack _). vm_compute. exact I.
  - exists df, r. split; [exact E|]. split; [exact Hr|exact Hc].
Defined.

(** X6: the first bad line decides the error.  When every line before
    some line parses and that line raises, [gff_to_df] and with it
    [join_func_and_gff] raise that line's error, whatever follows:
    AttributeError for a line whose ninth field is missing, IndexError for
    one with a segment without '='. *)
Theorem first_bad_line_raises (pre post : list FeatureLine) (line : FeatureLine)
    (e : exn) (func_df table_to_annot : DataFrame) (id_col : string) :
  Forall (λ l, is_ok (apply_attributes_to_json l) = true) pre →
  apply_attributes_to_json line = Err e →
  gff_to_df (pre ++ line :: post) = Err e
  ∧ join_func_and_gff func_df (pre ++ line :: post) table_to_annot id_col = Err e
  ∧ (attributes line = None → e = AttributeError).
Proof.
  intros Hpre Hline.
  assert (gff_to_df (pre ++ line :: post) = Err e) as Hg.
  { unfold gff_to_df. by rewrite (traverse_first_error _ _ _ _ _ Hpre Hline). }
  split; [done|]. split.
  - unfold join_func_and_gff. by rewrite Hg.
  - intros Hnone. unfold apply_attributes_to_json in Hline.
    rewrite Hnone in Hline. congruence.
Qed.

Lemma first_bad_line_raises_witness :
  let ok := Sample.cds_line "locus_tag=ERDMAN_0001;Note=n1" in
  let short := mkLine (Some "AP012340.1") (Some "DDBJ") (Some "CDS") None None
                      None None None None in
  gff_to_df [ok; short; Sample.cds_line "pseudo"] = Err AttributeError.
Proof.
  intros ok short.
  apply (first_bad_line_raises [ok] [Sample.cds_line "pseudo"] short
           AttributeError Sample.func_named Sample.result_table "ERDMAN_ID").
  - apply Forall_cons. split; [reflexivity|apply Forall_nil_2].
  - reflexivity.
Defined.

(** ** The correspondence table *)

Lemma filter_fmap {A B} (f : A → B) (P : B → Prop) `{∀ y, Decision (P y)}
    (l : list A) :
  filter P (f <$> l) = f <$> filter (λ x, P (f x)) l.
Proof.
  induction l as [|x l IH]; [done|].
  cbn [fmap list_fmap]. rewrite !filter_cons.
  case_decide; cbn [fmap list_fmap]; by rewrite <- IH.
Qed.

Lemma fmap_ext_in {A B} (f g : A → B) (l : list A) :
  (∀ x, x ∈ l → f x = g x) → f <$> l = g <$> l.
Proof.
  induction l as [|x l IH]; intros H; [done|]. cbn [fmap list_fmap].
  rewrite (H x) by left. f_equal. apply IH. intros y Hy. apply H. by right.
Qed.

Lemma filter_ext_in {A} (P Q : A → Prop) `{∀ x, Decision (P x)}
    `{∀ x, Decision (Q x)} (l : list A) :
  (∀ x, x ∈ l → P x ↔ Q x) → filter P l = filter Q l.
Proof.
  induction l as [|x l IH]; intros H'; [done|]. rewrite !filter_cons.
  assert (P x ↔ Q x) as Hx by (apply H'; left).
  rewrite IH by (intros y Hy; apply H'; by right).
  repeat case_decide; first [done | exfalso; tauto].
Qed.

(** The rows of the parsed table, written over the lines and their dicts. *)
Lemma gff_to_df_values gff ds g :
  traverse apply_attributes_to_json gff = Ok ds → gff_to_df gff = Ok g →
  columns g = gff_names ++ union_keys ds
  ∧ values g
    = (λ ld : FeatureLine * dict,
         line_cells ld.1 ++ map (λ k, get k ld.2) (union_keys ds)) <$> zip gff ds.
Proof.
  unfold gff_to_df. intros -> [= <-]. split; [done|].
  cbn [concat_columns json_normalize values].
  change (map line_cells gff) with (line_cells <$> gff).
  change (map (λ d : dict, map (λ k : string, get k d) (union_keys ds)) ds)
    with ((λ d : dict, map (λ k : string, get k d) (union_keys ds)) <$> ds).
  rewrite zip_with_fmap_l, zip_with_fmap_r, zip_with_zip.
  apply fmap_ext_in. by intros [l d] _.
Qed.

Lemma zip_traverse_elem gff ds (l : FeatureLine) (d : dict) :
  traverse apply_attributes_to_json gff = Ok ds → (l, d) ∈ zip gff ds →
  l ∈ gff ∧ d ∈ ds ∧ apply_attributes_to_json l = Ok d.
Proof.
  intros Et Hin. apply list_elem_of_lookup in Hin as [i Hi].
  apply lookup_zip_with_Some in Hi as (l' & d' & [= <- <-] & Hl & Hd).
  destruct (traverse_lookup _ _ _ _ _ Et Hl) as (d'' & Hd'' & Hok).
  assert (d'' = d) as -> by congruence.
  split; [by eapply list_elem_of_lookup_2|]. split; [by eapply list_elem_of_lookup_2|done].
Qed.

Lemma type_cell (l : FeatureLine) :
  cells_of "type" gff_names (line_cells l) = [type_ l].
Proof. vm_compute. reflexivity. Qed.

(** The correspondence holds one row per CDS line, in file order. *)
Lemma erdman_to_rv_rows gff ds corr :
  traverse apply_attributes_to_json gff = Ok ds →
  (∀ d, d ∈ ds → get "type" d = None) →
  erdman_to_rv gff = Ok corr →
  columns corr = ["locus_tag"; "Locus"]
  ∧ values corr = (λ ld, correspondence_row ld.2) <$> cds_lines gff ds.
Proof.
  intros Et Htype Hcorr.
  split; [by apply erdman_to_rv_Ok_inv in Hcorr as [? _]|].
  unfold erdman_to_rv in Hcorr.
  destruct (gff_to_df gff) as [g|] eqn:Eg; [|done]. cbn [bind] in Hcorr.
  destruct (gff_to_df_values _ _ _ Et Eg) as [Hgc Hgv].
  unfold query_eq in Hcorr. case_decide as Hnd; [|done].
  case_decide as Hty; [|done]. cbn [bind] in Hcorr.
  unfold loc in Hcorr. cbn [columns values] in Hcorr.
  case_decide as Hin; [|done]. cbn [bind] in Hcorr. injection Hcorr as <-.
  cbn [rename map_column values columns].
  set (K := union_keys ds) in *.
  assert ("type" ∉ K) as HtK.
  { intros (d & Hd & Hk)%union_keys_elem. apply get_None_keys in Hk; [done|].
    by apply Htype. }
  assert (∀ n, bool_decide (n ∈ gff_names) = false → n ∈ columns g →
            ∀ (l : FeatureLine) (d : dict),
              cells_of n (columns g) (line_cells l ++ map (λ k, get k d) K)
              = [get n d]) as Hcell.
  { intros n Hn HnK l d. rewrite Hgc in HnK |- *.
    apply not_in_gff_names in Hn.
    rewrite cells_of_app, (cells_of_absent n gff_names) by done. cbn [app].
    rewrite cells_of_map, filter_eq_NoDup; [done|apply union_keys_NoDup|].
    by apply elem_of_app in HnK as [?|?]. }
  apply Forall_cons in Hin as [Hlt [Hno _]%Forall_cons].
  rewrite Hgv, filter_fmap. unfold cds_lines.
  change (map ?f ?l) with (f <$> l). rewrite <- !list_fmap_compose.
  rewrite (filter_ext_in _ (λ ld : FeatureLine * dict, type_ ld.1 = Some "CDS")).
  2:{ intros [l d] _. cbn [fst snd]. rewrite Hgc, cells_of_app by done.
      rewrite (cells_of_absent "type" K), type_cell by done.
      cbn [app]. split; congruence. }
  assert (∀ n, bool_decide (n ∈ gff_names) = false → n ∈ columns g →
            filter (λ c, c = n) (columns g) = [n]) as Hlab.
  { intros n Hn HnK. apply not_in_gff_names in Hn. rewrite Hgc in HnK |- *.
    rewrite filter_app, (filter_eq_absent n gff_names) by done. cbn [app].
    apply filter_eq_NoDup; [apply union_keys_NoDup|].
    by apply elem_of_app in HnK as [?|?]. }
  apply fmap_ext_in. intros [l d] _. cbn [compose fst snd].
  rewrite (Hcell "locus_tag"), (Hcell "Note") by done.
  rewrite (Hlab "locus_tag"), (Hlab "Note") by done.
  cbn [app zip_with]. rewrite decide_False by done. by rewrite decide_True.
Qed.

(** X7: the Erdman-to-Rv correspondence is read from the CDS lines only.
    When no attribute is called type, the table of lines 47-51 has exactly
    one row per CDS line, in file order: the line's locus_tag attribute and
    its cleaned Note, each null when the line lacks the attribute.  Lines
    of any other type (gene, region, ...) contribute nothing. *)
Theorem correspondence_from_cds_lines (gff : list FeatureLine) (ds : list dict)
    (corr : DataFrame) :
  traverse apply_attributes_to_json gff = Ok ds →
  (∀ d, d ∈ ds → get "type" d = None) →
  erdman_to_rv gff = Ok corr →
  values corr = (λ ld, correspondence_row ld.2) <$> cds_lines gff ds
  ∧ ∀ r, r ∈ values corr ↔
      ∃ line d, line ∈ gff ∧ apply_attributes_to_json line = Ok d
        ∧ type_ line = Some "CDS"
        ∧ r = [get "locus_tag" d; clean_note (get "Note" d)].
Proof.
  intros Et Htype Hcorr.
  destruct (erdman_to_rv_rows _ _ _ Et Htype Hcorr) as [_ Hrows].
  split; [done|]. intros r. rewrite Hrows, list_elem_of_fmap. split.
  - intros ([line d] & -> & [Hcds Hin]%list_elem_of_filter).
    destruct (zip_traverse_elem _ _ _ _ Et Hin) as (Hl & _ & Hok).
    by exists line, d.
  - intros (line & d & Hl & Hok & Hcds & ->). exists (line, d). split; [done|].
    apply list_elem_of_filter. split; [done|].
    apply list_elem_of_lookup in Hl as [i Hi].
    destruct (traverse_lookup _ _ _ _ _ Et Hi) as (d' & Hd' & Hok').
    assert (d' = d) as -> by congruence.
    apply list_elem_of_lookup. exists i.
    apply lookup_zip_with_Some. by exists line, d.
Qed.

Lemma correspondence_from_cds_lines_witness :
  let gff := [mkLine (Some "AP012340.1") (Some "DDBJ") (Some "gene") (Some "1")
                     (Some "1524") None (Some "+") None
                     (Some "locus_tag=ERDMAN_0001;Note=gene note");
              Sample.cds_line "locus_tag=ERDMAN_0001;Note=simliar to Rv0001 of M. tuberculosis H37Rv";
              Sample.cds_line "locus_tag=ERDMAN_0002"] in
  ∃ corr, erdman_to_rv gff = Ok corr
    ∧ values corr = [[Some "ERDMAN_0001"; Some "Rv0001"]; [Some "ERDMAN_0002"; None]].
Proof.
  intros gff.
  assert (∃ ds, traverse apply_attributes_to_json gff = Ok ds) as [ds Et]
    by (eexists; vm_compute; reflexivity).
  assert (∃ corr, erdman_to_rv gff = Ok corr) as [corr Ec]
    by (eexists; vm_compute; reflexivity).
  exists corr. split; [exact Ec|].
  destruct (correspondence_from_cds_lines gff ds corr Et) as [Hrows _].
  - vm_compute in Et. injection Et as <-. intros d Hd.
    repeat (apply elem_of_cons in Hd as [->|Hd]; [reflexivity|]).
    by apply elem_of_nil in Hd.
  - exact Ec.
  - rewrite Hrows. vm_compute in Et. injection Et as <-. vm_compute. reflexivity.
Defined.

Lemma locus_cell (a b : cell) :
  cells_of "Locus" ["locus_tag"; "Locus"] [a; b] = [b].
Proof. vm_compute. reflexivity. Qed.

Lemma clean_note_None (x : cell) : clean_note x = None ↔ x = None.
Proof. by destruct x. Qed.

(** X8: the count that line 53 prints is the number of CDS lines without
    a Note attribute: on a run that completes (no attribute being called
    type), Erdman genes whose Note is present but names no Rv gene are not
    counted. *)
Theorem printed_counts_cds_without_note (func_df : DataFrame)
    (gff : list FeatureLine) (ds : list dict) (table_to_annot : DataFrame)
    (id_col : string) (out : Written) :
  traverse apply_attributes_to_json gff = Ok ds →
  (∀ d, d ∈ ds → get "type" d = None) →
  join_func_and_gff func_df gff table_to_annot id_col = Ok out →
  printed out
  = length (filter (λ ld : FeatureLine * dict, get "Note" ld.2 = None)
                   (cds_lines gff ds)).
Proof.
  intros Et Htype (corr & t & ann & m & p & Hcorr & _ & _ & _ & _ & ->)%join_func_and_gff_Ok_inv.
  destruct (erdman_to_rv_rows _ _ _ Et Htype Hcorr) as [Hc Hrows].
  cbn [printed]. unfold isna_sum. rewrite Hc, Hrows, filter_fmap, length_fmap.
  f_equal. apply filter_ext_in. intros [l d] _. cbn [fst snd].
  unfold correspondence_row. rewrite locus_cell. split.
  - intros [= H]. by apply clean_note_None.
  - intros ->. done.
Qed.

Lemma printed_counts_cds_without_note_witness :
  let gff := [Sample.cds_line "locus_tag=ERDMAN_0001;Note=simliar to Rv0001 of M. tuberculosis H37Rv";
              Sample.cds_line "locus_tag=ERDMAN_0002";
              Sample.cds_line "locus_tag=ERDMAN_0003;Note=hypothetical protein"] in
  ∃ out, join_func_and_gff Sample.func_named gff Sample.result_table "ERDMAN_ID" = Ok out
    ∧ printed out = 1.
Proof.
  intros gff.
  assert (∃ ds, traverse apply_attributes_to_json gff = Ok ds) as [ds Et]
    by (eexists; vm_compute; reflexivity).
  assert (∃ out, join_func_and_gff Sample.func_named gff Sample.result_table
                   "ERDMAN_ID" = Ok out) as [out E]
    by (eexists; vm_compute; reflexivity).
  exists out. split; [exact E|].
  rewrite (printed_counts_cds_without_note Sample.func_named gff ds
             Sample.result_table "ERDMAN_ID" out Et); [|  |exact E].
  - vm_compute in Et. injection Et as <-. vm_compute. reflexivity.
  - vm_compute in Et. injection Et as <-. intros d Hd.
    repeat (apply elem_of_cons in Hd as [->|Hd]; [reflexivity|]).
    by apply elem_of_nil in Hd.
Defined.

(** The labels of the parsed table are distinct exactly when no
    attribute is called like one of the nine fixed columns. *)
Lemma gff_columns_NoDup (ds : list dict) :
  NoDup (gff_names ++ union_keys ds)
  ↔ ∀ d k, d ∈ ds → k ∈ gff_names → get k d = None.
Proof.
  split.
  - intros (_ & Hdis & _)%NoDup_app d k Hd Hk. apply get_None_keys.
    intros Hin. apply (Hdis k Hk). apply union_keys_elem. by exists d.
  - intros H. apply NoDup_app. split; [|split; [|apply union_keys_NoDup]].
    + apply (bool_decide_unpack _). vm_compute. exact I.
    + intros k Hk (d & Hd & Hin)%union_keys_elem.
      by apply (get_None_keys k d) in Hin; [|apply H].
Qed.

(** X9: a GFF that parses, in which no attribute is called like one of
    the nine fixed columns, but in which no line has a Note attribute, or
    none has a locus_tag attribute (an empty file among them), makes the
    run raise KeyError at line 47: the column is not there to select. *)
Theorem gff_without_note_raises (func_df : DataFrame) (gff : list FeatureLine)
    (ds : list dict) (table_to_annot : DataFrame) (id_col : string) :
  traverse apply_attributes_to_json gff = Ok ds →
  (∀ d k, d ∈ ds → k ∈ gff_names → get k d = None) →
  (∀ d, d ∈ ds → get "Note" d = None) ∨ (∀ d, d ∈ ds → get "locus_tag" d = None) →
  join_func_and_gff func_df gff table_to_annot id_col = Err KeyError.
Proof.
  intros Et Hfixed Hnone. unfold join_func_and_gff, gff_to_df. rewrite Et. cbn [bind].
  unfold query_eq. cbn [concat_columns json_normalize columns values].
  rewrite decide_True by (by apply gff_columns_NoDup).
  rewrite decide_True
    by (apply elem_of_app; left; apply (bool_decide_unpack _); vm_compute; exact I).
  cbn [bind]. unfold loc. cbn [columns]. rewrite decide_False; [done|].
  intros [Hlt [Hno _]%Forall_cons]%Forall_cons.
  assert (∀ n, bool_decide (n ∈ gff_names) = false →
               (∀ d, d ∈ ds → get n d = None) →
               n ∉ gff_names ++ union_keys ds) as Habs.
  { intros n Hn Hd [Hin|Hin]%elem_of_app; [by apply not_in_gff_names in Hn|].
    apply union_keys_elem in Hin as (d & Hdin & Hk).
    by apply (get_None_keys n d) in Hk; [|apply Hd]. }
  destruct Hnone as [H|H]; [by apply (Habs "Note")|by apply (Habs "locus_tag")].
Qed.

Lemma gff_without_note_raises_witness :
  join_func_and_gff Sample.func_named [] Sample.result_table "ERDMAN_ID"
  = Err KeyError
  ∧ join_func_and_gff Sample.func_named [Sample.cds_line "locus_tag=ERDMAN_0001"]
      Sample.result_table "ERDMAN_ID" = Err KeyError.
Proof.
  split.
  - apply (gff_without_note_raises _ [] []); [reflexivity| |].
    + by intros d k ?%elem_of_nil.
    + left. by intros d ?%elem_of_nil.
  - apply (gff_without_note_raises _ _ [[("locus_tag", "ERDMAN_0001")]]);
      [reflexivity| |].
    + intros d k ->%list_elem_of_singleton Hk.
      repeat (apply elem_of_cons in Hk as [->|Hk]; [reflexivity|]).
      by apply elem_of_nil in Hk.
    + left. intros d ->%list_elem_of_singleton. reflexivity.
Defined.

(** ** The rows of the join *)

Lemma merge_row_intro h l r lk rk df (x y : row) :
  merge h l r lk rk = Ok df → x ∈ values l → y ∈ matches l r lk rk x →
  x ++ right_part r lk rk y ∈ values df.
Proof.
  intros (_ & _ & _ & Hv)%merge_Ok_inv Hx Hy. rewrite Hv.
  apply list_elem_of_bind. exists x. split; [|done].
  destruct (matches l r lk rk x) as [|y0 ms] eqn:Em; [by apply elem_of_nil in Hy|].
  by apply (list_elem_of_fmap_2 (λ y, x ++ right_part r lk rk y)).
Qed.

Lemma merge_row_inv h l r lk rk df (w : row) :
  merge h l r lk rk = Ok df → w ∈ values df →
  ∃ x, x ∈ values l
    ∧ ((h = left ∧ matches l r lk rk x = []
        ∧ w = x ++ replicate (length (right_columns r lk rk)) None)
       ∨ ∃ y, y ∈ matches l r lk rk x ∧ w = x ++ right_part r lk rk y).
Proof.
  intros (_ & _ & _ & Hv)%merge_Ok_inv. rewrite Hv.
  intros (x & Hw & Hx)%list_elem_of_bind. exists x. split; [done|].
  destruct (matches l r lk rk x) as [|y0 ms] eqn:Em.
  - destruct h; [by apply elem_of_nil in Hw|].
    apply list_elem_of_singleton in Hw as ->. by left.
  - right. apply list_elem_of_fmap in Hw as (y & -> & Hy). by exists y.
Qed.

Lemma right_part_cells r lk rk n (y : row) :
  n ≠ rk →
  cells_of n (right_columns r lk rk) (right_part r lk rk y)
  = cells_of n (columns r) y.
Proof.
  intros Hn. unfold right_columns, right_part.
  case_bool_decide; [by apply cells_of_without|done].
Qed.

Section Join.
Context (func_df table_to_annot t ann m p : DataFrame).
Context (gff : list FeatureLine) (id_col : string).
Hypothesis Hf : frame_ok func_df.
Hypothesis Ht : frame_ok table_to_annot.
Hypothesis Hd : drop "Name" table_to_annot = Ok t.
Hypothesis Ha : annotation func_df gff = Ok ann.
Hypothesis Hm : merge left t ann id_col "locus_tag" = Ok m.
Hypothesis Hp : loc output_columns m = Ok p.

Lemma join_wf : wf t ∧ wf ann ∧ wf m ∧ wf p.
Proof.
  destruct Hf as [_ Hfw], Ht as [_ Htw].
  assert (wf t) as Hwt by (by eapply drop_wf).
  assert (wf ann) as Hwa.
  { destruct (annotation_Ok_inv _ _ _ Ha) as (corr & Hc & Hm').
    eapply merge_wf; [exact Hm'|done|].
    by apply erdman_to_rv_Ok_inv in Hc as [_ ?]. }
  assert (wf m) as Hwm by (by eapply merge_wf).
  repeat split; try done. by eapply loc_wf.
Qed.

Lemma join_label n :
  n ∈ output_columns →
  filter (λ c, c = n) (columns m) = [n]
  ∧ n ∉ filter (λ c, c ∈ right_columns ann id_col "locus_tag") (columns t).
Proof.
  intros Hn. destruct Hf as [Hfn _], Ht as [Htn _].
  destruct (joined_columns _ _ _ _ _ _ _ _ Hfn Htn Hd Ha Hm Hp) as [Hone _].
  destruct (loc_Ok_inv _ _ _ Hp) as (Hin & _).
  assert (filter (λ c, c = n) (columns m) = [n]) as Hfl.
  { apply filter_eq_once; [by apply (proj1 (Forall_forall _ _) Hin)|].
    by apply Hone, plain_in_output. }
  split; [done|]. intros HT.
  rewrite (merge_filter_label _ _ _ _ _ _ n Hm) in Hfl by by apply plain_in_output.
  by rewrite decide_True in Hfl.
Qed.

(** A projected row, read by label, is the merged row read by label. *)
Lemma join_projected_cells n (y : row) :
  n ∈ output_columns → y ∈ values m →
  cells_of n output_columns (k ← output_columns; cells_of k (columns m) y)
  = cells_of n (columns m) y.
Proof.
  intros Hn Hy. destruct join_wf as (_ & _ & Hwm & _).
  apply loc_row_cells; [apply (bool_decide_unpack _); vm_compute; exact I| |done].
  intros k Hk. rewrite length_cells_of.
  - by destruct (join_label k Hk) as [-> _].
  - by apply (proj1 (Forall_forall _ _) Hwm).
Qed.

(** A merged row, read by an output label, is read on one side. *)
Lemma join_merged_cells n (x z : row) :
  n ∈ output_columns → x ∈ values t →
  cells_of n (columns m) (x ++ z)
  = if decide (n ∈ columns t) then cells_of n (columns t) x
    else cells_of n (right_columns ann id_col "locus_tag") z.
Proof.
  intros Hn Hx. destruct join_wf as (Hwt & _).
  destruct (join_label n Hn) as [_ HT].
  rewrite (merge_row_cells _ _ _ _ _ _ n x z Hm);
    [|by apply plain_in_output|by apply (proj1 (Forall_forall _ _) Hwt)].
  rewrite decide_False by done. case_decide as Hnt.
  - rewrite (cells_of_absent n (right_columns _ _ _)); [by rewrite app_nil_r|].
    intros Hr. apply HT. by apply list_elem_of_filter.
  - by rewrite (cells_of_absent n (columns t)).
Qed.

Lemma join_left_columns n :
  n ∈ columns t ↔ n ∈ columns table_to_annot ∧ n ≠ "Name".
Proof.
  destruct (drop_Ok_inv _ _ _ Hd) as (_ & -> & _).
  rewrite list_elem_of_filter. tauto.
Qed.

Lemma join_left_row (x : row) :
  x ∈ values t ↔
  ∃ r, r ∈ values table_to_annot ∧ x = without "Name" (columns table_to_annot) r.
Proof.
  destruct (drop_Ok_inv _ _ _ Hd) as (_ & _ & ->).
  change (map ?f ?l) with (f <$> l). rewrite list_elem_of_fmap.
  split; intros (r & H1 & H2); by exists r.
Qed.

Lemma join_left_cells n (r : row) :
  n ≠ "Name" →
  cells_of n (columns t) (without "Name" (columns table_to_annot) r)
  = cells_of n (columns table_to_annot) r.
Proof.
  intros Hn. destruct (drop_Ok_inv _ _ _ Hd) as (_ & -> & _).
  by apply cells_of_without.
Qed.

Lemma join_id_col : id_col ∈ columns t ∧ id_col ≠ "Name".
Proof.
  destruct (merge_Ok_inv _ _ _ _ _ _ Hm) as (_ & Hlk & _).
  assert (id_col ∈ filter (λ c, c = id_col) (columns t)) as Hin
    by (rewrite Hlk; left).
  apply list_elem_of_filter in Hin as [_ Hin]. split; [done|].
  by apply join_left_columns in Hin as [_ ?].
Qed.

(** On a run that gets this far the annotation table has no locus_tag
    column of its own, and the annotation is its columns followed by the
    Erdman locus tag. *)
Lemma join_annotation_columns :
  ("locus_tag" ∉ columns func_df)
  ∧ columns ann = columns func_df ++ ["locus_tag"].
Proof.
  destruct (annotation_Ok_inv _ _ _ Ha) as (corr & Hc & Hm').
  destruct (erdman_to_rv_Ok_inv _ _ Hc) as [Hcc _].
  destruct (merge_Ok_inv _ _ _ _ _ _ Hm) as (Hrk & _).
  assert (plain "locus_tag") as Hpl by (by split).
  assert (right_columns corr "Locus" "Locus" = ["locus_tag"]) as Hrc
    by (unfold right_columns; rewrite Hcc; reflexivity).
  rewrite (merge_filter_label _ _ _ _ _ _ _ Hm' Hpl) in Hrk.
  case_decide as HT; [done|]. rewrite Hrc in HT.
  assert ("locus_tag" ∉ columns func_df) as Hno.
  { intros Hin. apply HT. apply list_elem_of_filter. split; [left|done]. }
  split; [done|].
  destruct (merge_Ok_inv _ _ _ _ _ _ Hm') as (_ & _ & -> & _).
  rewrite Hrc, (filter_none (λ c, c ∈ ["locus_tag"]) (columns func_df)).
  - by rewrite !renamer_nil.
  - by intros c Hc' ->%list_elem_of_singleton.
Qed.
End Join.

Lemma cells_of_lookup {A} (cols : list string) (r : list A) i n c :
  NoDup cols → cols !! i = Some n → r !! i = Some c → cells_of n cols r = [c].
Proof.
  intros Hnd. revert r i. induction Hnd as [|k cols Hk Hnd IH]; intros r i Hn Hc.
  - by rewrite lookup_nil in Hn.
  - destruct r as [|a r]; [by rewrite lookup_nil in Hc|].
    unfold cells_of. cbn [zip_with]. rewrite filter_cons. cbn [fst].
    destruct i as [|i]; cbn in Hn, Hc.
    + injection Hn as ->. injection Hc as ->. rewrite decide_True by done.
      cbn [fmap list_fmap snd].
      change ((filter (λ p : string * A, p.1 = n) (zip cols r)).*2)
        with (cells_of n cols r).
      by rewrite cells_of_absent.
    + rewrite decide_False.
      * by apply (IH r i).
      * intros ->. apply Hk. by eapply list_elem_of_lookup_2.
Qed.

(** Every row written stems from a row of the result table. *)
Lemma output_row_origin func_df gff table_to_annot id_col out :
  frame_ok func_df → frame_ok table_to_annot →
  join_func_and_gff func_df gff table_to_annot id_col = Ok out →
  columns (table out) = output_columns
  ∧ Forall (λ r : row, length r = 10) (values (table out))
  ∧ ∀ r', r' ∈ values (table out) →
      ∃ r, r ∈ values table_to_annot
        ∧ ∀ n, n ∈ output_columns → n ∈ columns table_to_annot → n ≠ "Name" →
            cells_of n output_columns r' = cells_of n (columns table_to_annot) r.
Proof.
  intros Hf Ht E. pose proof E as E'.
  apply join_func_and_gff_Ok_inv in E'
    as (corr & t & ann & m & p & _ & Hd & Ha & Hm & Hp & ->).
  destruct (join_wf _ _ _ _ _ _ _ _ Hf Ht Hd Ha Hm Hp) as (_ & _ & _ & Hwp).
  destruct (joined_columns _ _ _ _ _ _ _ _ (proj1 Hf) (proj1 Ht) Hd Ha Hm Hp)
    as [_ Hpc].
  cbn [table drop_duplicates columns]. split; [done|]. split.
  { apply Forall_forall. intros r Hr. apply (proj1 (drop_duplicates_elem _ _)) in Hr.
    pose proof (proj1 (Forall_forall _ _) Hwp r Hr) as Hl. cbn in Hl.
    by rewrite Hpc in Hl. }
  intros r' Hr'. apply (proj1 (drop_duplicates_elem _ _)) in Hr'.
  destruct (loc_Ok_inv _ _ _ Hp) as (_ & _ & Hpv).
  rewrite Hpv in Hr'. change (map ?f ?l) with (f <$> l) in Hr'.
  apply list_elem_of_fmap in Hr' as (w & -> & Hw).
  destruct (merge_row_inv _ _ _ _ _ _ _ Hm Hw) as (x & Hx & Hform).
  destruct (proj1 (join_left_row _ _ Hd x) Hx) as (r & Hr & ->).
  exists r. split; [done|]. intros n Hn Hnt Hname.
  rewrite (join_projected_cells func_df table_to_annot t ann m p gff id_col)
    by done.
  assert (∀ z, cells_of n (columns m)
                 (without "Name" (columns table_to_annot) r ++ z)
               = cells_of n (columns table_to_annot) r) as Hcells.
  { intros z.
    rewrite (join_merged_cells func_df table_to_annot t ann m p gff id_col)
      by done.
    rewrite decide_True by (by apply (join_left_columns table_to_annot t Hd)).
    by apply (join_left_cells table_to_annot t Hd). }
  destruct Hform as [(_ & _ & ->)|(y & _ & ->)]; apply Hcells.
Qed.

(** C5: on every run that completes over tables as [read_csv] returns
    them, the table written has exactly the ten columns of the output
    schema, in that order, whatever other columns the result table (or
    the annotation table) has: its labels are the ten names, every row
    has ten cells, the sheet is the header of the ten names followed by
    one line of ten cells per row, and the cell at the place of a column
    that comes from the result table is the cell the result row has
    under that name, so that no cell of another column is written. *)
Theorem output_schema (func_df : DataFrame) (gff : list FeatureLine)
    (table_to_annot : DataFrame) (id_col : string) (out : Written) :
  frame_ok func_df → frame_ok table_to_annot →
  join_func_and_gff func_df gff table_to_annot id_col = Ok out →
  columns (table out) = output_columns
  ∧ Forall (λ r : row, length r = 10) (values (table out))
  ∧ xlsx.sheet1 (book out)
    = output_columns :: map (map (default "")) (values (table out))
  ∧ Forall (λ line : list string, length line = 10) (xlsx.sheet1 (book out))
  ∧ ∀ r', r' ∈ values (table out) →
      ∃ r, r ∈ values table_to_annot
        ∧ ∀ i n, output_columns !! i = Some n →
            n ∈ columns table_to_annot → n ≠ "Name" →
            ∃ c, r' !! i = Some c
              ∧ cells_of n (columns table_to_annot) r = [c].
Proof.
  intros Hf Ht E.
  destruct (output_row_origin _ _ _ _ _ Hf Ht E) as (Hcols & Hten & Horigin).
  assert (xlsx.sheet1 (book out)
          = output_columns :: map (map (default "")) (values (table out))) as Hsheet.
  { apply join_func_and_gff_Ok_inv in E
      as (corr & t & ann & m & p & _ & _ & _ & _ & _ & ->).
    cbn [table book write_colored xlsx.sheet1] in *. unfold xlsx.to_excel.
    by rewrite Hcols. }
  split; [done|]. split; [done|]. split; [done|]. split.
  - rewrite Hsheet. apply Forall_cons. split; [reflexivity|].
    apply Forall_fmap. eapply Forall_impl; [exact Hten|].
    intros r Hr. cbn. by rewrite length_map.
  - intros r' Hr'. destruct (Horigin r' Hr') as (r & Hr & Hcells).
    exists r. split; [done|]. intros i n Hi Hn Hname.
    pose proof (proj1 (Forall_forall _ _) Hten r' Hr') as Hlen.
    assert (i < length r')%nat as Hlt.
    { rewrite Hlen. apply lookup_lt_Some in Hi. exact Hi. }
    destruct (lookup_lt_is_Some_2 _ _ Hlt) as [c Hc].
    exists c. split; [done|].
    rewrite <- (Hcells n (list_elem_of_lookup_2 _ _ _ Hi) Hn Hname).
    apply (cells_of_lookup output_columns r' i n c); [|done|done].
    apply (bool_decide_unpack _). vm_compute. exact I.
Qed.

Lemma output_schema_witness :
  frame_ok Sample.func_named
  ∧ frame_ok Sample.result_table2
  ∧ "lfcSE" ∈ columns Sample.result_table2
  ∧ ∃ out, join_func_and_gff Sample.func_named Sample.gff_simliar
             Sample.result_table2 "ERDMAN_ID" = Ok out
      ∧ columns (table out) = output_columns
      ∧ Forall (λ r : row, length r = 10) (values (table out)).
Proof.
  assert (frame_ok Sample.func_named) as Hf by frame_ok_tac.
  assert (frame_ok Sample.result_table2) as Ht by frame_ok_tac.
  split; [exact Hf|]. split; [exact Ht|]. split; [in_list|].
  assert (∃ out, join_func_and_gff Sample.func_named Sample.gff_simliar
                   Sample.result_table2 "ERDMAN_ID" = Ok out) as [out E]
    by (eexists; vm_compute; reflexivity).
  exists out. split; [exact E|].
  destruct (output_schema _ _ _ _ _ Hf Ht E) as (H1 & H2 & _).
  split; [exact H1|exact H2].
Defined.

(** X10: what a run that completes says of its inputs.  The result table
    has a Name column and the ID column, which is not Name; the annotation
    table has Locus and Name and no locus_tag column; and every output
    column comes from exactly one side, the result table (Name set aside)
    or the annotation table: an output column present on both sides would
    be renamed by the merge and the projection would fail. *)
Theorem completed_run_schema (func_df : DataFrame) (gff : list FeatureLine)
    (table_to_annot : DataFrame) (id_col : string) (out : Written) :
  join_func_and_gff func_df gff table_to_annot id_col = Ok out →
  "Name" ∈ columns table_to_annot
  ∧ id_col ∈ columns table_to_annot ∧ id_col ≠ "Name"
  ∧ "Locus" ∈ columns func_df ∧ "Name" ∈ columns func_df
  ∧ ("locus_tag" ∉ columns func_df)
  ∧ ∀ n, n ∈ output_columns →
      (n ∈ columns table_to_annot ∧ n ≠ "Name" ∧ n ∉ columns func_df)
      ∨ ((n ∉ columns table_to_annot ∨ n = "Name") ∧ n ∈ columns func_df).
Proof.
  intros E.
  assert ("Name" ∈ columns func_df) as HfName.
  { destruct (decide ("Name" ∈ columns func_df)) as [?|Hn]; [done|].
    pose proof (name_column_needed func_df gff table_to_annot id_col Hn) as Hno.
    by rewrite E in Hno. }
  apply join_func_and_gff_Ok_inv in E
    as (corr & t & ann & m & p & Hcorr & Hd & Ha & Hm & Hp & _).
  destruct (drop_Ok_inv _ _ _ Hd) as (HtName & Htc & _).
  destruct (merge_Ok_inv _ _ _ _ _ _ Hm) as (Hrk & Hlk & Hmc & _).
  destruct (annotation_Ok_inv _ _ _ Ha) as (corr' & Hc' & Hm').
  assert (corr' = corr) as -> by congruence.
  destruct (erdman_to_rv_Ok_inv _ _ Hcorr) as [Hcc _].
  destruct (merge_Ok_inv _ _ _ _ _ _ Hm') as (_ & Hlk' & Hac & _).
  assert (right_columns corr "Locus" "Locus" = ["locus_tag"]) as Hrc
    by (unfold right_columns; rewrite Hcc; reflexivity).
  assert (id_col ∈ columns t) as Hid.
  { assert (id_col ∈ filter (λ c, c = id_col) (columns t)) as Hin
      by (rewrite Hlk; left).
    by apply list_elem_of_filter in Hin as [_ ?]. }
  rewrite Htc in Hid. apply list_elem_of_filter in Hid as [Hid1 Hid2].
  assert ("Locus" ∈ columns func_df) as HfLocus.
  { assert ("Locus" ∈ filter (λ c, c = "Locus") (columns func_df)) as Hin
      by (rewrite Hlk'; left).
    by apply list_elem_of_filter in Hin as [_ ?]. }
  (* the labels of the annotation: those of [func_df], then locus_tag *)
  assert (plain "locus_tag") as Hpl by (by split).
  assert ("locus_tag" ∉ columns func_df) as Hnolt.
  { pose proof Hrk as Hrk'.
    rewrite (merge_filter_label _ _ _ _ _ _ _ Hm' Hpl) in Hrk'.
    case_decide as HT; [done|]. rewrite Hrc in HT.
    intros Hin. apply HT. apply list_elem_of_filter. split; [left|done]. }
  assert (columns ann = columns func_df ++ ["locus_tag"]) as Hacols.
  { rewrite Hac, Hrc, (filter_none (λ c, c ∈ ["locus_tag"]) (columns func_df)).
    - by rewrite !renamer_nil.
    - by intros c Hc ->%list_elem_of_singleton. }
  repeat (split; [done|]).
  intros n Hn. pose proof (plain_in_output n Hn) as Hpn.
  destruct (loc_Ok_inv _ _ _ Hp) as (Hin & _).
  assert (n ∈ filter (λ c, c = n) (columns m)) as Hnm.
  { apply list_elem_of_filter. split; [done|].
    by apply (proj1 (Forall_forall _ _) Hin). }
  rewrite (merge_filter_label _ _ _ _ _ _ _ Hm Hpn) in Hnm.
  case_decide as HT; [by apply elem_of_nil in Hnm|].
  assert (n ≠ "locus_tag") as Hnlt.
  { intros ->. revert Hn. apply (bool_decide_eq_false_1 _). reflexivity. }
  assert (n ∈ right_columns ann id_col "locus_tag" ↔ n ∈ columns func_df) as Hright.
  { unfold right_columns. case_bool_decide.
    - rewrite list_elem_of_filter, Hacols, elem_of_app, list_elem_of_singleton. tauto.
    - rewrite Hacols, elem_of_app, list_elem_of_singleton. tauto. }
  assert (n ∈ columns t ↔ n ∈ columns table_to_annot ∧ n ≠ "Name") as Hleft
    by (rewrite Htc, list_elem_of_filter; tauto).
  apply elem_of_app in Hnm as [Hl|Hr].
  - apply list_elem_of_filter in Hl as [_ Hl]. left.
    apply Hleft in Hl as [? ?]. repeat split; try done.
    intros Hf. apply HT. apply list_elem_of_filter. split; [by apply Hright|].
    by apply Hleft.
  - apply list_elem_of_filter in Hr as [_ Hr]. right.
    split; [|by apply Hright].
    destruct (decide (n = "Name")) as [?|Hne]; [by right|]. left.
    intros Hnt. apply HT. apply list_elem_of_filter. split; [done|].
    by apply Hleft.
Qed.

Lemma completed_run_schema_witness :
  ∃ out, join_func_and_gff Sample.func_named Sample.gff_simliar
           Sample.result_table2 "ERDMAN_ID" = Ok out
    ∧ "Name" ∈ columns Sample.result_table2
    ∧ "Locus" ∈ columns Sample.func_named.
Proof.
  assert (∃ out, join_func_and_gff Sample.func_named Sample.gff_simliar
                   Sample.result_table2 "ERDMAN_ID" = Ok out) as [out E]
    by (eexists; vm_compute; reflexivity).
  exists out. split; [exact E|].
  destruct (completed_run_schema _ _ _ _ _ E) as (H1 & _ & _ & H2 & _).
  split; [exact H1|exact H2].
Defined.

(** X11: the table written is rectangular and free of duplicates: on a
    run that completes over tables as [read_csv] returns them, no two rows
    of the output are equal, every row has ten cells, and the sheet has
    the header and one line of ten cells per row. *)
Theorem output_rows_distinct_and_full (func_df : DataFrame)
    (gff : list FeatureLine) (table_to_annot : DataFrame) (id_col : string)
    (out : Written) :
  frame_ok func_df → frame_ok table_to_annot →
  join_func_and_gff func_df gff table_to_annot id_col = Ok out →
  NoDup (values (table out))
  ∧ Forall (λ r : row, length r = 10) (values (table out))
  ∧ length (xlsx.sheet1 (book out)) = S (length (values (table out)))
  ∧ Forall (λ line : list string, length line = 10) (xlsx.sheet1 (book out)).
Proof.
  intros Hf Ht E. pose proof E as E'.
  apply join_func_and_gff_Ok_inv in E'
    as (corr & t & ann & m & p & _ & Hd & Ha & Hm & Hp & ->).
  destruct (join_wf _ _ _ _ _ _ _ _ Hf Ht Hd Ha Hm Hp) as (_ & _ & _ & Hwp).
  destruct Hf as [Hfn _], Ht as [Htn _].
  destruct (joined_columns _ _ _ _ _ _ _ _ Hfn Htn Hd Ha Hm Hp) as [_ Hpc].
  assert (Forall (λ r : row, length r = 10) (values (drop_duplicates p))) as Hten.
  { apply Forall_forall. intros r Hr. apply (proj1 (drop_duplicates_elem _ _)) in Hr.
    pose proof (proj1 (Forall_forall _ _) Hwp r Hr) as Hl. cbn in Hl.
    by rewrite Hpc in Hl. }
  cbn [table book write_colored xlsx.sheet1]. unfold xlsx.to_excel.
  split; [apply drop_duplicates_NoDup|]. split; [done|].
  split; [cbn [length]; by rewrite length_map|].
  apply Forall_cons. split.
  - cbn [drop_duplicates columns]. by rewrite Hpc.
  - apply Forall_fmap. eapply Forall_impl; [exact Hten|].
    intros r Hr. cbn. by rewrite length_map.
Qed.

Lemma output_rows_distinct_and_full_witness :
  let twice := mkDF (columns Sample.result_table)
                 (values Sample.result_table ++ values Sample.result_table) in
  frame_ok Sample.func_named ∧ frame_ok twice
  ∧ ∃ out, join_func_and_gff Sample.func_named Sample.gff_simliar twice
             "ERDMAN_ID" = Ok out
      ∧ length (values twice) = 2
      ∧ length (values (table out)) = 1
      ∧ NoDup (values (table out)).
Proof.
  intros twice.
  assert (frame_ok Sample.func_named) as Hf by frame_ok_tac.
  assert (frame_ok twice) as Ht by frame_ok_tac.
  split; [exact Hf|]. split; [exact Ht|].
  assert (∃ out, join_func_and_gff Sample.func_named Sample.gff_simliar twice
                   "ERDMAN_ID" = Ok out) as [out E]
    by (eexists; vm_compute; reflexivity).
  exists out. split; [exact E|]. split; [reflexivity|].
  destruct (output_rows_distinct_and_full _ _ _ _ _ Hf Ht E) as (Hnd & _).
  split; [|exact Hnd].
  vm_compute in E. by injection E as <-.
Defined.

(** X12: no row is invented.  Every row of the output stems from a row of
    the result table: it carries that row's values in every output column
    taken from the result table. *)
Theorem output_rows_from_result_rows (func_df : DataFrame)
    (gff : list FeatureLine) (table_to_annot : DataFrame) (id_col : string)
    (out : Written) :
  frame_ok func_df → frame_ok table_to_annot →
  join_func_and_gff func_df gff table_to_annot id_col = Ok out →
  ∀ r', r' ∈ values (table out) →
    ∃ r, r ∈ values table_to_annot
      ∧ ∀ n, n ∈ output_columns → n ∈ columns table_to_annot → n ≠ "Name" →
          cells_of n (columns (table out)) r' = cells_of n (columns table_to_annot) r.
Proof.
  intros Hf Ht E r' Hr'.
  destruct (output_row_origin _ _ _ _ _ Hf Ht E) as (-> & _ & Horigin).
  by apply Horigin.
Qed.

Lemma output_rows_from_result_rows_witness :
  frame_ok Sample.func_named ∧ frame_ok Sample.result_table2
  ∧ ∃ out, join_func_and_gff Sample.func_named Sample.gff_simliar
             Sample.result_table2 "ERDMAN_ID" = Ok out
      ∧ ∀ r', r' ∈ values (table out) →
          ∃ r, r ∈ values Sample.result_table2
            ∧ cells_of "Id" (columns (table out)) r'
              = cells_of "Id" (columns Sample.result_table2) r.
Proof.
  assert (frame_ok Sample.func_named) as Hf by frame_ok_tac.
  assert (frame_ok Sample.result_table2) as Ht by frame_ok_tac.
  split; [exact Hf|]. split; [exact Ht|].
  assert (∃ out, join_func_and_gff Sample.func_named Sample.gff_simliar
                   Sample.result_table2 "ERDMAN_ID" = Ok out) as [out E]
    by (eexists; vm_compute; reflexivity).
  exists out. split; [exact E|]. intros r' Hr'.
  destruct (output_rows_from_result_rows _ _ _ _ _ Hf Ht E r' Hr') as (r & Hr & Hc).
  exists r. split; [exact Hr|]. apply Hc; [in_list | in_list | discriminate].
Defined.

Lemma cds_lines_elem gff ds (line : FeatureLine) (d : dict) :
  traverse apply_attributes_to_json gff = Ok ds →
  line ∈ gff → apply_attributes_to_json line = Ok d → type_ line = Some "CDS" →
  (line, d) ∈ cds_lines gff ds.
Proof.
  intros Et Hl Hok Hcds. apply list_elem_of_filter. split; [done|].
  apply list_elem_of_lookup in Hl as [i Hi].
  destruct (traverse_lookup _ _ _ _ _ Et Hi) as (d' & Hd' & Hok').
  assert (d' = d) as -> by congruence.
  apply list_elem_of_lookup. exists i.
  apply lookup_zip_with_Some. by exists line, d.
Qed.

Lemma erdman_to_rv_parsed gff corr :
  erdman_to_rv gff = Ok corr →
  ∃ ds, traverse apply_attributes_to_json gff = Ok ds
    ∧ ∀ d k, d ∈ ds → k ∈ gff_names → get k d = None.
Proof.
  unfold erdman_to_rv, gff_to_df. intros H.
  destruct (traverse apply_attributes_to_json gff) as [ds|]; [|done].
  cbn [bind] in H. exists ds. split; [done|].
  destruct (query_eq _ _ _) as [q|] eqn:Eq; [|done].
  apply query_eq_NoDup in Eq. by apply gff_columns_NoDup.
Qed.

(** C1, as the code has it: in the correspondence-cleaning step (lines
    47-51) every row of the table comes from a CDS line and every CDS
    line gives a row, whose Locus is the Note of the line with every
    occurrence of the literal "simliar to " (so spelled) and then of
    " of M. tuberculosis H37Rv" removed, null when the line has no Note.
    In particular a Note "simliar to RvXXXX of M. tuberculosis H37Rv"
    gives the Locus "RvXXXX", and a Note spelled "similar to ..." keeps
    its prefix. *)
Theorem locus_is_cleaned_note (gff : list FeatureLine) (corr : DataFrame) :
  erdman_to_rv gff = Ok corr →
  columns corr = ["locus_tag"; "Locus"]
  ∧ (∀ r, r ∈ values corr ↔
       ∃ line d, line ∈ gff ∧ apply_attributes_to_json line = Ok d
         ∧ type_ line = Some "CDS"
         ∧ r = [get "locus_tag" d;
                replace " of M. tuberculosis H37Rv" ""
                  <$> (replace "simliar to " "" <$> get "Note" d)])
  ∧ (∀ line d x,
       line ∈ gff → apply_attributes_to_json line = Ok d →
       type_ line = Some "CDS" → has_char " " x = false →
       (get "Note" d
        = Some ("simliar to " +:+ x +:+ " of M. tuberculosis H37Rv") →
        [get "locus_tag" d; Some x] ∈ values corr)
       ∧ (get "Note" d
          = Some ("similar to " +:+ x +:+ " of M. tuberculosis H37Rv") →
          [get "locus_tag" d; Some ("similar to " +:+ x)] ∈ values corr)).
Proof.
  intros Hcorr. destruct (erdman_to_rv_parsed _ _ Hcorr) as (ds & Et & Hfixed).
  assert (∀ d, d ∈ ds → get "type" d = None) as Htype.
  { intros d Hd. apply (Hfixed d "type" Hd).
    apply (bool_decide_unpack _). vm_compute. exact I. }
  destruct (erdman_to_rv_rows _ _ _ Et Htype Hcorr) as [Hcols Hrows].
  assert (∀ line d, line ∈ gff → apply_attributes_to_json line = Ok d →
            type_ line = Some "CDS" →
            [get "locus_tag" d; clean_note (get "Note" d)] ∈ values corr) as Hin.
  { intros line d Hl Hok Hcds. rewrite Hrows.
    apply list_elem_of_fmap. exists (line, d). split; [done|].
    by apply cds_lines_elem. }
  split; [done|]. split.
  - intros r. split.
    + rewrite Hrows. intros ([line d] & -> & [Hcds Hz]%list_elem_of_filter)%list_elem_of_fmap.
      destruct (zip_traverse_elem _ _ _ _ Et Hz) as (Hl & _ & Hok).
      by exists line, d.
    + intros (line & d & Hl & Hok & Hcds & ->). by apply (Hin line d).
  - intros line d x Hl Hok Hcds Hx. split; intros HN.
    + rewrite <- (clean_note_simliar x Hx), <- HN. by apply (Hin line d).
    + rewrite <- (clean_note_similar x Hx), <- HN. by apply (Hin line d).
Qed.

Lemma locus_is_cleaned_note_witness :
  ∃ corr, erdman_to_rv Sample.gff_simliar = Ok corr
    ∧ [Some "ERDMAN_0001"; Some "Rv0001"] ∈ values corr.
Proof.
  assert (∃ corr, erdman_to_rv Sample.gff_simliar = Ok corr) as [corr E]
    by (eexists; vm_compute; reflexivity).
  exists corr. split; [exact E|].
  destruct (locus_is_cleaned_note _ _ E) as (_ & _ & H).
  destruct (H (Sample.cds_line
                 "locus_tag=ERDMAN_0001;Note=simliar to Rv0001 of M. tuberculosis H37Rv")
              [("locus_tag", "ERDMAN_0001");
               ("Note", "simliar to Rv0001 of M. tuberculosis H37Rv")]
              "Rv0001") as [H1 _];
    [left | reflexivity | reflexivity | reflexivity |].
  exact (H1 eq_refl).
Defined.

Lemma without_locus (a b : cell) :
  without "Locus" ["locus_tag"; "Locus"] [a; b] = [a].
Proof. vm_compute. reflexivity. Qed.

Lemma locus_tag_cell n (a : cell) :
  cells_of n ["locus_tag"] [a] = if decide (n = "locus_tag") then [a] else [].
Proof.
  unfold cells_of. cbn [zip_with]. rewrite filter_cons. cbn [fst].
  destruct (decide ("locus_tag" = n)) as [<-|Hne].
  - by rewrite decide_True.
  - by rewrite decide_False.
Qed.

(** X13: a gene gets the annotation of its Rv counterpart.  Take a CDS
    line of the GFF, an annotation row whose Locus is the cleaned Note of
    that line, and a result row whose ID is the locus tag of that line (no
    attribute being called type).  Then on a run that completes the output
    has a row with the result row's values in the columns taken from the
    result table and the annotation row's values (Name, Function,
    Functional_Category, Product) in the others. *)
Theorem gene_gets_annotation (func_df : DataFrame) (gff : list FeatureLine)
    (ds : list dict) (table_to_annot : DataFrame) (id_col : string)
    (out : Written) (line : FeatureLine) (d : dict) (f r : row) :
  frame_ok func_df → frame_ok table_to_annot →
  traverse apply_attributes_to_json gff = Ok ds →
  (∀ d, d ∈ ds → get "type" d = None) →
  join_func_and_gff func_df gff table_to_annot id_col = Ok out →
  line ∈ gff → apply_attributes_to_json line = Ok d → type_ line = Some "CDS" →
  f ∈ values func_df →
  cells_of "Locus" (columns func_df) f = [clean_note (get "Note" d)] →
  r ∈ values table_to_annot →
  cells_of id_col (columns table_to_annot) r = [get "locus_tag" d] →
  ∃ r', r' ∈ values (table out)
    ∧ ∀ n, n ∈ output_columns →
        cells_of n (columns (table out)) r'
        = if decide (n ∈ columns table_to_annot ∧ n ≠ "Name")
          then cells_of n (columns table_to_annot) r
          else cells_of n (columns func_df) f.
Proof.
  intros Hf Ht Et Htype E Hline Hok Hcds Hfin Hlocus Hr Hid. pose proof E as E'.
  apply join_func_and_gff_Ok_inv in E'
    as (corr & t & ann & m & p & Hcorr & Hd & Ha & Hm & Hp & ->).
  destruct (annotation_Ok_inv _ _ _ Ha) as (corr' & Hc' & Hm').
  assert (corr' = corr) as -> by congruence.
  destruct (erdman_to_rv_rows _ _ _ Et Htype Hcorr) as [Hcc Hrows].
  destruct (join_annotation_columns func_df t ann m gff id_col Ha Hm) as [Hnolt Hac].
  destruct (join_id_col table_to_annot t ann m id_col Hd Hm) as [_ HidName].
  pose proof Hf as [Hfn Hfw]. pose proof Ht as [Htn Htw].
  (* the correspondence entry of the line, and the annotation row built on it *)
  set (tag := get "locus_tag" d) in *.
  assert (correspondence_row d ∈ values corr) as Hc.
  { rewrite Hrows.
    apply (list_elem_of_fmap_2 (λ ld : FeatureLine * dict, correspondence_row ld.2)
             _ (line, d)).
    by apply cds_lines_elem. }
  assert (f ++ [tag] ∈ values ann) as Hy.
  { replace [tag] with (right_part corr "Locus" "Locus" (correspondence_row d)).
    - apply (merge_row_intro _ _ _ _ _ _ _ _ Hm' Hfin).
      apply list_elem_of_filter. split; [|done].
      rewrite Hcc, Hlocus. apply locus_cell.
    - unfold right_part. rewrite Hcc. apply without_locus. }
  assert (length f = length (columns func_df)) as Hfl
    by apply (proj1 (Forall_forall _ _) Hfw f Hfin).
  assert (∀ n, cells_of n (columns ann) (f ++ [tag])
               = cells_of n (columns func_df) f
                 ++ (if decide (n = "locus_tag") then [tag] else [])) as Hycells.
  { intros n. by rewrite Hac, cells_of_app, locus_tag_cell by done. }
  (* the result row and the merged row *)
  set (x := without "Name" (columns table_to_annot) r).
  assert (x ∈ values t) as Hx
    by (apply (join_left_row table_to_annot t Hd); by exists r).
  assert (x ++ right_part ann id_col "locus_tag" (f ++ [tag]) ∈ values m) as Hw.
  { apply (merge_row_intro _ _ _ _ _ _ _ _ Hm Hx).
    apply list_elem_of_filter. split; [|done].
    rewrite Hycells, (cells_of_absent "locus_tag" (columns func_df)) by done.
    rewrite decide_True by done. cbn [app].
    unfold x. by rewrite (join_left_cells table_to_annot t Hd), Hid. }
  eexists. split.
  { cbn [table]. apply drop_duplicates_elem.
    destruct (loc_Ok_inv _ _ _ Hp) as (_ & _ & ->).
    exact (list_elem_of_fmap_2
             (λ r0 : row, n ← output_columns; cells_of n (columns m) r0) _ _ Hw). }
  intros n Hn. cbn [table drop_duplicates columns].
  destruct (joined_columns _ _ _ _ _ _ _ _ Hfn Htn Hd Ha Hm Hp) as [_ ->].
  rewrite (join_projected_cells func_df table_to_annot t ann m p gff id_col)
    by done.
  rewrite (join_merged_cells func_df table_to_annot t ann m p gff id_col)
    by done.
  assert (n ≠ "locus_tag") as Hnlt.
  { intros ->. revert Hn. apply (bool_decide_eq_false_1 _). reflexivity. }
  pose proof (join_left_columns table_to_annot t Hd n) as Hleft.
  destruct (decide (n ∈ columns t)) as [Hnt|Hnt].
  - rewrite decide_True by by apply Hleft.
    apply (join_left_cells table_to_annot t Hd).
    by apply Hleft in Hnt as [_ ?].
  - rewrite decide_False by (intros ?; by apply Hnt, Hleft).
    rewrite right_part_cells, Hycells by done.
    by rewrite decide_False, app_nil_r by done.
Qed.

Lemma gene_gets_annotation_witness :
  ∃ out r',
    join_func_and_gff Sample.func_named Sample.gff_simliar Sample.result_table2
      "ERDMAN_ID" = Ok out
    ∧ r' ∈ values (table out)
    ∧ cells_of "Id" (columns (table out)) r' = [Some "1"]
    ∧ cells_of "Function" (columns (table out)) r' = [Some "F1"]
    ∧ cells_of "Name" (columns (table out)) r' = [Some "dnaA"].
Proof.
  assert (frame_ok Sample.func_named) as Hf by frame_ok_tac.
  assert (frame_ok Sample.result_table2) as Ht by frame_ok_tac.
  assert (∃ out, join_func_and_gff Sample.func_named Sample.gff_simliar
                   Sample.result_table2 "ERDMAN_ID" = Ok out) as [out E]
    by (eexists; vm_compute; reflexivity).
  destruct (gene_gets_annotation Sample.func_named Sample.gff_simliar
              [[("locus_tag", "ERDMAN_0001"); ("Note", "simliar to Rv0001 of M. tuberculosis H37Rv")]]
              Sample.result_table2 "ERDMAN_ID" out
              (Sample.cds_line "locus_tag=ERDMAN_0001;Note=simliar to Rv0001 of M. tuberculosis H37Rv")
              [("locus_tag", "ERDMAN_0001"); ("Note", "simliar to Rv0001 of M. tuberculosis H37Rv")]
              [Some "Rv0001"; Some "dnaA"; Some "F1"; Some "unknown"; Some "P1"]
              [Some "1"; Some "N"; Some "ERDMAN_0001"; Some "OLD1"; Some "10";
               Some "1.5"; Some "0.01"; Some "0.02"; Some "0.3"]
              Hf Ht) as (r' & Hr' & Hcells);
    [ reflexivity
    | intros d ->%list_elem_of_singleton; reflexivity
    | exact E | in_list | reflexivity | reflexivity
    | in_list | reflexivity | in_list | reflexivity | ].
  exists out, r'. split; [exact E|]. split; [exact Hr'|].
  split; [|split].
  - rewrite (Hcells "Id") by in_list. reflexivity.
  - rewrite (Hcells "Function") by in_list. reflexivity.
  - rewrite (Hcells "Name") by in_list. reflexivity.
Defined.

(** ** Colours, row by row *)

(** Column E of the sheet line written for row [i] of the table. *)
Lemma category_text df i (r : row) (x : cell) :
  values df !! i = Some r → r !! 4 = Some x →
  xlsx.cell_text (write_colored df) (i + 2) 5 = default "" x.
Proof.
  intros Hi Hx. unfold xlsx.cell_text, write_colored, xlsx.to_excel.
  cbn [xlsx.sheet1]. replace (i + 2 - 1) with (S i) by lia.
  change ((?h :: ?l) !! S i) with (l !! i).
  change (map ?f ?l) with (f <$> l).
  rewrite list_lookup_fmap, Hi. cbn [fmap option_fmap option_map mbind option_bind].
  replace (5 - 1) with 4 by done.
  by rewrite list_lookup_fmap, Hx.
Qed.

(** X14: a row that is not the last one and whose fifth cell (column E,
    Functional_Category in the output) is one of the eleven palette labels
    shows that label's colour across columns A to J. *)
Theorem palette_row_colored (df : DataFrame) (i : nat) (r : row)
    (k color : string) (c : nat) :
  values df !! i = Some r → r !! 4 = Some (Some k) →
  (S i < length (values df))%nat →
  (k, color) ∈ color_code → (1 ≤ c ≤ 10)%nat →
  xlsx.background (write_colored df) (i + 2) c = Some color.
Proof.
  intros Hi Hk Hlast Hpal Hc.
  apply (record_in_range_colored df (i + 2) c k color); [lia|done|done|].
  by rewrite (category_text df i r (Some k)).
Qed.

Lemma palette_row_colored_witness :
  let df := mkDF output_columns
              [[Some "1"; Some "N"; Some "OLD1"; Some "F1";
                Some "lipid metabolism"; Some "P1"; Some "10"; Some "1.5";
                Some "0.01"; Some "0.02"];
               [Some "2"; Some "M"; Some "OLD2"; Some "F2";
                Some "PE/PPE"; Some "P2"; Some "7"; Some "0.5";
                Some "0.2"; Some "0.4"]] in
  xlsx.background (write_colored df) 2 1 = Some "#b15928"
  ∧ xlsx.background (write_colored df) 3 1 = None.
Proof.
  intros df. split; [|reflexivity].
  apply (palette_row_colored df 0
           [Some "1"; Some "N"; Some "OLD1"; Some "F1"; Some "lipid metabolism";
            Some "P1"; Some "10"; Some "1.5"; Some "0.01"; Some "0.02"]
           "lipid metabolism" "#b15928" 1);
    [reflexivity | reflexivity | cbn; lia | in_list | lia].
Defined.

Lemma header_text df :
  columns df = output_columns →
  xlsx.cell_text (write_colored df) 1 5 = "Functional_Category".
Proof. intros H. unfold xlsx.cell_text, write_colored, xlsx.to_excel. cbn. by rewrite H. Qed.

Lemma no_palette_label (s : string) :
  bool_decide (Forall (λ kc : string * string, xlsx.text_eq s kc.1 = false)
                      color_code) = true →
  ∀ kc, kc ∈ color_code → xlsx.text_eq s kc.1 = false.
Proof.
  intros H%bool_decide_eq_true_1 kc Hkc.
  by apply (proj1 (Forall_forall _ _) H).
Qed.

(** X15: what the rules leave alone on a run that completes.  The header
    row lies inside the range of every rule but is never coloured, its
    column E holding the text Functional_Category; and the row of a gene
    without annotation (a null Functional_Category, written as an empty
    cell) is never coloured. *)
Theorem header_and_unannotated_not_colored (func_df : DataFrame)
    (gff : list FeatureLine) (table_to_annot : DataFrame) (id_col : string)
    (out : Written) (c : nat) :
  NoDup (columns func_df) → NoDup (columns table_to_annot) →
  join_func_and_gff func_df gff table_to_annot id_col = Ok out →
  xlsx.background (book out) 1 c = None
  ∧ ∀ i r, values (table out) !! i = Some r → r !! 4 = Some None →
      xlsx.background (book out) (i + 2) c = None.
Proof.
  intros Hf Ht E. pose proof E as E'.
  apply join_func_and_gff_Ok_inv in E'
    as (corr & t & ann & m & p & _ & Hd & Ha & Hm & Hp & ->).
  destruct (joined_columns _ _ _ _ _ _ _ _ Hf Ht Hd Ha Hm Hp) as [_ Hpc].
  cbn [book table]. split.
  - apply unrecognized_not_colored. rewrite header_text by done.
    by apply no_palette_label.
  - intros i r Hi Hnull. apply unrecognized_not_colored.
    rewrite (category_text _ i r None) by done. by apply no_palette_label.
Qed.

Lemma header_and_unannotated_not_colored_witness :
  ∃ out, join_func_and_gff Sample.func_named Sample.gff_simliar
           Sample.result_table2 "ERDMAN_ID" = Ok out
    ∧ xlsx.background (book out) 1 5 = None
    ∧ xlsx.background (book out) 3 5 = None.
Proof.
  assert (NoDup (columns Sample.func_named)) as Hf
    by (apply (bool_decide_unpack _); vm_compute; exact I).
  assert (NoDup (columns Sample.result_table2)) as Ht
    by (apply (bool_decide_unpack _); vm_compute; exact I).
  assert (∃ out, join_func_and_gff Sample.func_named Sample.gff_simliar
                   Sample.result_table2 "ERDMAN_ID" = Ok out) as [out E]
    by (eexists; vm_compute; reflexivity).
  exists out.
  destruct (header_and_unannotated_not_colored _ _ _ _ _ 5 Hf Ht E) as [Hh Hrows].
  split; [exact E|]. split; [exact Hh|].
  apply (Hrows 1 [Some "2"; None; Some "OLD2"; None; None; None; Some "7";
                  Some "-2.1"; Some "0.2"; None]); [|reflexivity].
  vm_compute in E. by injection E as <-.
Defined.

(** ** The name of the output file *)

Import pathlib.

Lemma length_append a b :
  String.length (a +:+ b) = String.length a + String.length b.
Proof.
  induction a as [|c a IH]; [done|]. rewrite append_cons. cbn [String.length].
  by rewrite IH.
Qed.

Lemma take_drop_string n s : take_string n s +:+ drop_string n s = s.
Proof.
  revert s. induction n as [|n IH]; intros [|a s]; try done.
  cbn [take_string drop_string]. by rewrite append_cons, IH.
Qed.

Lemma take_string_app a b : take_string (String.length a) (a +:+ b) = a.
Proof.
  induction a as [|c a IH]; [by destruct b|].
  rewrite append_cons. cbn [String.length take_string]. by rewrite IH.
Qed.

Lemma drop_string_app a b : drop_string (String.length a) (a +:+ b) = b.
Proof.
  induction a as [|c a IH]; [by destruct b|].
  rewrite append_cons. cbn [String.length drop_string]. by rewrite IH.
Qed.

Lemma append_inv_head a b c : a +:+ b = a +:+ c → b = c.
Proof.
  induction a as [|x a IH]; [done|]. rewrite !append_cons. intros [= H]. by apply IH.
Qed.

Lemma rfind_absent c s : has_char c s = false → rfind c s = None.
Proof.
  induction s as [|a s IH]; [done|]. cbn [has_char rfind].
  intros [Ha Hs]%orb_false_elim. by rewrite (IH Hs), Ha.
Qed.

Lemma rfind_app c a b :
  has_char c b = false → rfind c (a +:+ String c b) = Some (String.length a).
Proof.
  intros Hb. induction a as [|x a IH].
  - rewrite append_nil. cbn [rfind]. by rewrite (rfind_absent _ _ Hb), Ascii.eqb_refl.
  - rewrite append_cons. cbn [rfind String.length]. by rewrite IH.
Qed.

Lemma rfind_Some c s i :
  rfind c s = Some i →
  ∃ a b, s = a +:+ String c b ∧ String.length a = i ∧ has_char c b = false.
Proof.
  revert i. induction s as [|x s IH]; intros i; [done|]. cbn [rfind].
  destruct (rfind c s) as [j|] eqn:E.
  - intros [= <-]. destruct (IH j eq_refl) as (a & b & -> & <- & Hb).
    by exists (String x a), b.
  - destruct (Ascii.eqb x c) eqn:Ex; [|done]. intros [= <-].
    apply Ascii.eqb_eq in Ex as ->. exists "", s. repeat split.
    clear IH. induction s as [|y s IH]; [done|]. cbn [rfind has_char] in *.
    destruct (rfind c s); [done|]. destruct (Ascii.eqb y c); [done|]. by apply IH.
Qed.

Lemma take_string_all s : take_string (String.length s) s = s.
Proof. induction s as [|a s IH]; [done|]. cbn [String.length take_string]. by rewrite IH. Qed.

Lemma append_nil_r s : s +:+ "" = s.
Proof. induction s as [|a s IH]; [done|]. by rewrite append_cons, IH. Qed.

(** The suffix of a name is empty or a dot followed by dot-free text, and
    the name is the rest followed by the suffix. *)
Lemma suffix_of_spec n :
  (suffix_of n = "" ∨ ∃ ext, suffix_of n = String "." ext ∧ has_char "." ext = false)
  ∧ take_string (String.length n - String.length (suffix_of n)) n +:+ suffix_of n = n.
Proof.
  unfold suffix_of. destruct (rfind "." n) as [i|] eqn:E.
  2:{ split; [by left|]. cbn [String.length].
      by rewrite Nat.sub_0_r, take_string_all, append_nil_r. }
  destruct (rfind_Some _ _ _ E) as (a & b & -> & <- & Hb).
  destruct ((0 <? String.length a)%nat && _) eqn:Ec.
  - rewrite drop_string_app. split; [right; by exists b|].
    rewrite length_append.
    replace (String.length a + String.length (String "." b)
             - String.length (String "." b)) with (String.length a) by lia.
    by rewrite take_string_app.
  - split; [by left|]. cbn [String.length].
    by rewrite Nat.sub_0_r, take_string_all, append_nil_r.
Qed.

Lemma name_snoc rt dir n : name (mkPath rt (dir ++ [n])) = n.
Proof. unfold name. cbn [parts]. by rewrite last_snoc. Qed.

Lemma suffix_of_ext stem ext :
  stem ≠ "" → ext ≠ "" → has_char "." ext = false →
  suffix_of (stem +:+ "." +:+ ext) = String "." ext.
Proof.
  intros Hs He Hd. unfold suffix_of. rewrite append_cons, append_nil.
  rewrite (rfind_app _ _ _ Hd), length_append, drop_string_app.
  destruct stem as [|x stem]; [done|]. destruct ext as [|y ext]; [done|].
  cbn [String.length].
  replace (_ && _) with true; [done|]. symmetry.
  apply andb_true_intro. split; [by apply Nat.ltb_lt; lia|apply Nat.ltb_lt; lia].
Qed.

(** X16: the output file sits beside the input and keeps its stem.  When
    the last component of the table's path is [stem.ext], with a non-empty
    stem and a non-empty extension without a dot, the output path has the
    same root and directories and the name [stem.ann.xlsx], whatever the
    extension: two tables that differ only in their extension are written
    to the same file.  A name without any dot gets [.ann.xlsx] appended. *)
Theorem outfile_replaces_extension (s rt : string) (dir : list string)
    (stem ext : string) :
  (Path s = mkPath rt (dir ++ [stem +:+ "." +:+ ext]) →
   stem ≠ "" → ext ≠ "" → has_char "." ext = false →
   outfile s = Ok (mkPath rt (dir ++ [stem +:+ ".ann.xlsx"])))
  ∧ (Path s = mkPath rt (dir ++ [stem]) →
     stem ≠ "" → has_char "." stem = false →
     outfile s = Ok (mkPath rt (dir ++ [stem +:+ ".ann.xlsx"]))).
Proof.
  split.
  - intros HP Hs He Hd. unfold outfile, with_suffix. rewrite HP, name_snoc.
    destruct (stem +:+ "." +:+ ext) as [|x n] eqn:En.
    { destruct stem; [done|]. by rewrite append_cons in En. }
    rewrite <- En, suffix_of_ext by done. cbn [root parts].
    rewrite removelast_last. do 3 f_equal.
    rewrite append_cons, append_nil, length_append.
    replace (String.length stem + String.length (String "." ext)
             - String.length (String "." ext)) with (String.length stem) by lia.
    by rewrite take_string_app.
  - intros HP Hs Hd. unfold outfile, with_suffix. rewrite HP, name_snoc.
    destruct stem as [|x n] eqn:En; [done|]. rewrite <- En in *.
    unfold suffix_of. rewrite (rfind_absent _ _ Hd). cbn [root parts String.length].
    by rewrite removelast_last, Nat.sub_0_r, take_string_all.
Qed.

Lemma outfile_replaces_extension_witness :
  outfile "results/deseq.complete.tsv"
  = Ok (mkPath "" ["results"; "deseq.complete.ann.xlsx"])
  ∧ outfile "results/deseq.complete.csv"
    = Ok (mkPath "" ["results"; "deseq.complete.ann.xlsx"]).
Proof.
  split.
  - apply (proj1 (outfile_replaces_extension "results/deseq.complete.tsv" ""
                    ["results"] "deseq.complete" "tsv")); by vm_compute.
  - apply (proj1 (outfile_replaces_extension "results/deseq.complete.csv" ""
                    ["results"] "deseq.complete" "csv")); by vm_compute.
Defined.

Lemma parts_snoc_name (p : PurePath) :
  parts p ≠ [] → parts p = removelast (parts p) ++ [name p].
Proof.
  intros Hne. unfold name.
  destruct (exists_last (l:=parts p)) as (l' & z & Hl); [done|].
  by rewrite Hl, removelast_last, last_snoc.
Qed.

Lemma outfile_Ok_inv s p :
  outfile s = Ok p →
  parts (Path s) ≠ []
  ∧ p = mkPath (root (Path s))
          (removelast (parts (Path s))
           ++ [take_string (String.length (name (Path s))
                             - String.length (suffix_of (name (Path s))))
                           (name (Path s)) +:+ ".ann.xlsx"]).
Proof.
  unfold outfile, with_suffix.
  destruct (name (Path s)) as [|x n] eqn:En; [done|]. rewrite <- En. intros [= <-].
  split; [|done]. intros Hnil. unfold name in En. by rewrite Hnil in En.
Qed.

Lemma outfile_differs s p : outfile s = Ok p → p ≠ Path s.
Proof.
  intros (Hne & ->)%outfile_Ok_inv Heq.
  apply (f_equal parts) in Heq. cbn [parts] in Heq.
  pose proof (eq_trans Heq (parts_snoc_name _ Hne)) as H.
  apply app_inj_tail in H as [_ H].
  destruct (suffix_of_spec (name (Path s))) as [Hsfx Hcut].
  pose proof (eq_trans H (eq_sym Hcut)) as Heq'.
  apply append_inv_head in Heq'.
  destruct Hsfx as [H0|(ext & Hext & Hd)]; rewrite ?H0, ?Hext in Heq'; [done|].
  injection Heq' as <-. done.
Qed.

(** X17: the output never takes the place of its input.  Whenever line
    80 returns a path, that path differs from the path of the table; it has
    the same root and the same directories, and its name ends with
    [.ann.xlsx]. *)
Theorem outfile_not_input (s : string) (p : PurePath) :
  outfile s = Ok p →
  p ≠ Path s
  ∧ root p = root (Path s)
  ∧ removelast (parts p) = removelast (parts (Path s))
  ∧ ∃ base, name p = base +:+ ".ann.xlsx".
Proof.
  intros Ho. split; [by apply outfile_differs|].
  apply outfile_Ok_inv in Ho as (_ & ->). cbn [root parts].
  rewrite removelast_last, name_snoc. split; [done|]. split; [done|]. by eexists.
Qed.

Lemma outfile_not_input_witness :
  ∃ p, outfile "deseq.ann.xlsx" = Ok p
    ∧ p ≠ Path "deseq.ann.xlsx"
    ∧ name p = "deseq.ann.ann.xlsx".
Proof.
  assert (∃ p, outfile "deseq.ann.xlsx" = Ok p) as [p E]
    by (eexists; vm_compute; reflexivity).
  exists p. destruct (outfile_not_input _ _ E) as (Hne & _).
  split; [exact E|]. split; [exact Hne|].
  vm_compute in E. by injection E as <-.
Defined.

(** X18: line 80 raises ValueError exactly for a table path without a
    name, one whose /-separated components are all empty or "." (the empty
    string, ".", "/", "./"): every other path gets an output path. *)
Theorem outfile_needs_name (s : string) :
  (outfile s = Err ValueError ↔ Forall (λ x, x = "" ∨ x = ".") (split "/" s))
  ∧ (is_ok (outfile s) = false → outfile s = Err ValueError).
Proof.
  assert (parts (Path s) = [] ↔ Forall (λ x, x = "" ∨ x = ".") (split "/" s)) as Hempty.
  { unfold Path. cbn [parts]. induction (split "/" s) as [|x l IH].
    - split; [intros _; apply Forall_nil_2|done].
    - rewrite filter_cons, Forall_cons. case_decide as E.
      + split; [done|]. intros [[?|?] _]; by destruct E.
      + rewrite IH. split; [|tauto]. intros H. split; [|done].
        destruct (decide (x = "")) as [?|?]; [by left|right].
        destruct (decide (x = ".")) as [?|?]; [done|]. by destruct E. }
  assert (parts (Path s) ≠ [] → is_ok (outfile s) = true) as Hok.
  { intros Hne. unfold outfile, with_suffix, name.
    destruct (exists_last (l:=parts (Path s))) as (l' & z & Hl); [done|].
    rewrite Hl, last_snoc. cbn [default from_option id].
    assert (z ∈ parts (Path s)) as Hz by (rewrite Hl, elem_of_app; right; left).
    unfold Path in Hz. cbn [parts] in Hz.
    apply list_elem_of_filter in Hz as [[Hz _] _]. by destruct z. }
  assert (parts (Path s) = [] → outfile s = Err ValueError) as Herr.
  { intros Hnil. unfold outfile, with_suffix, name. by rewrite Hnil. }
  split.
  - rewrite <- Hempty. split; [|done]. intros Hv.
    destruct (decide (parts (Path s) = [])) as [?|Hne]; [done|].
    apply Hok in Hne. by rewrite Hv in Hne.
  - intros Hno. destruct (decide (parts (Path s) = [])) as [?|Hne]; [by apply Herr|].
    by rewrite (Hok Hne) in Hno.
Qed.

(** ** The program on files *)

Section ProgramProperties.

Variable requests_get : string → option (nat * string).
Variable read_csv : string → option DataFrame.
Variable read_gff : string → option (list FeatureLine).
Variable xlsx_bytes : xlsx.workbook → string.

Local Abbreviation join_files :=
  (join_func_and_gff_files read_csv read_gff xlsx_bytes).
Local Abbreviation download := (download_annotations requests_get).
Local Abbreviation run := (main requests_get read_csv read_gff xlsx_bytes).

(** A step that leaves the files as they are. *)
Local Abbreviation quiet m :=
  (∀ w r w', m w = (r, w') → sys.files w' = sys.files w).

(** What a step of the call on table [t] does to the files: either it
    fails and leaves them as they are; or the output file of [t] is
    created or replaced and nothing else changes, the step having
    completed, or having failed with the ValueError of line 83 after the
    writer opened the file, which is then empty. *)
Local Abbreviation writes_outfile t m :=
  (∀ w r w', m w = (r, w') →
     ((∃ f, r = sys.Failed f) ∧ ∀ q, sys.files w' q = sys.files w q)
     ∨ (∃ o b, outfile t = Ok o
          ∧ (r = sys.Done tt
             ∨ (r = sys.Failed (sys.Raised ValueError) ∧ b = ""))
          ∧ ∀ q, sys.files w' q
                 = if decide (q = o) then Some b else sys.files w q)).

Lemma quiet_read_file {A} (parse : string → option A) path :
  quiet (sys.read_file parse path).
Proof.
  intros w r w'. unfold sys.read_file.
  destruct (sys.files w _) as [b|]; [destruct (parse b)|]; by intros [= <- <-].
Qed.

Lemma quiet_lift {A} (x : result A) : quiet (sys.lift x).
Proof. intros w r w'. unfold sys.lift. destruct x; by intros [= <- <-]. Qed.

Lemma quiet_print m : quiet (sys.print m).
Proof. intros w r w'. unfold sys.print. by intros [= <- <-]. Qed.

Lemma writes_outfile_bind {A} t (m : sys.io A) (k : A → sys.io unit) :
  quiet m → (∀ a, writes_outfile t (k a)) → writes_outfile t (sys.bind m k).
Proof.
  intros Hm Hk w r w'. unfold sys.bind.
  destruct (m w) as [[a|f] w1] eqn:E.
  - intros H. apply Hm in E.
    destruct (Hk a _ _ _ H) as [[Hf Hq]|(o & b & Ho & Hr & Hq)].
    + left. split; [done|]. intros q. by rewrite Hq, E.
    + right. exists o, b. split; [done|]. split; [done|].
      intros q. by rewrite Hq, E.
  - intros [= <- <-]. left. split; [by eexists|]. apply Hm in E. by rewrite E.
Qed.

Lemma check_dimensions_Err df e :
  xlsx.check_dimensions df = Err e → e = ValueError.
Proof. unfold xlsx.check_dimensions. destruct (_ && _); by intros [= <-]. Qed.

Lemma writes_outfile_write t df b :
  writes_outfile t
    (o ←$ sys.lift (outfile t);
     _ ←$ sys.open_wb o;
     _ ←$ sys.lift (xlsx.check_dimensions df);
     sys.write_file o b).
Proof.
  intros w r w'. unfold sys.bind, sys.lift, sys.open_wb, sys.write_file.
  destruct (outfile t) as [o|e]; [|intros [= <- <-]; left; split; [by eexists|done]].
  destruct (xlsx.check_dimensions df) as [[]|e] eqn:Ec; intros [= <- <-].
  - right. exists o, b. split; [done|]. split; [by left|].
    intros q. cbn [sys.files]. by case_decide.
  - right. exists o, "". split; [done|].
    apply check_dimensions_Err in Ec as ->. split; [by right|done].
Qed.

(** What a call does to the files. *)
Lemma join_files_effect func_txt gff t id_col :
  writes_outfile t (join_files func_txt gff t id_col).
Proof.
  unfold join_func_and_gff_files.
  do 11 (apply writes_outfile_bind;
         [first [apply quiet_read_file | apply quiet_lift | apply quiet_print]
         | intros ?]).
  apply writes_outfile_write.
Qed.

Lemma bind_read_file {A B} (parse : string → option A) path (k : A → sys.io B)
    w b a :
  sys.files w (Path path) = Some b → parse b = Some a →
  sys.bind (sys.read_file parse path) k w = k a w.
Proof. intros Hb Ha. unfold sys.bind, sys.read_file. by rewrite Hb, Ha. Qed.

Lemma bind_lift_Ok {A B} (a : A) (k : A → sys.io B) w :
  sys.bind (sys.lift (Ok a)) k w = k a w.
Proof. reflexivity. Qed.

Lemma bind_lift_Err {A B} e (k : A → sys.io B) w :
  sys.bind (sys.lift (Err e)) k w = (sys.Failed (sys.Raised e), w).
Proof. reflexivity. Qed.

Lemma bind_print {B} m (k : unit → sys.io B) w :
  sys.bind (sys.print m) k w
  = k tt (sys.mkWorld (sys.files w) (sys.stdout w ++ [m])).
Proof. reflexivity. Qed.

(** The call on files is the function on tables, with the three reads
    before it and the write after it. *)
Lemma join_files_run (func_txt gff t id_col : string) (w : sys.world)
    (bf bg bt : string) (func_df table : DataFrame) (lines : list FeatureLine)
    (out : Written) (o : PurePath) :
  sys.files w (Path func_txt) = Some bf → read_csv bf = Some func_df →
  sys.files w (Path gff) = Some bg → read_gff bg = Some lines →
  sys.files w (Path t) = Some bt → read_csv bt = Some table →
  join_func_and_gff func_df lines table id_col = Ok out →
  outfile t = Ok o →
  ∃ w', join_files func_txt gff t id_col w = (sys.Done tt, w')
    ∧ (∀ q, sys.files w' q
            = if decide (q = o) then Some (xlsx_bytes (book out))
              else sys.files w q)
    ∧ sys.stdout w' = sys.stdout w ++ [sys.Unmapped (printed out)].
Proof.
  intros Hbf Hpf Hbg Hpg Hbt Hpt Hjoin Ho.
  unfold join_func_and_gff in Hjoin. unfold join_func_and_gff_files.
  rewrite (bind_read_file _ _ _ _ _ _ Hbf Hpf), (bind_read_file _ _ _ _ _ _ Hbg Hpg).
  destruct (gff_to_df lines) as [g|]; [|done]. cbn [bind] in Hjoin.
  rewrite bind_lift_Ok.
  destruct (query_eq "type" "CDS" g) as [cds|]; [|done]. cbn [bind] in Hjoin.
  rewrite bind_lift_Ok.
  destruct (loc ["locus_tag"; "Note"] cds) as [c|]; [|done]. cbn [bind] in Hjoin.
  rewrite bind_lift_Ok, bind_print.
  rewrite (bind_read_file read_csv t _ (sys.mkWorld (sys.files w) _) bt table Hbt Hpt).
  destruct (drop "Name" table) as [t'|]; [|done]. cbn [bind] in Hjoin.
  rewrite bind_lift_Ok.
  destruct (merge inner func_df _ "Locus" "Locus") as [ann|]; [|done].
  cbn [bind] in Hjoin. rewrite bind_lift_Ok.
  destruct (merge left t' ann id_col "locus_tag") as [m|]; [|done].
  cbn [bind] in Hjoin. rewrite bind_lift_Ok.
  destruct (loc output_columns m) as [p|]; [|done]. cbn [bind] in Hjoin.
  rewrite bind_lift_Ok, Ho, bind_lift_Ok.
  destruct (xlsx.check_dimensions (drop_duplicates p)) as [[]|] eqn:Ec; [|done].
  cbn [bind] in Hjoin. injection Hjoin as <-.
  eexists. split; [reflexivity|]. cbn [sys.files sys.stdout book printed].
  split; [|done]. intros q. by case_decide.
Qed.

Lemma bind_Done_inv {A B} (m : sys.io A) (k : A → sys.io B) w b w' :
  sys.bind m k w = (sys.Done b, w') →
  ∃ a w1, m w = (sys.Done a, w1) ∧ k a w1 = (sys.Done b, w').
Proof.
  unfold sys.bind. destruct (m w) as [[a|f] w1]; [|done]. intros H. by exists a, w1.
Qed.

Lemma read_file_Done_inv {A} (parse : string → option A) path w a w' :
  sys.read_file parse path w = (sys.Done a, w') →
  w' = w ∧ ∃ b, sys.files w (Path path) = Some b ∧ parse b = Some a.
Proof.
  unfold sys.read_file. destruct (sys.files w _) as [b|]; [|done].
  destruct (parse b) as [a'|] eqn:E; [|done]. intros [= <- <-].
  split; [done|]. by exists b.
Qed.

Lemma lift_Done_inv {A} (x : result A) w a w' :
  sys.lift x w = (sys.Done a, w') → w' = w ∧ x = Ok a.
Proof. unfold sys.lift. destruct x; [|done]. by intros [= <- <-]. Qed.

Lemma join_files_Done_inv (func_txt gff t id_col : string) (w w' : sys.world) :
  join_files func_txt gff t id_col w = (sys.Done tt, w') →
  ∃ bf bg bt func_df lines table out o,
    sys.files w (Path func_txt) = Some bf ∧ read_csv bf = Some func_df
    ∧ sys.files w (Path gff) = Some bg ∧ read_gff bg = Some lines
    ∧ sys.files w (Path t) = Some bt ∧ read_csv bt = Some table
    ∧ join_func_and_gff func_df lines table id_col = Ok out
    ∧ outfile t = Ok o
    ∧ (∀ q, sys.files w' q
            = if decide (q = o) then Some (xlsx_bytes (book out))
              else sys.files w q)
    ∧ sys.stdout w' = sys.stdout w ++ [sys.Unmapped (printed out)].
Proof.
  unfold join_func_and_gff_files. intros H.
  apply bind_Done_inv in H as (func_df & w1 & H1 & H).
  apply read_file_Done_inv in H1 as (-> & bf & Hbf & Hpf).
  apply bind_Done_inv in H as (lines & w1 & H1 & H).
  apply read_file_Done_inv in H1 as (-> & bg & Hbg & Hpg).
  apply bind_Done_inv in H as (g & w1 & H1 & H).
  apply lift_Done_inv in H1 as (-> & Hg).
  apply bind_Done_inv in H as (cds & w1 & H1 & H).
  apply lift_Done_inv in H1 as (-> & Hcds).
  apply bind_Done_inv in H as (c & w1 & H1 & H).
  apply lift_Done_inv in H1 as (-> & Hc).
  apply bind_Done_inv in H as ([] & w1 & H1 & H).
  injection H1 as <-.
  apply bind_Done_inv in H as (table & w1 & H1 & H).
  apply read_file_Done_inv in H1 as (-> & bt & Hbt & Hpt).
  apply bind_Done_inv in H as (t' & w1 & H1 & H).
  apply lift_Done_inv in H1 as (-> & Ht').
  apply bind_Done_inv in H as (ann & w1 & H1 & H).
  apply lift_Done_inv in H1 as (-> & Hann).
  apply bind_Done_inv in H as (m & w1 & H1 & H).
  apply lift_Done_inv in H1 as (-> & Hm).
  apply bind_Done_inv in H as (p & w1 & H1 & H).
  apply lift_Done_inv in H1 as (-> & Hp).
  apply bind_Done_inv in H as (o & w1 & H1 & H).
  apply lift_Done_inv in H1 as (-> & Ho).
  apply bind_Done_inv in H as ([] & w1 & H1 & H).
  injection H1 as <-.
  apply bind_Done_inv in H as ([] & w1 & H1 & H).
  apply lift_Done_inv in H1 as (-> & Hfit).
  injection H as <-.
  exists bf, bg, bt, func_df, lines, table.
  eexists (mkWritten _ _ _), o.
  repeat (split; [eassumption|]). split; [|split; [done|]].
  - unfold join_func_and_gff. rewrite Hg. cbn [bind]. rewrite Hcds. cbn [bind].
    rewrite Hc. cbn [bind]. rewrite Ht'. cbn [bind]. rewrite Hann. cbn [bind].
    rewrite Hm. cbn [bind]. rewrite Hp. cbn [bind]. rewrite Hfit. reflexivity.
  - split; [|done]. intros q. cbn [sys.files book]. by case_decide.
Qed.


(** *** The download and the whole run *)

Lemma default_paths_differ : Path default_func_txt ≠ Path default_gff.
Proof. apply (bool_decide_unpack _). vm_compute. exact I. Qed.

Lemma download_run s1 b1 s2 b2 w :
  requests_get func_annot_url = Some (s1, b1) →
  requests_get corr_h37rv_url = Some (s2, b2) →
  download w
  = (sys.Done tt,
     sys.mkWorld (λ q, if decide (q = Path default_gff) then Some b2
                       else if decide (q = Path default_func_txt) then Some b1
                       else sys.files w q)
                 (sys.stdout w ++ [sys.Downloading])).
Proof.
  intros H1 H2. unfold download_annotations, http_get, sys.bind, sys.print,
    sys.write_file. by rewrite H1, H2.
Qed.

Lemma download_fails w :
  requests_get func_annot_url = None ∨ requests_get corr_h37rv_url = None →
  download w
  = (sys.Failed sys.RequestException,
     sys.mkWorld (sys.files w) (sys.stdout w ++ [sys.Downloading])).
Proof.
  unfold download_annotations, http_get, sys.bind, sys.print, sys.write_file.
  intros [H|H]; [by rewrite H|].
  destruct (requests_get func_annot_url); by rewrite ?H.
Qed.

Lemma download_frame w r w' q :
  download w = (r, w') →
  q ≠ Path default_func_txt → q ≠ Path default_gff →
  sys.files w' q = sys.files w q.
Proof.
  intros H Hf Hg.
  destruct (requests_get func_annot_url) as [[s1 b1]|] eqn:E1.
  - destruct (requests_get corr_h37rv_url) as [[s2 b2]|] eqn:E2.
    + rewrite (download_run _ _ _ _ _ E1 E2) in H. injection H as <- <-.
      cbn [sys.files]. by rewrite !decide_False.
    + rewrite download_fails in H by by right. by injection H as <- <-.
  - rewrite download_fails in H by by left. by injection H as <- <-.
Qed.

Lemma for_each_cons {A} (body : A → sys.io unit) x l w :
  sys.for_each body (x :: l) w
  = match body x w with
    | (sys.Done _, w1) => sys.for_each body l w1
    | (sys.Failed f, w1) => (sys.Failed f, w1)
    end.
Proof. reflexivity. Qed.

Lemma join_files_frame func_txt gff t id_col w r w' q :
  join_files func_txt gff t id_col w = (r, w') →
  outfile t ≠ Ok q → sys.files w' q = sys.files w q.
Proof.
  intros H Hne.
  destruct (join_files_effect _ _ _ _ _ _ _ H)
    as [[_ Hq]|(o & b & Ho & _ & Hq)]; [done|].
  rewrite Hq, decide_False; [done|]. by intros ->.
Qed.

Lemma for_each_frame func_txt gff id_col tables w r w' q :
  sys.for_each (λ t, join_files func_txt gff t id_col) tables w = (r, w') →
  (∀ t, t ∈ tables → outfile t ≠ Ok q) →
  sys.files w' q = sys.files w q.
Proof.
  revert w. induction tables as [|t tables IH]; intros w H Hq.
  - by injection H as <- <-.
  - rewrite for_each_cons in H.
    destruct (join_files func_txt gff t id_col w) as [[[]|f] w1] eqn:E.
    + rewrite (IH _ H) by (intros t' Ht'; apply Hq; by right).
      eapply join_files_frame; [exact E|]. apply Hq. left.
    + injection H as <- <-.
      eapply join_files_frame; [exact E|]. apply Hq. left.
Qed.

Lemma for_each_done func_txt gff id_col tables w w' :
  sys.for_each (λ t, join_files func_txt gff t id_col) tables w
  = (sys.Done tt, w') →
  (∀ q, is_Some (sys.files w q) → is_Some (sys.files w' q))
  ∧ (∀ t, t ∈ tables → ∃ o, outfile t = Ok o ∧ is_Some (sys.files w' o))
  ∧ ∃ ns, length ns = length tables
      ∧ sys.stdout w' = sys.stdout w ++ (sys.Unmapped <$> ns).
Proof.
  revert w. induction tables as [|t tables IH]; intros w H.
  - injection H as <-. split; [done|]. split; [by intros t Ht%elem_of_nil|].
    exists []. by rewrite app_nil_r.
  - rewrite for_each_cons in H.
    destruct (join_files func_txt gff t id_col w) as [[[]|f] w1] eqn:E; [|done].
    apply join_files_Done_inv in E
      as (bf & bg & bt & func_df & lines & table & out & o & _ & _ & _ & _ & _
          & _ & _ & Ho & Hfiles & Hstd1).
    destruct (IH _ H) as (Hmono & Hout & ns & Hlen & Hstd).
    split; [|split].
    + intros q Hq. apply Hmono. rewrite Hfiles. by destruct (decide (q = o)).
    + intros t' [->|Ht']%elem_of_cons; [|by apply Hout].
      exists o. split; [done|]. apply Hmono. by rewrite Hfiles, decide_True.
    + exists (printed out :: ns). split; [by cbn; rewrite Hlen|].
      rewrite Hstd, Hstd1. cbn [fmap list_fmap]. by rewrite <- app_assoc.
Qed.

(** X21: the download saves whatever is answered.  When both requests
    are answered, whatever their status codes, the two bodies are written
    under the two default names, replacing what was there; no other file
    changes and one line is printed. *)
Theorem download_saves_any_answer (s1 s2 : nat) (b1 b2 : string)
    (w : sys.world) :
  requests_get func_annot_url = Some (s1, b1) →
  requests_get corr_h37rv_url = Some (s2, b2) →
  ∃ w', download w = (sys.Done tt, w')
    ∧ sys.files w' (Path default_func_txt) = Some b1
    ∧ sys.files w' (Path default_gff) = Some b2
    ∧ (∀ q, q ≠ Path default_func_txt → q ≠ Path default_gff →
         sys.files w' q = sys.files w q)
    ∧ sys.stdout w' = sys.stdout w ++ [sys.Downloading].
Proof.
  intros H1 H2. eexists. split; [by apply (download_run s1 b1 s2 b2)|].
  cbn [sys.files sys.stdout]. split; [|split; [|split; [|done]]].
  - rewrite decide_False by apply default_paths_differ. by rewrite decide_True.
  - by rewrite decide_True.
  - intros q Hf Hg. by rewrite !decide_False.
Qed.

(** X22: a request that fails stops everything.  When either request
    raises, the download writes neither file, also not the body of a
    first request that was answered, and [main] ends there for every list
    of tables and every choice of [--func_txt] and [--gff]: no table is
    read and nothing is written. *)
Theorem failed_request_stops_everything (w : sys.world) :
  requests_get func_annot_url = None ∨ requests_get corr_h37rv_url = None →
  download w
  = (sys.Failed sys.RequestException,
     sys.mkWorld (sys.files w) (sys.stdout w ++ [sys.Downloading]))
  ∧ ∀ tables id_col func_txt gff,
      run tables id_col func_txt gff w
      = (sys.Failed sys.RequestException,
         sys.mkWorld (sys.files w) (sys.stdout w ++ [sys.Downloading])).
Proof.
  intros H. split; [by apply download_fails|].
  intros tables id_col func_txt gff. unfold main, sys.bind.
  by rewrite (download_fails _ H).
Qed.

(** X23: what a run can touch.  Whether it completes or fails, [main]
    leaves every file as it was except the two default annotation files
    and the output files of its tables. *)
Theorem main_touches_only_outputs (tables : list string)
    (id_col func_txt gff : string) (w w' : sys.world) (r : sys.outcome unit)
    (q : PurePath) :
  run tables id_col func_txt gff w = (r, w') →
  q ≠ Path default_func_txt → q ≠ Path default_gff →
  (∀ t, t ∈ tables → outfile t ≠ Ok q) →
  sys.files w' q = sys.files w q.
Proof.
  intros H Hf Hg Hq. unfold main, sys.bind in H.
  destruct (download w) as [[[]|f] w1] eqn:E.
  - rewrite (for_each_frame _ _ _ _ _ _ _ _ H Hq). by eapply download_frame.
  - injection H as <- <-. by eapply download_frame.
Qed.

(** X24: a run that completes has written everything.  Both default
    annotation files and the output file of every table are there at the
    end, and the run has printed the download line followed by one count
    line per table. *)
Theorem completed_run_wrote_every_output (tables : list string)
    (id_col func_txt gff : string) (w w' : sys.world) :
  run tables id_col func_txt gff w = (sys.Done tt, w') →
  is_Some (sys.files w' (Path default_func_txt))
  ∧ is_Some (sys.files w' (Path default_gff))
  ∧ (∀ t, t ∈ tables → ∃ o, outfile t = Ok o ∧ is_Some (sys.files w' o))
  ∧ ∃ ns, length ns = length tables
      ∧ sys.stdout w'
        = sys.stdout w ++ sys.Downloading :: (sys.Unmapped <$> ns).
Proof.
  intros H. unfold main, sys.bind in H.
  destruct (download w) as [[[]|f] w1] eqn:E; [|done].
  destruct (requests_get func_annot_url) as [[s1 b1]|] eqn:E1;
    [|by rewrite download_fails in E by by left].
  destruct (requests_get corr_h37rv_url) as [[s2 b2]|] eqn:E2;
    [|by rewrite download_fails in E by by right].
  rewrite (download_run _ _ _ _ _ E1 E2) in E. injection E as <-.
  apply for_each_done in H as (Hmono & Hout & ns & Hlen & Hstd).
  cbn [sys.files sys.stdout] in *.
  split; [|split; [|split; [done|]]].
  - apply Hmono. rewrite decide_False by apply default_paths_differ.
    by rewrite decide_True.
  - apply Hmono. by rewrite decide_True.
  - exists ns. split; [done|]. by rewrite Hstd, <- app_assoc.
Qed.

(** X25: with the default options a run annotates from what it has just
    downloaded.  When both requests are answered with bodies that parse,
    and the table is a file of another name, the workbook written for the
    table is the one [join_func_and_gff] makes of the downloaded
    annotation, whatever the two default files held before. *)
Theorem default_run_reads_the_download (t id_col : string) (w : sys.world)
    (s1 s2 : nat) (b1 b2 bt : string) (func_df table : DataFrame)
    (lines : list FeatureLine) (out : Written) (o : PurePath) :
  requests_get func_annot_url = Some (s1, b1) →
  requests_get corr_h37rv_url = Some (s2, b2) →
  read_csv b1 = Some func_df → read_gff b2 = Some lines →
  Path t ≠ Path default_func_txt → Path t ≠ Path default_gff →
  sys.files w (Path t) = Some bt → read_csv bt = Some table →
  join_func_and_gff func_df lines table id_col = Ok out →
  outfile t = Ok o →
  ∃ w', run [t] id_col default_func_txt default_gff w = (sys.Done tt, w')
    ∧ sys.files w' o = Some (xlsx_bytes (book out))
    ∧ sys.stdout w'
      = sys.stdout w ++ [sys.Downloading; sys.Unmapped (printed out)].
Proof.
  intros H1 H2 Hp1 Hp2 Hf Hg Hbt Hpt Hjoin Ho.
  unfold main, sys.bind. rewrite (download_run _ _ _ _ _ H1 H2), for_each_cons.
  edestruct (join_files_run default_func_txt default_gff t id_col)
    as (w2 & -> & Hfiles & Hstd);
    [| exact Hp1 | | exact Hp2 | | exact Hpt | exact Hjoin | exact Ho |].
  - cbn [sys.files]. rewrite decide_False by apply default_paths_differ.
    by rewrite decide_True.
  - cbn [sys.files]. by rewrite decide_True.
  - cbn [sys.files]. by rewrite !decide_False.
  - eexists. split; [reflexivity|].
    split; [by rewrite Hfiles, decide_True|].
    rewrite Hstd. cbn [sys.stdout]. by rewrite <- app_assoc.
Qed.

End ProgramProperties.

(** *** The sample run *)


Lemma download_saves_any_answer_witness :
  SampleRun.requests_get func_annot_url = Some (200, "func")
  ∧ SampleRun.requests_get corr_h37rv_url = Some (503, "gff")
  ∧ ∃ w', download_annotations SampleRun.requests_get SampleRun.world
          = (sys.Done tt, w')
      ∧ sys.files w' (Path default_gff) = Some "gff".
Proof.
  assert (SampleRun.requests_get func_annot_url = Some (200, "func")) as H1
    by (vm_compute; reflexivity).
  assert (SampleRun.requests_get corr_h37rv_url = Some (503, "gff")) as H2
    by (vm_compute; reflexivity).
  split; [exact H1|]. split; [exact H2|].
  destruct (download_saves_any_answer SampleRun.requests_get 200 503 "func"
              "gff" SampleRun.world H1 H2) as (w' & E & _ & Hg & _).
  exists w'. split; [exact E|exact Hg].
Defined.

Lemma failed_request_stops_everything_witness :
  (SampleRun.offline func_annot_url = None
   ∨ SampleRun.offline corr_h37rv_url = None)
  ∧ main SampleRun.offline SampleRun.read_csv SampleRun.read_gff
      SampleRun.xlsx_bytes ["results/table.tsv"] "ERDMAN_ID" "my/func.tsv"
      "my/corr.gff" SampleRun.world
    = (sys.Failed sys.RequestException,
       sys.mkWorld SampleRun.disk [sys.Downloading]).
Proof.
  assert (SampleRun.offline func_annot_url = None
          ∨ SampleRun.offline corr_h37rv_url = None) as H
    by (left; reflexivity).
  split; [exact H|].
  exact (proj2 (failed_request_stops_everything SampleRun.offline
                  SampleRun.read_csv SampleRun.read_gff SampleRun.xlsx_bytes
                  SampleRun.world H)
           ["results/table.tsv"] "ERDMAN_ID" "my/func.tsv" "my/corr.gff").
Defined.

Lemma main_touches_only_outputs_witness :
  ∃ r w',
    main SampleRun.requests_get SampleRun.read_csv SampleRun.read_gff
      SampleRun.xlsx_bytes ["results/table.tsv"] "ERDMAN_ID" "my/func.tsv"
      "my/corr.gff" SampleRun.world = (r, w')
    ∧ Path "my/func.tsv" ≠ Path default_func_txt
    ∧ Path "my/func.tsv" ≠ Path default_gff
    ∧ (∀ t, t ∈ ["results/table.tsv"] → outfile t ≠ Ok (Path "my/func.tsv"))
    ∧ sys.files w' (Path "my/func.tsv") = Some "func".
Proof.
  destruct (main SampleRun.requests_get SampleRun.read_csv SampleRun.read_gff
              SampleRun.xlsx_bytes ["results/table.tsv"] "ERDMAN_ID"
              "my/func.tsv" "my/corr.gff" SampleRun.world) as [r w'] eqn:E.
  assert (Path "my/func.tsv" ≠ Path default_func_txt) as Hf
    by (apply (bool_decide_unpack _); vm_compute; exact I).
  assert (Path "my/func.tsv" ≠ Path default_gff) as Hg
    by (apply (bool_decide_unpack _); vm_compute; exact I).
  assert (∀ t, t ∈ ["results/table.tsv"] → outfile t ≠ Ok (Path "my/func.tsv"))
    as Hq.
  { intros t Ht. apply list_elem_of_singleton in Ht. rewrite Ht.
    vm_compute. intros Heq. discriminate Heq. }
  exists r, w'. split; [reflexivity|]. split; [exact Hf|].
  split; [exact Hg|]. split; [exact Hq|].
  rewrite (main_touches_only_outputs _ _ _ _ _ _ _ _ _ _ _ _ E Hf Hg Hq).
  vm_compute. reflexivity.
Defined.

Lemma sample_run_completes :
  ∃ w', main SampleRun.requests_get SampleRun.read_csv SampleRun.read_gff
          SampleRun.xlsx_bytes ["results/table.tsv"] "ERDMAN_ID"
          "my/func.tsv" "my/corr.gff" SampleRun.world = (sys.Done tt, w').
Proof.
  assert (∃ out, join_func_and_gff Sample.func_named Sample.gff_simliar
                   Sample.result_table2 "ERDMAN_ID" = Ok out) as [out Hjoin]
    by (eexists; vm_compute; reflexivity).
  assert (∃ o, outfile "results/table.tsv" = Ok o) as [o Ho]
    by (eexists; vm_compute; reflexivity).
  unfold main, sys.bind.
  rewrite (download_run SampleRun.requests_get 200 "func" 503 "gff")
    by (vm_compute; reflexivity).
  rewrite for_each_cons.
  match goal with
  | |- context [join_func_and_gff_files _ _ _ _ _ _ _ ?w1] =>
      destruct (join_files_run SampleRun.read_csv SampleRun.read_gff
                  SampleRun.xlsx_bytes "my/func.tsv" "my/corr.gff"
                  "results/table.tsv" "ERDMAN_ID" w1 "func" "gff" "table"
                  Sample.func_named Sample.result_table2 Sample.gff_simliar
                  out o)
        as (w2 & -> & _);
        [vm_compute; reflexivity..|exact Hjoin|exact Ho|by eexists]
  end.
Qed.

Lemma completed_run_wrote_every_output_witness :
  ∃ w', main SampleRun.requests_get SampleRun.read_csv SampleRun.read_gff
          SampleRun.xlsx_bytes ["results/table.tsv"] "ERDMAN_ID"
          "my/func.tsv" "my/corr.gff" SampleRun.world = (sys.Done tt, w')
    ∧ is_Some (sys.files w' (Path default_gff)).
Proof.
  destruct sample_run_completes as [w' E]. exists w'. split; [exact E|].
  destruct (completed_run_wrote_every_output _ _ _ _ _ _ _ _ _ _ E)
    as (_ & Hg & _). exact Hg.
Defined.

Lemma default_run_reads_the_download_witness :
  ∃ out o w',
    join_func_and_gff Sample.func_named Sample.gff_simliar Sample.result_table2
      "ERDMAN_ID" = Ok out
    ∧ outfile "results/table.tsv" = Ok o
    ∧ main SampleRun.requests_get SampleRun.read_csv SampleRun.read_gff
        SampleRun.xlsx_bytes ["results/table.tsv"] "ERDMAN_ID"
        default_func_txt default_gff SampleRun.world = (sys.Done tt, w')
    ∧ sys.files w' o = Some (SampleRun.xlsx_bytes (book out)).
Proof.
  assert (∃ out, join_func_and_gff Sample.func_named Sample.gff_simliar
                   Sample.result_table2 "ERDMAN_ID" = Ok out) as [out Hjoin]
    by (eexists; vm_compute; reflexivity).
  assert (∃ o, outfile "results/table.tsv" = Ok o) as [o Ho]
    by (eexists; vm_compute; reflexivity).
  assert (Path "results/table.tsv" ≠ Path default_func_txt) as Hf
    by (apply (bool_decide_unpack _); vm_compute; exact I).
  assert (Path "results/table.tsv" ≠ Path default_gff) as Hg
    by (apply (bool_decide_unpack _); vm_compute; exact I).
  destruct (default_run_reads_the_download SampleRun.requests_get
              SampleRun.read_csv SampleRun.read_gff SampleRun.xlsx_bytes
              "results/table.tsv" "ERDMAN_ID" SampleRun.world 200 503
              "func" "gff" "table" Sample.func_named Sample.result_table2
              Sample.gff_simliar out o)
    as (w' & E & Hw & _);
    [vm_compute; reflexivity..|exact Hf|exact Hg|vm_compute; reflexivity
    |vm_compute; reflexivity|exact Hjoin|exact Ho|].
  exists out, o, w'. split; [exact Hjoin|]. split; [exact Ho|].
  split; [exact E|exact Hw].
Defined.
